(** * file-share: the resumable chunked-upload server, embedded in Rocq

    The development follows the Express server of the repository (the
    session based one: [/upload/init], [/upload/chunk], [/upload/status],
    [/upload/complete], [/upload], [/download]).  Request handlers become
    functions from a file-system state to a new state and a response;
    the Node library calls they make ([path.join], [path.extname],
    [parseInt], [fs.*Sync]) are modelled by their documented behaviour.

    Modelling boundaries, stated once:
    - JavaScript numbers are integers ([Z]) or [NaN]; fractional JSON
      numbers and magnitudes above 2^53 are outside the model.
    - A JSON text file is represented by the manifest value it denotes
      ([Doc]); an uploaded binary payload ([Raw]) is read back by
      [readJSON] as [null].
    - The directory tree is static: no handler creates a directory. *)

From Stdlib Require Import ZArith Lia Ascii String.
From stdpp Require Import base option list strings pretty gmap.
From Stdlib Require Import Strings.Byte.

Local Open Scope Z_scope.
Local Open Scope string_scope.

(** ** JavaScript values that reach the handlers *)

Module JS.

Inductive num := NaN | Int (z : Z).

Inductive jsval :=
  | JUndefined
  | JNull
  | JBool (b : bool)
  | JNum (z : Z)
  | JStr (s : string).

(** [!v] is false exactly for truthy values. *)
Definition truthy (v : jsval) : bool :=
  match v with
  | JUndefined | JNull => false
  | JBool b => b
  | JNum z => negb (Z.eqb z 0)
  | JStr s => negb (String.eqb s "")
  end.

(** String conversion as done by template literals and [+]. *)
Definition to_string (v : jsval) : string :=
  match v with
  | JUndefined => "undefined"
  | JNull => "null"
  | JBool true => "true"
  | JBool false => "false"
  | JNum z => pretty z
  | JStr s => s
  end.

Definition is_ws (c : ascii) : bool :=
  let n := nat_of_ascii c in
  (Nat.eqb n 32 || Nat.eqb n 9 || Nat.eqb n 10 || Nat.eqb n 11
   || Nat.eqb n 12 || Nat.eqb n 13)%bool.

Fixpoint trim_left (s : string) : string :=
  match s with
  | String c s' => if is_ws c then trim_left s' else s
  | EmptyString => EmptyString
  end.

(** Value of a digit character in the given radix (10 or 16). *)
Definition digit_val (radix : Z) (c : ascii) : option Z :=
  let n := Z.of_nat (nat_of_ascii c) in
  let v :=
    if (Z.leb 48 n && Z.leb n 57)%bool then Some (n - 48)
    else if (Z.leb 97 n && Z.leb n 122)%bool then Some (n - 87)
    else if (Z.leb 65 n && Z.leb n 90)%bool then Some (n - 55)
    else None in
  match v with
  | Some d => if Z.ltb d radix then Some d else None
  | None => None
  end.

(** Longest prefix of digits; [None] when there is no digit at all. *)
Fixpoint parse_digits (radix : Z) (s : string) (acc : option Z) : option Z :=
  match s with
  | String c s' =>
      match digit_val radix c with
      | Some d => parse_digits radix s' (Some (default 0 acc * radix + d))
      | None => acc
      end
  | EmptyString => acc
  end.

Definition strip_sign (s : string) : bool * string :=
  match s with
  | String "-" r => (true, r)
  | String "+" r => (false, r)
  | _ => (false, s)
  end.

Definition strip_radix (s : string) : Z * string :=
  match s with
  | String "0" (String "x" r) => (16, r)
  | String "0" (String "X" r) => (16, r)
  | _ => (10, s)
  end.

(** [parseInt(s)] without a radix argument.  The value is the integer
    the digits denote: JavaScript rounds it to a double, so the two
    agree for the safe integers ([safe_integer] below); of the white
    space JavaScript skips, the ASCII characters are covered. *)
Definition parseInt (s : string) : num :=
  let '(neg, s2) := strip_sign (trim_left s) in
  let '(radix, s3) := strip_radix s2 in
  match parse_digits radix s3 None with
  | None => NaN
  | Some v => Int (if neg then - v else v)
  end.

(** [parseInt(v)] for an arbitrary value: the argument is first
    converted to a string. *)
Definition parseInt_val (v : jsval) : num := parseInt (to_string v).

(** A number as [JSON.stringify] then [JSON.parse] returns it: [NaN]
    becomes [null]. *)
Definition json_num (n : num) : option Z :=
  match n with NaN => None | Int z => Some z end.

Definition lower_ascii (c : ascii) : ascii :=
  let n := nat_of_ascii c in
  if (Nat.leb 65 n && Nat.leb n 90)%bool then ascii_of_nat (n + 32) else c.

(** [s.toLowerCase()] on the ASCII range. *)
Fixpoint toLowerCase (s : string) : string :=
  match s with
  | String c s' => String (lower_ascii c) (toLowerCase s')
  | EmptyString => EmptyString
  end.

End JS.

Export JS.

(** ** Character classes of the names the server builds *)

Fixpoint all_chars (f : ascii -> bool) (s : string) : bool :=
  match s with
  | EmptyString => true
  | String c s' => (f c && all_chars f s')%bool
  end.

Definition is_digit (c : ascii) : bool :=
  let n := nat_of_ascii c in (Nat.leb 48 n && Nat.leb n 57)%bool.

Definition is_lower (c : ascii) : bool :=
  let n := nat_of_ascii c in (Nat.leb 97 n && Nat.leb n 122)%bool.

(** No path separator. *)
Definition no_sep (s : string) : bool :=
  all_chars (fun c => negb (Ascii.eqb c "/")) s.

Definition no_dot (s : string) : bool :=
  all_chars (fun c => negb (Ascii.eqb c ".")) s.

(** A segment that path normalisation keeps as it is. *)
Definition normal_seg (s : string) : bool :=
  negb (String.eqb s "" || String.eqb s "." || String.eqb s "..")%bool.

(** A name that is one path segment: no separator, and neither empty
    nor a dot segment. *)
Definition plain (s : string) : bool := (no_sep s && normal_seg s)%bool.

(** What [n.toString(36)] is made of. *)
Definition base36 (s : string) : bool :=
  all_chars (fun c => (is_digit c || is_lower c)%bool) s.

(** ** Node's [path] module, POSIX flavour, for absolute paths

    Every path the server builds starts from [__dirname], so a
    normalised path is a list of segments below the root, plus the
    trailing separator that [path.normalize] keeps. *)

Module Path.

(** [s.split('/')] *)
Fixpoint split (s : string) : list string :=
  match s with
  | EmptyString => [EmptyString]
  | String c s' =>
      if Ascii.eqb c "/" then EmptyString :: split s'
      else match split s' with
           | seg :: rest => String c seg :: rest
           | [] => [String c EmptyString]
           end
  end.

Record t := mk { segs : list string; trailing : bool }.

(** One step of [normalizeString] for an absolute path: empty and [.]
    segments are skipped, [..] pops (and is dropped at the root). *)
Definition push_seg (stack : list string) (seg : string) : list string :=
  if (String.eqb seg "" || String.eqb seg ".")%bool then stack
  else if String.eqb seg ".." then tail stack
  else seg :: stack.

Definition normalize_segs (l : list string) : list string :=
  rev (fold_left push_seg l []).

Fixpoint ends_with_slash (s : string) : bool :=
  match s with
  | EmptyString => false
  | String c EmptyString => Ascii.eqb c "/"
  | String _ s' => ends_with_slash s'
  end.

Definition nonempty (s : string) : bool := negb (String.eqb s "").

(** [path.join(base, p1, ..., pn)] where [base] is an absolute path
    given by its segments: zero-length arguments are ignored, the rest
    is joined with [/] and normalised. *)
Definition join (base : list string) (parts : list string) : t :=
  let args := List.filter nonempty parts in
  let sg := normalize_segs (base ++ concat (map split args)) in
  {| segs := sg;
     trailing :=
       match last args, sg with
       | Some p, _ :: _ => ends_with_slash p
       | _, _ => false
       end |}.

(** The suffix of [s] that starts at its last dot. *)
Fixpoint last_dot_suffix (s : string) : option string :=
  match s with
  | EmptyString => None
  | String c s' =>
      match last_dot_suffix s' with
      | Some e => Some e
      | None => if Ascii.eqb c "." then Some s else None
      end
  end.

(** Last non-empty segment: what [extname] scans. *)
Definition basename_seg (p : string) : string :=
  default "" (last (List.filter nonempty (split p))).

(** [path.extname(p)]: from the last dot of the last segment to its
    end; empty when there is no dot, when the only dot is the first
    character, and for [..]. *)
Definition extname (p : string) : string :=
  let base := basename_seg p in
  match last_dot_suffix base with
  | None => ""
  | Some e =>
      if String.eqb e base then ""
      else if String.eqb base ".." then ""
      else e
  end.

End Path.

(** ** Manifests and the blob store *)

Record manifest := Manifest {
  fileName : jsval;
  totalChunks : option Z;          (* a number, or null when it was NaN *)
  uploadedChunks : list (option Z) (* numbers, null for a stored NaN *)
}.

Definition hex_digit (n : nat) : ascii :=
  ascii_of_nat (if Nat.ltb n 10 then 48 + n else 87 + n).

(** Escaping of one character inside a JSON string literal. *)
Definition json_escape (c : ascii) : string :=
  let n := nat_of_ascii c in
  if Nat.eqb n 34 then String (ascii_of_nat 92) (String c "")
  else if Nat.eqb n 92 then "\\"
  else if Nat.eqb n 8 then "\b"
  else if Nat.eqb n 9 then "\t"
  else if Nat.eqb n 10 then "\n"
  else if Nat.eqb n 12 then "\f"
  else if Nat.eqb n 13 then "\r"
  else if Nat.ltb n 32 then
    "\u00" +:+ String (hex_digit (n / 16)) (String (hex_digit (n mod 16)) "")
  else String c "".

Fixpoint json_string_body (s : string) : string :=
  match s with
  | EmptyString => EmptyString
  | String c s' => json_escape c +:+ json_string_body s'
  end.

Definition json_value (v : jsval) : string :=
  match v with
  | JStr s => String (ascii_of_nat 34) (json_string_body s)
              +:+ String (ascii_of_nat 34) ""
  | JNum z => pretty z
  | JBool true => "true"
  | JBool false => "false"
  | JNull | JUndefined => "null"
  end.

Definition json_number (o : option Z) : string :=
  match o with Some z => pretty z | None => "null" end.

Fixpoint json_items (l : list (option Z)) : string :=
  match l with
  | [] => ""
  | [x] => json_number x
  | x :: rest => json_number x +:+ "," +:+ json_items rest
  end.

Definition quoted (s : string) : string :=
  String (ascii_of_nat 34) s +:+ String (ascii_of_nat 34) "".

(** [JSON.stringify(manifest)] *)
Definition JSON_stringify (m : manifest) : string :=
  "{" +:+ quoted "fileName" +:+ ":" +:+ json_value (fileName m)
  +:+ "," +:+ quoted "totalChunks" +:+ ":" +:+ json_number (totalChunks m)
  +:+ "," +:+ quoted "uploadedChunks" +:+ ":[" +:+ json_items (uploadedChunks m)
  +:+ "]}".

Definition bytes_of_string (s : string) : list byte :=
  list_byte_of_string s.

Module FS.

Inductive blob :=
  | Raw (b : list byte)       (* binary content *)
  | Doc (m : manifest).       (* the JSON text of a manifest *)

(** The bytes a read stream delivers. *)
Definition blob_bytes (b : blob) : list byte :=
  match b with
  | Raw d => d
  | Doc m => bytes_of_string (JSON_stringify m)
  end.

Record store := Store {
  dirs : gset (list string);
  files : gmap (list string) blob
}.

Inductive errno := ENOENT | EISDIR | ENOTDIR | ERR_INVALID_ARG_TYPE.

Inductive result (A : Type) :=
  | Ok (a : A)
  | Throw (e : errno).
Arguments Ok {A} a.
Arguments Throw {A} e.

Definition bind {A B} (r : result A) (k : A -> result B) : result B :=
  match r with
  | Ok a => k a
  | Throw e => Throw e
  end.

(** [path.dirname] on segments. *)
Definition parent (p : list string) : list string := removelast p.

Definition is_dir (st : store) (p : list string) : bool :=
  bool_decide (p ∈ dirs st).

(** [fs.existsSync]: a path with a trailing separator only names a
    directory. *)
Definition existsSync (st : store) (p : Path.t) : bool :=
  if Path.trailing p then is_dir st (Path.segs p)
  else (is_dir st (Path.segs p)
        || bool_decide (is_Some (files st !! Path.segs p)))%bool.

(** May a regular file be created or replaced at [p]?  The store has no
    limit on the length of a name and takes any byte in it; the
    machine's file system refuses a name of more than 255 bytes and
    Node refuses a path with a NUL byte ([storable] below). *)
Definition check_target (st : store) (p : Path.t) : result unit :=
  if Path.trailing p then Throw ENOTDIR
  else if is_dir st (Path.segs p) then Throw EISDIR
  else match Path.segs p with
       | [] => Throw EISDIR
       | _ :: _ =>
           if is_dir st (parent (Path.segs p)) then Ok tt else Throw ENOENT
       end.

Definition put (st : store) (p : list string) (b : blob) : store :=
  {| dirs := dirs st; files := <[p := b]> (files st) |}.

Definition remove (st : store) (p : list string) : store :=
  {| dirs := dirs st; files := delete p (files st) |}.

(** [fs.writeFileSync(p, data)] *)
Definition writeFileSync (st : store) (p : Path.t) (b : blob) : result store :=
  bind (check_target st p) (fun _ => Ok (put st (Path.segs p) b)).

(** [fs.readFileSync(p)] *)
Definition readFileSync (st : store) (p : Path.t) : result blob :=
  if Path.trailing p then Throw ENOTDIR
  else if is_dir st (Path.segs p) then Throw EISDIR
  else match files st !! Path.segs p with
       | Some b => Ok b
       | None => Throw ENOENT
       end.

(** [fs.renameSync(src, dst)] for a regular file [src]; the handlers
    only ever move the file multer has just stored. *)
Definition renameSync (st : store) (src dst : Path.t) : result store :=
  bind (readFileSync st src) (fun b =>
  bind (check_target st dst) (fun _ =>
  Ok (put (remove st (Path.segs src)) (Path.segs dst) b))).

(** [fs.unlinkSync(p)] *)
Definition unlinkSync (st : store) (p : Path.t) : result store :=
  bind (readFileSync st p) (fun _ => Ok (remove st (Path.segs p))).

(** Opening a write stream (flags [w]): the file is created or
    truncated. *)
Definition open_truncate (st : store) (p : Path.t) : result store :=
  writeFileSync st p (Raw []).

(** Bytes written through an open write stream reach the file while it
    is still linked under [p]. *)
Definition append (st : store) (p : list string) (d : list byte) : store :=
  {| dirs := dirs st;
     files := alter (fun b => Raw (blob_bytes b ++ d)%list) p (files st) |}.

End FS.

Export FS.

(** ** The server *)

Inductive response :=
  | RError (status : nat) (msg : string)     (* res.status(..).json({error}) *)
  | RThrown (e : errno)                      (* 500 from a thrown exception *)
  | RInit (uploadId : string)                (* { uploadId } *)
  | RChunk (uploaded : list (option Z))      (* { ok, uploadedChunks } *)
  | RStatus (uploaded : list (option Z))     (* { uploadedChunks } *)
  | RComplete (file : string)                (* { ok, file } *)
  | RSend (status : nat) (text : string)     (* res.status(..).send(text) *)
  | RDownload (p : Path.t).                  (* res.download(p) *)

(** The spec's error taxonomy, read off a response. *)
Inductive error_kind :=
  | InvalidRequest | SessionNotFound | IncompleteUpload
  | MissingChunkData (index : Z).

Definition imageExts : list string :=
  [".jpg"; ".jpeg"; ".png"; ".gif"; ".bmp"; ".webp"].
Definition videoExts : list string :=
  [".mp4"; ".avi"; ".mov"; ".mkv"; ".webm"].
Definition docExts : list string :=
  [".pdf"; ".doc"; ".docx"; ".xls"; ".xlsx"; ".txt"; ".ppt"; ".pptx"].

Definition includes_str (l : list string) (x : string) : bool :=
  existsb (String.eqb x) l.

Definition categoryForExt (ext : string) : string :=
  let ext := toLowerCase ext in
  if includes_str imageExts ext then "images"
  else if includes_str videoExts ext then "videos"
  else if includes_str docExts ext then "docs"
  else "others".

Definition CATEGORIES : list string := ["images"; "videos"; "docs"; "others"].

(** [arr.includes(idx)] on an array read back from JSON: numbers and
    nulls; [NaN] is equal to neither. *)
Definition includes (l : list (option Z)) (idx : num) : bool :=
  match idx with
  | NaN => false
  | Int z => bool_decide (Some z ∈ l)
  end.

Section Server.

(** Segments of [__dirname], the directory the server runs from. *)
Variable dirname : list string.

Definition UPLOAD_ROOT : list string := Path.segs (Path.join dirname ["uploads"]).
Definition TMP_DIR : list string := Path.segs (Path.join UPLOAD_ROOT ["tmp"]).

Definition manifestPath (uploadId : jsval) : Path.t :=
  Path.join TMP_DIR [to_string uploadId +:+ ".json"].

(** [path.join(TMP_DIR, `${uploadId}.part${i}`)] *)
Definition chunkPath (uploadId i : jsval) : Path.t :=
  Path.join TMP_DIR [to_string uploadId +:+ ".part" +:+ to_string i].

(** Safe JSON read.  A blob the server wrote with [JSON.stringify]
    ([Doc]) reads back as its manifest; any other content ([Raw]) is
    read as [null], which is what [JSON.parse] makes of bytes that are
    not JSON text ([not_json] below). *)
Definition readJSON (st : store) (filePath : Path.t) : result (option manifest) :=
  if negb (existsSync st filePath) then Ok None
  else bind (readFileSync st filePath) (fun b =>
       match b with
       | Raw _ => Ok None
       | Doc m => Ok (Some m)
       end).

(** POST /upload/init; [now] is [Date.now()], [rnd] is
    [Math.floor(Math.random() * 10000)]. *)
Definition upload_init (now rnd : N) (st : store) (fileName totalChunks : jsval)
  : store * response :=
  if (negb (truthy fileName) || negb (truthy totalChunks))%bool then
    (st, RError 400 "fileName and totalChunks required")
  else
    let uploadId := pretty now +:+ "-" +:+ pretty rnd in
    let manifest := {| fileName := fileName;
                       totalChunks := json_num (parseInt_val totalChunks);
                       uploadedChunks := [] |} in
    match writeFileSync st (manifestPath (JStr uploadId)) (Doc manifest) with
    | Ok st' => (st', RInit uploadId)
    | Throw e => (st, RThrown e)
    end.

(** multer's [upload.single(..)] with the disk storage of the server:
    the file part, when there is one, is stored in [TMP_DIR] under
    [Date.now() + '-' + suffix], [suffix] being the six base-36 digits
    drawn from [Math.random()]. *)
Definition multer_single (now : N) (suffix : string) (st : store)
    (part : option (list byte)) : result (store * option Path.t) :=
  match part with
  | None => Ok (st, None)
  | Some b =>
      let p := Path.join TMP_DIR [pretty now +:+ "-" +:+ suffix] in
      bind (writeFileSync st p (Raw b)) (fun st' => Ok (st', Some p))
  end.

(** POST /upload/chunk, the handler after multer. *)
Definition upload_chunk (st : store) (uploadId chunkIndex : jsval)
    (chunkFile : option Path.t) : store * response :=
  if (negb (truthy uploadId) || negb (truthy chunkIndex))%bool then
    (st, RError 400 "uploadId and chunkIndex required")
  else
    match readJSON st (manifestPath uploadId) with
    | Throw e => (st, RThrown e)
    | Ok None => (st, RError 400 "Invalid or missing manifest file")
    | Ok (Some manifest) =>
        match chunkFile with
        | None => (st, RError 400 "Chunk file missing")
        | Some src =>
            match renameSync st src (chunkPath uploadId chunkIndex) with
            | Throw e => (st, RThrown e)
            | Ok st1 =>
                let idx := parseInt_val chunkIndex in
                let uploaded :=
                  if includes (uploadedChunks manifest) idx
                  then uploadedChunks manifest
                  else (uploadedChunks manifest ++ [json_num idx])%list in
                let manifest' := {| fileName := fileName manifest;
                                    totalChunks := totalChunks manifest;
                                    uploadedChunks := uploaded |} in
                match writeFileSync st1 (manifestPath uploadId) (Doc manifest') with
                | Throw e => (st1, RThrown e)
                | Ok st2 => (st2, RChunk uploaded)
                end
            end
        end
    end.

(** The whole request: multer, then the handler. *)
Definition post_upload_chunk (now : N) (suffix : string) (st : store)
    (uploadId chunkIndex : jsval) (part : option (list byte))
  : store * response :=
  match multer_single now suffix st part with
  | Throw e => (st, RThrown e)
  | Ok (st', f) => upload_chunk st' uploadId chunkIndex f
  end.

(** GET /upload/status *)
Definition upload_status (st : store) (uploadId : jsval) : response :=
  if negb (truthy uploadId) then RError 400 "uploadId required"
  else match readJSON st (manifestPath uploadId) with
       | Throw e => RThrown e
       | Ok None => RError 404 "Upload not found"
       | Ok (Some manifest) => RStatus (uploadedChunks manifest)
       end.

(** The chunk indices [1 .. totalChunks] of the two [for] loops. *)
Definition chunk_indices (total : option Z) : list Z :=
  match total with
  | Some n => seqZ 1 n
  | None => []
  end.

(** The background assembly started by /upload/complete: the
    destination of the write stream and the chunks to pipe into it. *)
Record task := Task { dest : Path.t; chunks : list Path.t }.

(** POST /upload/complete, up to the response.  The assembly itself is
    only started here (an [async] function that is not awaited); it is
    returned as the pending [task].  The write stream is created
    inside the [try] and opens its file later, as part of the task;
    what [createWriteStream] refuses at once, a path with a NUL byte,
    is outside the model ([storable] below). *)
Definition upload_complete (now : N) (st : store) (uploadId : jsval)
  : store * response * option task :=
  if negb (truthy uploadId) then (st, RError 400 "uploadId required", None)
  else
    match readJSON st (manifestPath uploadId) with
    | Throw e => (st, RThrown e, None)
    | Ok None => (st, RError 400 "Invalid uploadId or manifest missing", None)
    | Ok (Some manifest) =>
        if negb (bool_decide (Some (Z.of_nat (length (uploadedChunks manifest)))
                              = totalChunks manifest))
        then (st, RError 400 "Not all chunks uploaded yet", None)
        else
          let indices := chunk_indices (totalChunks manifest) in
          match List.find (fun i => negb (existsSync st (chunkPath uploadId (JNum i))))
                          indices with
          | Some i => (st, RError 400 ("Missing chunk file: part" +:+ pretty i), None)
          | None =>
              let finalName := pretty now +:+ "-" +:+ to_string (fileName manifest) in
              match fileName manifest with
              | JStr name =>
                  let ext := Path.extname name in
                  let cat := categoryForExt ext in
                  let finalDest := Path.join UPLOAD_ROOT [cat; finalName] in
                  let job := {| dest := finalDest;
                                chunks := map (fun i => chunkPath uploadId (JNum i))
                                              indices |} in
                  match unlinkSync st (manifestPath uploadId) with
                  | Throw e => (st, RThrown e, Some job)
                  | Ok st' =>
                      (st', RComplete ("/uploads/" +:+ cat +:+ "/" +:+ finalName),
                       Some job)
                  end
              | _ => (st, RThrown ERR_INVALID_ARG_TYPE, None)
              end
          end
    end.

(** How the background assembly ends: the write stream was closed
    ([Done]), or an error nobody listens for took the process down. *)
Inductive outcome :=
  | Done (st : store)
  | Crashed (st : store) (e : errno).

(** The loop of the [async] function: pipe chunk [i] into the write
    stream, unlink it at the end of its read stream, go on. *)
Fixpoint pipe_chunks (st : store) (dst : list string) (cs : list Path.t)
  : outcome :=
  match cs with
  | [] => Done st
  | c :: rest =>
      match readFileSync st c with
      | Throw e => Crashed st e
      | Ok data =>
          let st1 := append st dst (blob_bytes data) in
          match unlinkSync st1 c with
          | Throw e => Crashed st1 e
          | Ok st2 => pipe_chunks st2 dst rest
          end
      end
  end.

Definition run_task (st : store) (t : task) : outcome :=
  match open_truncate st (dest t) with
  | Throw e => Crashed st e
  | Ok st0 => pipe_chunks st0 (Path.segs (dest t)) (chunks t)
  end.

Definition outcome_store (o : outcome) : store :=
  match o with Done st | Crashed st _ => st end.

(** /upload/complete followed by its background work, with no other
    request in between. *)
Definition complete_and_assemble (now : N) (st : store) (uploadId : jsval)
  : outcome * response :=
  match upload_complete now st uploadId with
  | (st', r, Some job) => (run_task st' job, r)
  | (st', r, None) => (Done st', r)
  end.

(** GET /download *)
Definition download (st : store) (p : jsval) : response :=
  if negb (truthy p) then RSend 400 "path required"
  else
    let safePath := Path.join dirname [to_string p] in
    if negb (existsSync st safePath) then RSend 404 "not found"
    else RDownload safePath.

(** A file directly inside the temporary directory. *)
Definition tmp_file (name : string) : Path.t :=
  Path.mk (TMP_DIR ++ [name]) false.

(** *** Deployment layout

    What the start-up code guarantees and no handler changes: the
    temporary directory and the category directories exist, and hold no
    sub-directory. *)

Definition flat_dir (st : store) (d : list string) : bool :=
  forallb (fun p => negb (bool_decide (p <> [] /\ parent p = d)))
          (elements (dirs st)).

Definition layout_ok (st : store) : bool :=
  (is_dir st TMP_DIR && flat_dir st TMP_DIR
   && forallb (fun c => is_dir st (UPLOAD_ROOT ++ [c])%list
                        && flat_dir st (UPLOAD_ROOT ++ [c])%list)
              CATEGORIES)%bool.

(** *** Sequences of requests *)

(** One chunk registration as the client script sends it: the index in
    decimal, the payload, and what multer draws for the temporary
    name. *)
Record chunk_req := ChunkReq {
  c_index : Z;
  c_bytes : list byte;
  c_now : N;
  c_suffix : string
}.

Definition register (st : store) (id : string) (r : chunk_req) : store * response :=
  post_upload_chunk (c_now r) (c_suffix r) st (JStr id) (JStr (pretty (c_index r)))
                    (Some (c_bytes r)).

Definition register_all (st : store) (id : string) (regs : list chunk_req) : store :=
  fold_left (fun s r => fst (register s id r)) regs st.

(** The payload registered for index [i]. *)
Definition payload (regs : list chunk_req) (i : Z) : list byte :=
  match List.find (fun r => Z.eqb (c_index r) i) regs with
  | Some r => c_bytes r
  | None => []
  end.

Inductive request :=
  | ReqInit (now rnd : N) (fileName totalChunks : jsval)
  | ReqChunk (now : N) (suffix : string) (uploadId chunkIndex : jsval)
             (part : option (list byte))
  | ReqStatus (uploadId : jsval)
  | ReqComplete (now : N) (uploadId : jsval).

(** The store a request leaves behind (for a completion, once its
    background assembly has ended). *)
Definition handle (st : store) (r : request) : store :=
  match r with
  | ReqInit now rnd f t => fst (upload_init now rnd st f t)
  | ReqChunk now suffix id ci part => fst (post_upload_chunk now suffix st id ci part)
  | ReqStatus _ => st
  | ReqComplete now id => outcome_store (fst (complete_and_assemble now st id))
  end.

(** *** Two chunk requests in flight at once

    Node runs one callback at a time.  A chunk request is two
    callbacks: multer finishing the temporary file ([Receive]), then
    the route handler, which only makes synchronous calls and so runs
    to its response without interruption ([Respond]). *)

Record chunk_call := ChunkCall {
  q_now : N;
  q_suffix : string;
  q_uploadId : jsval;
  q_chunkIndex : jsval;
  q_part : option (list byte)
}.

Inductive event := Receive (k : bool) | Respond (k : bool).

Record loop_state := LoopState {
  l_store : store;
  l_file : bool -> option (option Path.t);   (* req.file once multer is done *)
  l_resp : bool -> option response
}.

Definition set_at {A} (f : bool -> A) (k : bool) (a : A) : bool -> A :=
  fun j => if Bool.eqb j k then a else f j.

Definition loop_step (calls : bool -> chunk_call) (s : loop_state) (e : event)
  : loop_state :=
  match e with
  | Receive k =>
      let q := calls k in
      match multer_single (q_now q) (q_suffix q) (l_store s) (q_part q) with
      | Ok (st', f) =>
          {| l_store := st'; l_file := set_at (l_file s) k (Some f);
             l_resp := l_resp s |}
      | Throw e =>
          {| l_store := l_store s; l_file := l_file s;
             l_resp := set_at (l_resp s) k (Some (RThrown e)) |}
      end
  | Respond k =>
      let q := calls k in
      match l_file s k, l_resp s k with
      | Some f, None =>
          let '(st', r) := upload_chunk (l_store s) (q_uploadId q) (q_chunkIndex q) f in
          {| l_store := st'; l_file := l_file s;
             l_resp := set_at (l_resp s) k (Some r) |}
      | _, _ => s
      end
  end.

Definition run_loop (calls : bool -> chunk_call) (st : store) (sched : list event)
  : loop_state :=
  fold_left (loop_step calls) sched
            {| l_store := st; l_file := fun _ => None; l_resp := fun _ => None |}.

(** All interleavings of two event sequences. *)
Fixpoint interleave_aux (fuel : nat) (a b : list event) : list (list event) :=
  match fuel with
  | O => [[]]
  | S fuel' =>
      match a, b with
      | [], _ => [b]
      | _, [] => [a]
      | x :: a', y :: b' =>
          (map (cons x) (interleave_aux fuel' a' b)
           ++ map (cons y) (interleave_aux fuel' a b'))%list
      end
  end.

Definition interleave (a b : list event) : list (list event) :=
  interleave_aux (length a + length b) a b.

(** The schedules of two concurrent chunk requests. *)
Definition schedules : list (list event) :=
  interleave [Receive false; Respond false] [Receive true; Respond true].

Definition is_ok (r : option response) : bool :=
  match r with Some (RChunk _) => true | _ => false end.

End Server.

(** [r] is a session creation whose fresh identifier names the
    manifest file [p]. *)
Definition creates (dirname : list string) (r : request) (p : Path.t) : Prop :=
  match r with
  | ReqInit now rnd _ _ =>
      Path.segs (manifestPath dirname (JStr (pretty now +:+ "-" +:+ pretty rnd)))
      = Path.segs p
  | _ => False
  end.

(** The integer entries of an [uploadedChunks] array (a stored [NaN]
    reads back as [null]). *)
Definition int_entries (l : list (option Z)) : list Z := omap id l.

(** [m'] is [m] with [uploadedChunks] extended at its end. *)
Definition grows (m m' : manifest) : Prop :=
  fileName m' = fileName m
  /\ totalChunks m' = totalChunks m
  /\ (exists more, uploadedChunks m' = (uploadedChunks m ++ more)%list)
  /\ (NoDup (int_entries (uploadedChunks m))
      -> NoDup (int_entries (uploadedChunks m'))).

(** Every manifest of [st'] is a manifest of [st], possibly grown; the
    directories are the same. *)
Definition docs_grow (st st' : store) : Prop :=
  dirs st' = dirs st
  /\ forall k m', files st' !! k = Some (Doc m') ->
       exists m, files st !! k = Some (Doc m) /\ grows m m'.

(** ** What the machine limits

    The store takes a file name of any length and the numbers of the
    model are integers of any size.  On the machine a file name has at
    most 255 bytes and no NUL byte, a number is a double (integers are
    exact up to [2^53 - 1]), and [JSON.parse] reads whatever bytes lie
    at a manifest path.  The theorems about requests that create files
    state these limits as hypotheses on what a request brings. *)

Definition NAME_MAX : nat := 255.

Definition no_nul (s : string) : bool :=
  all_chars (fun c => negb (Nat.eqb (nat_of_ascii c) 0)) s.

(** The bytes a name takes on disk: a character above 127 is counted
    for two, its UTF-8 encoding. *)
Fixpoint utf8_length (s : string) : nat :=
  match s with
  | EmptyString => 0
  | String c s' => (if Nat.ltb (nat_of_ascii c) 128 then 1 else 2) + utf8_length s'
  end.

(** A name the file system takes for a file. *)
Definition storable (s : string) : bool :=
  (Nat.leb (utf8_length s) NAME_MAX && no_nul s)%bool.

(** [Number.MAX_SAFE_INTEGER] *)
Definition MAX_SAFE_INTEGER : Z := 2 ^ 53 - 1.

(** An integer that a double holds exactly, and that [parseInt] and the
    conversion to a string give back digit by digit. *)
Definition safe_integer (z : Z) : bool :=
  (Z.leb (- MAX_SAFE_INTEGER) z && Z.leb z MAX_SAFE_INTEGER)%bool.

(** An upload identifier short enough for its manifest [<id>.json] and
    its chunk files [<id>.part<i>], [i] a safe integer, to be storable:
    the longest of them, [<id>.part-9007199254740991], has 22 bytes
    more than the identifier. *)
Definition storable_id (id : string) : bool :=
  (Nat.leb (utf8_length id) (NAME_MAX - 22) && no_nul id)%bool.

(** A chunk registration within these limits: a safe index, and a
    storable temporary name for multer. *)
Definition reg_fits (r : chunk_req) : bool :=
  (safe_integer (c_index r)
   && storable (pretty (c_now r) +:+ "-" +:+ c_suffix r))%bool.

Definition json_ws (b : byte) : bool :=
  let n := Byte.to_nat b in
  (Nat.eqb n 32 || Nat.eqb n 9 || Nat.eqb n 10 || Nat.eqb n 13)%bool.

(** The bytes a JSON value can start with: an opening brace or
    bracket, a quote, a minus sign, a digit, or the first letter of
    [true], [false] and [null]. *)
Definition json_start (b : byte) : bool :=
  let n := Byte.to_nat b in
  (Nat.eqb n 123 || Nat.eqb n 91 || Nat.eqb n 34 || Nat.eqb n 45
   || (Nat.leb 48 n && Nat.leb n 57)
   || Nat.eqb n 116 || Nat.eqb n 102 || Nat.eqb n 110)%bool.

(** Content that [JSON.parse] certainly rejects, so that the server
    reads it as [null]: it is blank, or the first byte after the JSON
    white space cannot start a JSON value. *)
Fixpoint not_json (b : list byte) : bool :=
  match b with
  | [] => true
  | c :: rest => if json_ws c then not_json rest else negb (json_start c)
  end.

(** No stored payload is JSON text: every file of the store is a
    manifest the server wrote, or content the server reads as
    [null]. *)
Definition payloads_not_json (st : store) : bool :=
  forallb (fun kv => match snd kv with
                     | Raw d => not_json d
                     | Doc _ => true
                     end)
          (map_to_list (files st)).

(** ** A concrete deployment, for the examples

    The server runs from [/srv/file-share]; the start-up code has
    created [uploads], [uploads/tmp] and the four category directories;
    [public] holds the page the server redirects to. *)

Definition example_dirname : list string := ["srv"; "file-share"].

Definition example_dirs : list (list string) :=
  [ []; ["srv"]; example_dirname; (example_dirname ++ ["public"])%list;
    UPLOAD_ROOT example_dirname; TMP_DIR example_dirname ]
  ++ map (fun c => (UPLOAD_ROOT example_dirname ++ [c])%list) CATEGORIES.

Definition example_store : store :=
  {| dirs := list_to_set example_dirs;
     files := {[ (example_dirname ++ ["public"; "index.html"])%list
                 := Raw (bytes_of_string "<html>file share</html>") ]} |}.

(** Chunks ["CD"], ["EF"], ["AB"] arriving as indices 2, 3, 1. *)
Definition example_regs : list chunk_req :=
  [ ChunkReq 2 (bytes_of_string "CD") 1701 "k3x9a1";
    ChunkReq 3 (bytes_of_string "EF") 1702 "0zq7mm";
    ChunkReq 1 (bytes_of_string "AB") 1703 "b81c2d" ].

(** The session of the examples: [report.pdf] in three chunks, none
    uploaded yet. *)
Definition example_session : store :=
  fst (upload_init example_dirname 1700 42 example_store
         (JStr "report.pdf") (JNum 3)).

(** Chunks 1 and 2 of that session, sent at the same time. *)
Definition example_calls (k : bool) : chunk_call :=
  if k then ChunkCall 1702 "0zq7mm" (JStr "1700-42") (JStr "2")
                      (Some (bytes_of_string "CD"))
  else ChunkCall 1701 "k3x9a1" (JStr "1700-42") (JStr "1")
                 (Some (bytes_of_string "AB")).

(** A session of two chunks, both uploaded, as /upload/complete finds
    it. *)
Definition two_chunk_session : store :=
  register_all example_dirname
    (fst (upload_init example_dirname 1700 42 example_store
            (JStr "report.pdf") (JNum 2)))
    "1700-42"
    [ ChunkReq 1 (bytes_of_string "AB") 1701 "k3x9a1";
      ChunkReq 2 (bytes_of_string "CD") 1702 "0zq7mm" ].

(** ** The rest of the server: start-up, listing, single-shot upload *)

Module Dir.

(** The guarded creation of the start-up code,
    [if (!fs.existsSync(p)) fs.mkdirSync(p)]: nothing happens when the
    path exists; otherwise the directory is created, which needs its
    parent to be a directory. *)
Definition ensure_dir (st : store) (p : Path.t) : result store :=
  if existsSync st p then Ok st
  else if is_dir st (parent (Path.segs p))
       then Ok {| dirs := {[ Path.segs p ]} ∪ dirs st; files := files st |}
       else if bool_decide (is_Some (files st !! parent (Path.segs p)))
            then Throw ENOTDIR
            else Throw ENOENT.

(** The names of the entries directly inside [d], files and
    directories; the order is the one the directory gives. *)
Definition children (st : store) (d : list string) : list string :=
  omap (fun p => if bool_decide (p <> [] /\ parent p = d) then last p else None)
       (map fst (map_to_list (files st)) ++ elements (dirs st))%list.

(** [fs.readdirSync(d)] *)
Definition readdirSync (st : store) (d : Path.t) : result (list string) :=
  if is_dir st (Path.segs d) then Ok (children st (Path.segs d))
  else if bool_decide (is_Some (files st !! Path.segs d)) then Throw ENOTDIR
  else Throw ENOENT.

End Dir.

Export Dir.

(** One element of the answer of GET /files. *)
Record file_entry := FileEntry {
  e_name : string;
  e_url : string;
  e_category : string
}.

(** [f => ({ name: f, url: `/uploads/${cat}/${f}`, category: cat })] *)
Definition entry_of (cat f : string) : file_entry :=
  {| e_name := f; e_url := "/uploads/" +:+ cat +:+ "/" +:+ f; e_category := cat |}.

Section ServerRest.

Variable dirname : list string.

(** The top of both server files: the upload root, the temporary
    directory and the category directories are created when missing. *)
Definition startup (st : store) : result store :=
  bind (ensure_dir st (Path.join dirname ["uploads"])) (fun st1 =>
  bind (ensure_dir st1 (Path.join (UPLOAD_ROOT dirname) ["tmp"])) (fun st2 =>
  fold_left (fun acc c =>
               bind acc (fun s => ensure_dir s (Path.join (UPLOAD_ROOT dirname) [c])))
            CATEGORIES (Ok st2))).

(** The body of the loop of GET /files for one category. *)
Definition list_category (st : store) (cat : string) : result (list file_entry) :=
  bind (readdirSync st (Path.join (UPLOAD_ROOT dirname) [cat])) (fun names =>
  Ok (map (entry_of cat) names)).

(** GET /files: the entries of the category directories, category by
    category; a missing directory makes [readdirSync] throw. *)
Definition list_files (st : store) : result (list file_entry) :=
  fold_left (fun acc cat =>
               bind acc (fun list =>
               bind (list_category st cat) (fun files =>
               Ok (list ++ files)%list)))
            CATEGORIES (Ok []).

(** [req.file] of a single-shot upload: where multer stored the file
    and the name the client gave it. *)
Record uploaded_file := UploadedFile {
  f_path : Path.t;
  f_originalname : string
}.

(** POST /upload of the session server (fallback single file upload).
    There is no check for a missing file: reading [originalname] of
    [undefined] throws a TypeError inside the [try] (recorded with the
    code of the other TypeError of the model). *)
Definition upload_single (now : N) (st : store) (file : option uploaded_file)
  : store * response :=
  match file with
  | None => (st, RThrown ERR_INVALID_ARG_TYPE)
  | Some file =>
      let originalName := f_originalname file in
      let ext := Path.extname originalName in
      let cat := categoryForExt ext in
      let finalName := pretty now +:+ "-" +:+ originalName in
      let finalDest := Path.join (UPLOAD_ROOT dirname) [cat; finalName] in
      match renameSync st (f_path file) finalDest with
      | Throw e => (st, RThrown e)
      | Ok st' => (st', RComplete ("/uploads/" +:+ cat +:+ "/" +:+ finalName))
      end
  end.

(** multer in front of POST /upload of the session server: the file
    part is stored under [Date.now() + '-' + suffix].  multer passes
    over a file part whose file name is empty: the handler then finds
    no file. *)
Definition post_upload (mnow : N) (suffix : string) (now : N) (st : store)
    (part : option (list byte * string)) : store * response :=
  match part with
  | None => upload_single now st None
  | Some (b, originalName) =>
      if String.eqb originalName "" then upload_single now st None
      else
        match multer_single dirname mnow suffix st (Some b) with
        | Throw e => (st, RThrown e)
        | Ok (st', Some p) =>
            upload_single now st' (Some (UploadedFile p originalName))
        | Ok (st', None) => upload_single now st' None
        end
  end.

(** *** POST /upload of src/server.js

    This older handler looks for a free name before it moves the file:
    [while (fs.existsSync(finalDest))] it tries
    [Date.now()-counter-originalname] with the next counter.  [clock k]
    is the reading of [Date.now()] in round [k] of the search ([clock
    0] for the first name); [fuel] bounds the number of rounds and
    [None] means that it ran out. *)

Definition candidate (clock : nat -> N) (originalName : string) (k : nat) : string :=
  match k with
  | O => pretty (clock O) +:+ "-" +:+ originalName
  | S _ => pretty (clock k) +:+ "-" +:+ pretty (N.of_nat k) +:+ "-" +:+ originalName
  end.

Fixpoint free_name (fuel : nat) (clock : nat -> N) (st : store)
    (catDir : list string) (originalName : string) (k : nat)
  : option (string * Path.t) :=
  let finalName := candidate clock originalName k in
  let finalDest := Path.join catDir [finalName] in
  if existsSync st finalDest then
    match fuel with
    | O => None
    | S fuel' => free_name fuel' clock st catDir originalName (S k)
    end
  else Some (finalName, finalDest).

Definition upload_legacy (fuel : nat) (clock : nat -> N) (st : store)
    (file : option uploaded_file) : option (store * response) :=
  match file with
  | None => Some (st, RError 400 "File missing")
  | Some file =>
      let originalName := f_originalname file in
      let ext := Path.extname originalName in
      let cat := categoryForExt ext in
      let catDir := Path.segs (Path.join (UPLOAD_ROOT dirname) [cat]) in
      match free_name fuel clock st catDir originalName O with
      | None => None
      | Some (finalName, finalDest) =>
          match renameSync st (f_path file) finalDest with
          | Throw e => Some (st, RThrown e)
          | Ok st' =>
              Some (st', RComplete ("/uploads/" +:+ cat +:+ "/" +:+ finalName))
          end
      end
  end.

(** multer of src/server.js keeps the client's name in the temporary
    name: [Date.now() + '-' + file.originalname]; a file part whose
    file name is empty is passed over. *)
Definition multer_legacy (now : N) (st : store) (part : option (list byte * string))
  : result (store * option uploaded_file) :=
  match part with
  | None => Ok (st, None)
  | Some (b, originalName) =>
      if String.eqb originalName "" then Ok (st, None)
      else
        let p := Path.join (TMP_DIR dirname) [pretty now +:+ "-" +:+ originalName] in
        bind (writeFileSync st p (Raw b)) (fun st' =>
        Ok (st', Some (UploadedFile p originalName)))
  end.

(** The whole request: multer, then the handler. *)
Definition post_upload_legacy (fuel : nat) (clock : nat -> N) (mnow : N)
    (st : store) (part : option (list byte * string))
  : option (store * response) :=
  match multer_legacy mnow st part with
  | Throw e => Some (st, RThrown e)
  | Ok (st', file) => upload_legacy fuel clock st' file
  end.

End ServerRest.

(** ** The upload script of the page ([uploadFile] in
    src/public/script.js)

    The script cuts the file into chunks, creates a session, looks up
    the progress item of the file on the page, asks for the status of
    the session, sends the chunks the status does not list, and asks
    for completion.  Here every [fetch] is answered (no network
    failure); the width of the progress bar and the toasts are left
    out.  The chunk size is a parameter; the script fixes it to
    [chunkSize]. *)

Module Client.

Definition chunkSize : Z := 5 * 1024 * 1024.

(** [Math.ceil(a / b)] for [0 <= a], [0 < b]; the quotient of a file
    size by the chunk size is far from where the rounding of the
    floating-point division reaches the next integer. *)
Definition ceil_div (a b : Z) : Z :=
  if Z.eqb (a mod b) 0 then a / b else a / b + 1.

(** [file.slice(start, end)] for [0 <= start] and [end] within the
    file *)
Definition slice (file : list byte) (start end_ : Z) : list byte :=
  take (Z.to_nat (end_ - start)) (drop (Z.to_nat start) file).

(** What the server draws while it serves one run of the script: the
    clock and the random number of /upload/init, multer's clock and
    suffix for the request of chunk [i], the clock of
    /upload/complete. *)
Record draws := Draws {
  d_init_now : N;
  d_init_rnd : N;
  d_chunk_now : Z -> N;
  d_chunk_suffix : Z -> string;
  d_complete_now : N
}.

(** How one run of the script ends. *)
Inductive run :=
  | InitFailed (st : store)
    (* the answer of /upload/init is not JSON: the [catch] of the
       script shows a toast and returns *)
  | NoProgressItem (st : store)
    (* no upload item of the page shows the file name: [itemDiv] is
       undefined and [itemDiv.querySelector] throws; nothing more is
       sent *)
  | StatusFailed (st : store)
    (* the answer of /upload/status is not JSON: [statusRes.json()]
       throws *)
  | Completed (o : outcome) (r : response).
    (* the completion request was sent and answered *)

Section Upload.

Variable dirname : list string.
Variable size_of_chunk : Z.

Definition total_chunks (file : list byte) : Z :=
  ceil_div (Z.of_nat (length file)) size_of_chunk.

(** The chunk of index [i], as the loop of the script cuts it. *)
Definition chunk_of (file : list byte) (i : Z) : list byte :=
  let size := Z.of_nat (length file) in
  let start := (i - 1) * size_of_chunk in
  let end_ := Z.min (start + size_of_chunk) size in
  slice file start end_.

(** The loop over the chunks: a chunk the status lists is skipped, any
    other is posted; the answer of the server is not looked at. *)
Definition send_chunks (env : draws) (uploadId : jsval)
    (uploaded : list (option Z)) (file : list byte) (st : store) : store :=
  fold_left
    (fun s i =>
       if bool_decide (Some i ∈ uploaded) then s
       else fst (post_upload_chunk dirname (d_chunk_now env i)
                   (d_chunk_suffix env i) s
                   (JStr (to_string uploadId)) (JStr (pretty i))
                   (Some (chunk_of file i))))
    (seqZ 1 (total_chunks file)) st.

(** One run of [uploadFile].  [page] is the page as the script finds
    it: the texts ([innerText]) of the [strong] elements of its upload
    items, in document order; [showSelectedFiles] builds one item per
    selected file, each with a progress bar, and fills it through
    [innerHTML], so the text of an item is the file name as HTML
    renders it.  The item of the file is looked up by its text after
    the session has been created, outside any [try]. *)
Definition uploadFile (env : draws) (page : list string) (st : store)
    (name : string) (file : list byte) : run :=
  let totalChunks := total_chunks file in
  let '(st1, initRes) :=
    upload_init dirname (d_init_now env) (d_init_rnd env) st
                (JStr name) (JNum totalChunks) in
  match initRes with
  | RThrown _ => InitFailed st1
  | _ =>
      let uploadId :=
        match initRes with RInit id => JStr id | _ => JUndefined end in
      match List.find (String.eqb name) page with
      | None => NoProgressItem st1
      | Some _ =>
          match upload_status dirname st1 (JStr (to_string uploadId)) with
          | RThrown _ => StatusFailed st1
          | statusData =>
              let uploaded :=
                match statusData with RStatus l => l | _ => [] end in
              let st2 := send_chunks env uploadId uploaded file st1 in
              let '(o, r) :=
                complete_and_assemble dirname (d_complete_now env) st2 uploadId in
              Completed o r
          end
      end
  end.

End Upload.

(** The chunk requests one run of the script sends on a fresh session,
    with what multer draws for each. *)
Definition chunk_requests (size_of_chunk : Z) (env : draws) (file : list byte)
  : list chunk_req :=
  map (fun i => ChunkReq i (chunk_of size_of_chunk file i) (d_chunk_now env i)
                         (d_chunk_suffix env i))
      (seqZ 1 (total_chunks size_of_chunk file)).

End Client.

Export Client.

(** The distinct elements of [l] in the order of their first
    occurrence. *)
Definition first_arrivals (l : list Z) : list Z := rev (remove_dups (rev l)).

(** The directories the start-up code is responsible for. *)
Definition layout_dirs (dirname : list string) : list (list string) :=
  UPLOAD_ROOT dirname :: TMP_DIR dirname
  :: map (fun c => (UPLOAD_ROOT dirname ++ [c])%list) CATEGORIES.

(** The server directory of the examples before the first start. *)
Definition bare_store : store :=
  {| dirs := list_to_set [ []; ["srv"]; example_dirname ]; files := ∅ |}.

(** The example store with one upload already stored under the name
    the next upload would get at clock reading 5. *)
Definition busy_store : store :=
  put example_store (UPLOAD_ROOT example_dirname ++ ["docs"; "5-a.pdf"])%list
      (Raw [x01]%byte).

(** What the server draws in the example run of the script. *)
Definition example_draws : draws :=
  {| d_init_now := 1700000000000;
     d_init_rnd := 42;
     d_chunk_now := fun i => (1700000000000 + Z.to_N i)%N;
     d_chunk_suffix := fun _ => "k3x9qa";
     d_complete_now := 1700000000009 |}.

(** * Facts about strings and paths *)

Lemma all_chars_app f a b :
  all_chars f (a +:+ b) = (all_chars f a && all_chars f b)%bool.
Proof.
  induction a as [|c a IH]; simpl; [done|].
  by rewrite IH, andb_assoc.
Qed.

Lemma all_chars_weaken (f g : ascii -> bool) s :
  (forall c, f c = true -> g c = true) ->
  all_chars f s = true -> all_chars g s = true.
Proof.
  intros Hfg. induction s as [|c s IH]; simpl; [done|].
  rewrite !andb_true_iff. intros [? ?]. auto.
Qed.

Lemma split_no_sep s : no_sep s = true -> Path.split s = [s].
Proof.
  unfold no_sep. induction s as [|c s IH]; simpl; [done|].
  rewrite andb_true_iff, negb_true_iff. intros [Hc Hs].
  rewrite Hc, (IH Hs). done.
Qed.

Lemma ends_with_slash_no_sep s : no_sep s = true -> Path.ends_with_slash s = false.
Proof.
  unfold no_sep. induction s as [|c s IH]; simpl; [done|].
  rewrite andb_true_iff, negb_true_iff. intros [Hc Hs].
  destruct s; [done|]. by apply IH.
Qed.

Lemma push_seg_normal stack s :
  normal_seg s = true -> Path.push_seg stack s = s :: stack.
Proof.
  unfold normal_seg, Path.push_seg. rewrite negb_true_iff, !orb_false_iff.
  intros [[-> ->] ->]. done.
Qed.

Lemma push_seg_keeps_normal stack s :
  forallb normal_seg stack = true ->
  forallb normal_seg (Path.push_seg stack s) = true.
Proof.
  intros Hst. unfold Path.push_seg.
  destruct (String.eqb s "" || String.eqb s ".")%bool eqn:E1; [done|].
  destruct (String.eqb s "..") eqn:E2.
  - destruct stack; simpl in *; [done|]. by apply andb_true_iff in Hst as [_ ?].
  - simpl. rewrite Hst, andb_true_r. unfold normal_seg.
    apply orb_false_iff in E1 as [-> ->]. by rewrite E2.
Qed.

Lemma fold_push_keeps_normal l stack :
  forallb normal_seg stack = true ->
  forallb normal_seg (fold_left Path.push_seg l stack) = true.
Proof.
  revert stack. induction l as [|s l IH]; intros stack Hst; simpl; [done|].
  apply IH. by apply push_seg_keeps_normal.
Qed.

Lemma fold_push_normal l stack :
  forallb normal_seg l = true ->
  fold_left Path.push_seg l stack = (rev l ++ stack)%list.
Proof.
  revert stack. induction l as [|s l IH]; intros stack Hl; simpl in *; [done|].
  apply andb_true_iff in Hl as [Hs Hl].
  rewrite push_seg_normal by done. rewrite IH by done.
  by rewrite <- app_assoc.
Qed.

Lemma normalize_segs_normal l :
  forallb normal_seg (Path.normalize_segs l) = true.
Proof.
  unfold Path.normalize_segs.
  rewrite forallb_forall. intros x Hx. apply in_rev in Hx.
  pose proof (fold_push_keeps_normal l [] eq_refl) as H.
  rewrite forallb_forall in H. by apply H.
Qed.

(** Joining below an already normalised directory continues the
    normalisation where it stopped. *)
Lemma normalize_segs_below l more :
  Path.normalize_segs (Path.normalize_segs l ++ more)
  = rev (fold_left Path.push_seg more (rev (Path.normalize_segs l))).
Proof.
  unfold Path.normalize_segs at 1. rewrite fold_left_app.
  rewrite (fold_push_normal (Path.normalize_segs l))
    by apply normalize_segs_normal.
  by rewrite app_nil_r.
Qed.

Lemma normalize_segs_below_normal l more :
  forallb normal_seg more = true ->
  Path.normalize_segs (Path.normalize_segs l ++ more)
  = (Path.normalize_segs l ++ more)%list.
Proof.
  intros Hm. rewrite normalize_segs_below, fold_push_normal by done.
  by rewrite rev_app_distr, !rev_involutive.
Qed.

(** * Decimal numerals *)

Lemma pretty_N_char_digit x : is_digit (pretty_N_char x) = true.
Proof.
  unfold pretty_N_char.
  repeat (match goal with |- context [match ?y with _ => _ end] => destruct y end;
          try reflexivity).
Qed.

Lemma pretty_N_go_digits x s :
  all_chars is_digit s = true -> all_chars is_digit (pretty_N_go x s) = true.
Proof.
  revert s. induction (N.lt_wf_0 x) as [x _ IH]. intros s Hs.
  destruct (decide (x = 0)%N) as [->|Hx]; [by rewrite pretty_N_go_0|].
  rewrite pretty_N_go_step by lia.
  apply IH; [apply N.div_lt; lia|].
  simpl. by rewrite pretty_N_char_digit, Hs.
Qed.

Lemma pretty_N_digits (x : N) : all_chars is_digit (pretty x) = true.
Proof.
  unfold pretty, pretty_N. case_decide; [done|].
  by apply pretty_N_go_digits.
Qed.

Lemma pretty_N_go_nonempty x s : (0 < x)%N -> pretty_N_go x s <> "".
Proof.
  revert s. induction (N.lt_wf_0 x) as [x _ IH]. intros s Hx.
  rewrite pretty_N_go_step by done.
  destruct (decide (x `div` 10 = 0)%N) as [->|Hd].
  - by rewrite pretty_N_go_0.
  - apply IH; [apply N.div_lt; lia |].
    destruct (x `div` 10)%N; [done | lia].
Qed.

Lemma pretty_N_nonempty (x : N) : pretty x <> "".
Proof.
  unfold pretty, pretty_N. case_decide; [done|].
  apply pretty_N_go_nonempty. lia.
Qed.

Lemma digit_val_pretty_char x :
  (x < 10)%N -> digit_val 10 (pretty_N_char x) = Some (Z.of_N x).
Proof.
  intros Hx.
  assert (x = 0 \/ x = 1 \/ x = 2 \/ x = 3 \/ x = 4 \/ x = 5 \/ x = 6
          \/ x = 7 \/ x = 8 \/ x = 9)%N as Hc by lia.
  repeat (destruct Hc as [->|Hc]; [reflexivity|]). by subst.
Qed.

(** Reading back the digits [pretty_N_go] puts in front of [s]. *)
Lemma parse_digits_pretty_go x :
  (0 < x)%N ->
  exists k : Z, forall s acc,
    parse_digits 10 (pretty_N_go x s) acc
    = parse_digits 10 s (Some (default 0 acc * k + Z.of_N x)).
Proof.
  induction (N.lt_wf_0 x) as [x _ IH]. intros Hx.
  destruct (decide (x `div` 10 = 0)%N) as [Hd|Hd].
  - exists 10. intros s acc. rewrite pretty_N_go_step, Hd, pretty_N_go_0 by done.
    assert (x < 10)%N by (apply N.div_small_iff in Hd; lia).
    simpl. rewrite N.mod_small, digit_val_pretty_char by done. done.
  - destruct (IH (x `div` 10)%N) as [k Hk];
      [apply N.div_lt; lia | by destruct (x `div` 10)%N |].
    exists (k * 10). intros s acc.
    rewrite pretty_N_go_step, Hk by done. simpl.
    rewrite digit_val_pretty_char by (apply N.mod_lt; lia). simpl.
    f_equal. f_equal.
    pose proof (N.div_mod x 10 ltac:(lia)) as Hdm. lia.
Qed.

Lemma trim_left_digit c s : is_digit c = true -> trim_left (String c s) = String c s.
Proof.
  intros Hc. simpl.
  assert (is_ws c = false) as ->; [|done].
  unfold is_digit, is_ws in *. apply andb_true_iff in Hc as [H1 H2].
  apply Nat.leb_le in H1.
  repeat (apply orb_false_iff; split); apply Nat.eqb_neq; lia.
Qed.

Lemma strip_radix_digits s :
  all_chars is_digit s = true -> strip_radix s = (10, s).
Proof.
  intros Hs. destruct s as [|c [|c' s]]; [done| |].
  - unfold strip_radix. by repeat case_match.
  - simpl in Hs. apply andb_true_iff in Hs as [_ Hs].
    apply andb_true_iff in Hs as [Hc' _].
    unfold strip_radix. repeat case_match; try done; subst; discriminate.
Qed.

Lemma strip_sign_digits s :
  all_chars is_digit s = true -> strip_sign s = (false, s).
Proof.
  intros Hs. destruct s as [|c s]; [done|].
  simpl in Hs. apply andb_true_iff in Hs as [Hc _].
  unfold strip_sign. repeat case_match; try done; subst; discriminate.
Qed.

Lemma parseInt_digits d :
  all_chars is_digit d = true -> d <> "" ->
  parseInt d = match parse_digits 10 d None with
               | Some v => Int v
               | None => NaN
               end
  /\ parseInt ("-" +:+ d) = match parse_digits 10 d None with
                            | Some v => Int (- v)
                            | None => NaN
                            end.
Proof.
  intros Hd Hne. destruct d as [|c s]; [done|].
  assert (is_digit c = true) as Hc
    by (simpl in Hd; by apply andb_true_iff in Hd as [? _]).
  unfold parseInt. split.
  - rewrite trim_left_digit by done.
    by rewrite strip_sign_digits, strip_radix_digits by done.
  - change ("-" +:+ String c s) with (String "-" (String c s)).
    change (trim_left (String "-" (String c s))) with (String "-" (String c s)).
    change (strip_sign (String "-" (String c s))) with (true, String c s).
    cbv beta iota. by rewrite strip_radix_digits by done.
Qed.

Lemma parse_digits_pretty_N (x : N) :
  parse_digits 10 (pretty x) None = Some (Z.of_N x).
Proof.
  unfold pretty, pretty_N. case_decide as Hx; [by subst|].
  destruct (parse_digits_pretty_go x) as [k Hk]; [lia|].
  rewrite Hk. done.
Qed.

Lemma parseInt_pretty_N (x : N) : parseInt (pretty x) = Int (Z.of_N x).
Proof.
  destruct (parseInt_digits (pretty x)) as [-> _];
    [apply pretty_N_digits | apply pretty_N_nonempty |].
  by rewrite parse_digits_pretty_N.
Qed.

Lemma parseInt_pretty_Z (z : Z) : parseInt (pretty z) = Int z.
Proof.
  destruct z as [|p|p].
  - done.
  - change (pretty (Z.pos p)) with (pretty (N.pos p)).
    by rewrite parseInt_pretty_N.
  - change (pretty (Z.neg p)) with ("-" +:+ pretty (N.pos p)).
    destruct (parseInt_digits (pretty (N.pos p))) as [_ ->];
      [apply pretty_N_digits | apply pretty_N_nonempty |].
    by rewrite parse_digits_pretty_N.
Qed.

Lemma is_digit_not_sep c : is_digit c = true -> negb (Ascii.eqb c "/") = true.
Proof. intros Hc. apply negb_true_iff, Ascii.eqb_neq. by intros ->. Qed.

Lemma is_digit_not_dot c : is_digit c = true -> negb (Ascii.eqb c ".") = true.
Proof. intros Hc. apply negb_true_iff, Ascii.eqb_neq. by intros ->. Qed.

Lemma pretty_N_no_sep (x : N) : no_sep (pretty x) = true.
Proof. eapply all_chars_weaken, pretty_N_digits. apply is_digit_not_sep. Qed.

Lemma pretty_N_no_dot (x : N) : no_dot (pretty x) = true.
Proof. eapply all_chars_weaken, pretty_N_digits. apply is_digit_not_dot. Qed.

Lemma pretty_Z_no_sep (z : Z) : no_sep (pretty z) = true.
Proof.
  destruct z as [|p|p]; [done|apply (pretty_N_no_sep (N.pos p))|].
  change (pretty (Z.neg p)) with ("-" +:+ pretty (N.pos p)).
  unfold no_sep. simpl. apply (pretty_N_no_sep (N.pos p)).
Qed.

(** * Names that are a single path segment *)

Lemma normal_seg_iff s :
  normal_seg s = true <-> s <> "" /\ s <> "." /\ s <> "..".
Proof.
  unfold normal_seg. rewrite negb_true_iff, !orb_false_iff.
  rewrite !String.eqb_neq. tauto.
Qed.

Lemma string_length_app a b :
  String.length (a +:+ b) = (String.length a + String.length b)%nat.
Proof. induction a as [|c a IH]; simpl; [done|]. by rewrite IH. Qed.

Lemma normal_seg_long s : (2 < String.length s)%nat -> normal_seg s = true.
Proof.
  intros Hl. apply normal_seg_iff. repeat split; intros ->; simpl in Hl; lia.
Qed.

Lemma normalize_segs_id l :
  forallb normal_seg l = true -> Path.normalize_segs l = l.
Proof.
  intros Hl. unfold Path.normalize_segs.
  by rewrite fold_push_normal, app_nil_r, rev_involutive.
Qed.

Lemma forallb_normal_app l1 l2 :
  forallb normal_seg l1 = true -> forallb normal_seg l2 = true ->
  forallb normal_seg (l1 ++ l2) = true.
Proof. intros H1 H2. by rewrite forallb_app, H1, H2. Qed.

Lemma plain_nonempty a : plain a = true -> Path.nonempty a = true.
Proof.
  unfold plain, Path.nonempty. rewrite andb_true_iff, normal_seg_iff.
  intros [_ [Hne _]]. by apply negb_true_iff, String.eqb_neq.
Qed.

Lemma join_plain1 base a :
  forallb normal_seg base = true -> plain a = true ->
  Path.join base [a] = Path.mk (base ++ [a]) false.
Proof.
  intros Hb Ha. pose proof (plain_nonempty a Ha) as Hne.
  apply andb_true_iff in Ha as [Hsep Hn].
  unfold Path.join. simpl. rewrite Hne. simpl.
  rewrite split_no_sep, app_nil_r by done.
  rewrite normalize_segs_id by (apply forallb_normal_app; simpl; by rewrite ?Hn).
  f_equal. destruct (base ++ [a])%list; [done|]. by apply ends_with_slash_no_sep.
Qed.

Lemma join_plain2 base a b :
  forallb normal_seg base = true -> plain a = true -> plain b = true ->
  Path.join base [a; b] = Path.mk (base ++ [a; b]) false.
Proof.
  intros Hb Ha Hpb.
  pose proof (plain_nonempty a Ha) as Hnea.
  pose proof (plain_nonempty b Hpb) as Hneb.
  apply andb_true_iff in Ha as [Hsa Hna].
  apply andb_true_iff in Hpb as [Hsb Hnb].
  unfold Path.join. simpl. rewrite Hnea, Hneb. simpl.
  rewrite !split_no_sep, app_nil_r by done. simpl.
  rewrite normalize_segs_id
    by (apply forallb_normal_app; simpl; by rewrite ?Hna, ?Hnb).
  f_equal. destruct (base ++ [a; b])%list; [done|]. by apply ends_with_slash_no_sep.
Qed.

Lemma UPLOAD_ROOT_normal d : forallb normal_seg (UPLOAD_ROOT d) = true.
Proof. apply normalize_segs_normal. Qed.

Lemma TMP_DIR_eq d : TMP_DIR d = (UPLOAD_ROOT d ++ ["tmp"])%list.
Proof.
  unfold TMP_DIR. by rewrite join_plain1 by (done || apply UPLOAD_ROOT_normal).
Qed.

Lemma TMP_DIR_normal d : forallb normal_seg (TMP_DIR d) = true.
Proof.
  rewrite TMP_DIR_eq. apply forallb_normal_app; [apply UPLOAD_ROOT_normal|done].
Qed.

Lemma plain_suffix id suf :
  no_sep id = true -> no_sep suf = true -> (2 < String.length suf)%nat ->
  plain (id +:+ suf) = true.
Proof.
  intros Hid Hsuf Hl. unfold plain, no_sep in *.
  rewrite all_chars_app, Hid, Hsuf. simpl.
  apply normal_seg_long. rewrite string_length_app. lia.
Qed.

Lemma plain_json id : no_sep id = true -> plain (id +:+ ".json") = true.
Proof. intros. apply plain_suffix; [done..|simpl; lia]. Qed.

Lemma plain_part id (i : Z) :
  no_sep id = true -> plain (id +:+ ".part" +:+ pretty i) = true.
Proof.
  intros. apply plain_suffix; [done| |rewrite string_length_app; simpl; lia].
  unfold no_sep. rewrite all_chars_app. simpl. apply pretty_Z_no_sep.
Qed.

Lemma manifestPath_plain d id :
  no_sep id = true ->
  manifestPath d (JStr id) = Path.mk (TMP_DIR d ++ [id +:+ ".json"]) false.
Proof.
  intros. unfold manifestPath. simpl.
  apply join_plain1; [apply TMP_DIR_normal | by apply plain_json].
Qed.

Lemma chunkPath_plain d id (i : Z) :
  no_sep id = true ->
  chunkPath d (JStr id) (JNum i)
  = Path.mk (TMP_DIR d ++ [id +:+ ".part" +:+ pretty i]) false.
Proof.
  intros. unfold chunkPath. simpl.
  apply join_plain1; [apply TMP_DIR_normal | by apply plain_part].
Qed.

Lemma chunkPath_str_plain d id (i : Z) :
  chunkPath d (JStr id) (JStr (pretty i)) = chunkPath d (JStr id) (JNum i).
Proof. done. Qed.

(** * The blob store *)

Lemma flat_dir_child st dd name :
  flat_dir st dd = true -> is_dir st (dd ++ [name]) = false.
Proof.
  unfold flat_dir, is_dir. rewrite forallb_forall. intros Hflat.
  apply bool_decide_eq_false. intros Hin.
  specialize (Hflat (dd ++ [name])%list).
  rewrite negb_true_iff, bool_decide_eq_false in Hflat.
  apply Hflat.
  - apply list_elem_of_In, elem_of_elements, Hin.
  - split; [by destruct dd | apply removelast_last].
Qed.

Lemma check_target_child st dd name :
  is_dir st dd = true -> flat_dir st dd = true ->
  check_target st (Path.mk (dd ++ [name]) false) = Ok tt.
Proof.
  intros Hd Hflat. unfold check_target. simpl.
  rewrite flat_dir_child by done.
  destruct (dd ++ [name])%list eqn:E; [by destruct dd|].
  rewrite <- E. unfold parent. by rewrite removelast_last, Hd.
Qed.

Lemma layout_ok_tmp d st :
  layout_ok d st = true ->
  is_dir st (TMP_DIR d) = true /\ flat_dir st (TMP_DIR d) = true.
Proof.
  unfold layout_ok. rewrite !andb_true_iff. tauto.
Qed.

Lemma layout_ok_cat d st c :
  layout_ok d st = true -> In c CATEGORIES ->
  is_dir st (UPLOAD_ROOT d ++ [c]) = true
  /\ flat_dir st (UPLOAD_ROOT d ++ [c]) = true.
Proof.
  unfold layout_ok. rewrite !andb_true_iff. intros [_ Hc] Hin.
  rewrite forallb_forall in Hc. apply Hc in Hin.
  by apply andb_true_iff in Hin.
Qed.

Lemma layout_ok_dirs d st st' :
  dirs st' = dirs st -> layout_ok d st' = layout_ok d st.
Proof.
  intros E. unfold layout_ok, flat_dir, is_dir. by rewrite E.
Qed.

Section TmpFiles.
Variable d : list string.
Variable st : store.
Hypothesis Hlay : layout_ok d st = true.

Lemma tmp_write name b :
  writeFileSync st (tmp_file d name) b = Ok (put st (TMP_DIR d ++ [name]) b).
Proof.
  destruct (layout_ok_tmp _ _ Hlay).
  unfold writeFileSync, tmp_file. by rewrite check_target_child.
Qed.

Lemma tmp_read name :
  readFileSync st (tmp_file d name)
  = match files st !! (TMP_DIR d ++ [name])%list with
    | Some b => Ok b
    | None => Throw ENOENT
    end.
Proof.
  destruct (layout_ok_tmp _ _ Hlay).
  unfold readFileSync, tmp_file. simpl. by rewrite flat_dir_child.
Qed.

Lemma tmp_exists name :
  existsSync st (tmp_file d name)
  = bool_decide (is_Some (files st !! (TMP_DIR d ++ [name])%list)).
Proof.
  destruct (layout_ok_tmp _ _ Hlay).
  unfold existsSync, tmp_file. simpl. by rewrite flat_dir_child.
Qed.

Lemma tmp_readJSON name :
  readJSON st (tmp_file d name)
  = match files st !! (TMP_DIR d ++ [name])%list with
    | Some (Doc m) => Ok (Some m)
    | _ => Ok None
    end.
Proof.
  unfold readJSON. rewrite tmp_exists, tmp_read.
  destruct (files st !! _) as [[?|?]|]; simpl; try done.
Qed.

Lemma tmp_rename src dst :
  renameSync st (tmp_file d src) (tmp_file d dst)
  = match files st !! (TMP_DIR d ++ [src])%list with
    | Some b => Ok (put (remove st (TMP_DIR d ++ [src])) (TMP_DIR d ++ [dst]) b)
    | None => Throw ENOENT
    end.
Proof.
  destruct (layout_ok_tmp _ _ Hlay).
  unfold renameSync. rewrite tmp_read.
  destruct (files st !! _); simpl; [|done].
  unfold tmp_file. by rewrite check_target_child.
Qed.

Lemma tmp_unlink name :
  unlinkSync st (tmp_file d name)
  = match files st !! (TMP_DIR d ++ [name])%list with
    | Some _ => Ok (remove st (TMP_DIR d ++ [name]))
    | None => Throw ENOENT
    end.
Proof.
  unfold unlinkSync. rewrite tmp_read. by destruct (files st !! _).
Qed.

End TmpFiles.

(** * Names never clash *)

Lemma string_app_inv_head a b c : a +:+ b = a +:+ c -> b = c.
Proof. induction a as [|x a IH]; simpl; [done|]. intros [= E]. auto. Qed.

Lemma base36_no_dot s : base36 s = true -> no_dot s = true.
Proof.
  apply all_chars_weaken. intros c Hc.
  apply negb_true_iff, Ascii.eqb_neq. by intros ->.
Qed.

Lemma base36_no_sep s : base36 s = true -> no_sep s = true.
Proof.
  apply all_chars_weaken. intros c Hc.
  apply negb_true_iff, Ascii.eqb_neq. by intros ->.
Qed.

Lemma tmp_name_no_dot (now : N) suffix :
  base36 suffix = true -> no_dot (pretty now +:+ "-" +:+ suffix) = true.
Proof.
  intros Hs. pose proof (pretty_N_no_dot now) as Hn.
  apply base36_no_dot in Hs. unfold no_dot in *.
  rewrite !all_chars_app, Hn. simpl. done.
Qed.

Lemma no_dot_normal s : no_dot s = true -> s <> "" -> normal_seg s = true.
Proof.
  intros Hd Hne. apply normal_seg_iff. repeat split; [done|..]; by intros ->.
Qed.

Lemma string_app_nonempty a b : a <> "" -> a +:+ b <> "".
Proof. by destruct a. Qed.

Lemma tmp_name_plain (now : N) suffix :
  base36 suffix = true -> plain (pretty now +:+ "-" +:+ suffix) = true.
Proof.
  intros Hs. unfold plain. apply andb_true_iff. split.
  - pose proof (pretty_N_no_sep now) as Hn.
    apply base36_no_sep in Hs. unfold no_sep in *.
    rewrite !all_chars_app, Hn. simpl. done.
  - apply no_dot_normal; [by apply tmp_name_no_dot|].
    apply string_app_nonempty, pretty_N_nonempty.
Qed.

Lemma dotted_suffix id suf : no_dot suf = false -> no_dot (id +:+ suf) = false.
Proof.
  intros Hs. unfold no_dot in *. rewrite all_chars_app, Hs. apply andb_false_r.
Qed.

Lemma tmp_name_not_json (now : N) suffix id :
  base36 suffix = true -> pretty now +:+ "-" +:+ suffix <> id +:+ ".json".
Proof.
  intros Hs E. apply tmp_name_no_dot with (now := now) in Hs.
  rewrite E, dotted_suffix in Hs; done.
Qed.

Lemma tmp_name_not_part (now : N) suffix id x :
  base36 suffix = true -> pretty now +:+ "-" +:+ suffix <> id +:+ ".part" +:+ x.
Proof.
  intros Hs E. apply tmp_name_no_dot with (now := now) in Hs.
  rewrite E, dotted_suffix in Hs; [done|].
  unfold no_dot. by rewrite all_chars_app.
Qed.

Lemma json_not_part id x : id +:+ ".json" <> id +:+ ".part" +:+ x.
Proof. intros E. by apply string_app_inv_head in E. Qed.

Lemma part_inj id (i j : Z) :
  id +:+ ".part" +:+ pretty i = id +:+ ".part" +:+ pretty j -> i = j.
Proof.
  intros E. do 2 apply string_app_inv_head in E. by apply (inj pretty) in E.
Qed.

Lemma snoc_ne {A} (l : list A) a b : a <> b -> (l ++ [a])%list <> (l ++ [b])%list.
Proof. intros Hne E. apply app_inv_head in E. congruence. Qed.

Lemma pretty_Z_nonempty (z : Z) : pretty z <> "".
Proof.
  destruct z as [|p|p]; [done|apply (pretty_N_nonempty (N.pos p))|done].
Qed.

Lemma truthy_str s : s <> "" -> truthy (JStr s) = true.
Proof. intros. simpl. by apply negb_true_iff, String.eqb_neq. Qed.

(** * One chunk registration on a well-formed session *)

Lemma register_spec d st id r m :
  layout_ok d st = true -> no_sep id = true -> id <> "" ->
  base36 (c_suffix r) = true ->
  files st !! (TMP_DIR d ++ [id +:+ ".json"])%list = Some (Doc m) ->
  let l := if includes (uploadedChunks m) (Int (c_index r))
           then uploadedChunks m
           else (uploadedChunks m ++ [Some (c_index r)])%list in
  register d st id r
  = ({| dirs := dirs st;
        files :=
          <[(TMP_DIR d ++ [id +:+ ".json"])%list :=
              Doc (Manifest (fileName m) (totalChunks m) l)]>
          (<[(TMP_DIR d ++ [id +:+ ".part" +:+ pretty (c_index r)])%list :=
              Raw (c_bytes r)]>
           (delete (TMP_DIR d ++ [pretty (c_now r) +:+ "-" +:+ c_suffix r])%list
                   (files st))) |},
     RChunk l).
Proof.
  intros Hlay Hid Hne Hsuf Hm l.
  unfold register, post_upload_chunk, multer_single.
  rewrite join_plain1 by (apply TMP_DIR_normal || by apply tmp_name_plain).
  fold (tmp_file d (pretty (c_now r) +:+ "-" +:+ c_suffix r)).
  rewrite tmp_write by done. simpl.
  set (T := (TMP_DIR d ++ [pretty (c_now r) +:+ "-" +:+ c_suffix r])%list).
  set (st0 := put st T (Raw (c_bytes r))).
  assert (layout_ok d st0 = true) as Hlay0 by (by rewrite (layout_ok_dirs d st)).
  unfold upload_chunk.
  rewrite truthy_str by done.
  rewrite truthy_str by apply pretty_Z_nonempty. simpl.
  rewrite manifestPath_plain by done. fold (tmp_file d (id +:+ ".json")).
  rewrite tmp_readJSON by done.
  assert (files st0 !! (TMP_DIR d ++ [id +:+ ".json"])%list = Some (Doc m)) as ->.
  { unfold st0, put. simpl. rewrite lookup_insert_ne; [done|].
    apply snoc_ne. by apply tmp_name_not_json. }
  rewrite chunkPath_str_plain, chunkPath_plain by done.
  fold (tmp_file d (id +:+ ".part" +:+ pretty (c_index r))).
  fold (tmp_file d (pretty (c_now r) +:+ "-" +:+ c_suffix r)).
  rewrite tmp_rename by done. fold T.
  assert (files st0 !! T = Some (Raw (c_bytes r))) as ->.
  { unfold st0, put. simpl. by rewrite lookup_insert_eq. }
  unfold parseInt_val. simpl to_string. rewrite parseInt_pretty_Z.
  simpl json_num. fold l.
  rewrite tmp_write by (by rewrite (layout_ok_dirs d st)).
  unfold put, remove, st0, put. simpl.
  by rewrite delete_insert_eq.
Qed.

Lemma includes_int l z : includes l (Int z) = bool_decide (Some z ∈ l).
Proof. done. Qed.

(** * Registering the chunks of a session, in any order *)

Section Registering.
Variable d : list string.
Variable id : string.
Hypothesis Hid : no_sep id = true.
Hypothesis Hne : id <> "".

Let M := (TMP_DIR d ++ [id +:+ ".json"])%list.
Let C (i : Z) := (TMP_DIR d ++ [id +:+ ".part" +:+ pretty i])%list.

Lemma register_all_spec regs : forall st m,
  layout_ok d st = true ->
  files st !! M = Some (Doc m) ->
  NoDup (map c_index regs) ->
  (forall r, In r regs -> Some (c_index r) ∉ uploadedChunks m) ->
  Forall (fun r => base36 (c_suffix r) = true) regs ->
  let st' := register_all d st id regs in
  layout_ok d st' = true
  /\ files st' !! M
     = Some (Doc (Manifest (fileName m) (totalChunks m)
                   (uploadedChunks m ++ map (fun r => Some (c_index r)) regs)))
  /\ (forall r, In r regs -> files st' !! C (c_index r) = Some (Raw (c_bytes r)))
  /\ (forall j b, ~ In j (map c_index regs) ->
        files st !! C j = Some (Raw b) -> files st' !! C j = Some (Raw b)).
Proof.
  induction regs as [|r regs IH]; intros st m Hlay Hm Hnd Hfresh Hsuf; simpl.
  { rewrite app_nil_r. destruct m. by repeat split. }
  apply NoDup_cons in Hnd as [Hr Hnd]. rewrite list_elem_of_In in Hr.
  apply Forall_cons in Hsuf as [Hsr Hsuf].
  rewrite (register_spec d st id r m) by done.
  rewrite includes_int, bool_decide_eq_false_2 by (apply Hfresh; by left).
  simpl fst.
  set (st1 := {| dirs := dirs st; files := _ |}).
  assert (files st1 !! M = Some (Doc (Manifest (fileName m) (totalChunks m)
            (uploadedChunks m ++ [Some (c_index r)])))) as Hm1.
  { unfold st1. simpl. by rewrite lookup_insert_eq. }
  assert (forall j, files st1 !! C j
            = if decide (j = c_index r) then Some (Raw (c_bytes r))
              else files (remove st (TMP_DIR d
                     ++ [pretty (c_now r) +:+ "-" +:+ c_suffix r])) !! C j) as HC1.
  { intros j. unfold st1. simpl.
    rewrite lookup_insert_ne by (apply snoc_ne, json_not_part).
    case_decide as Hj.
    - subst j. by rewrite lookup_insert_eq.
    - rewrite lookup_insert_ne; [done|].
      apply snoc_ne. intros E. apply part_inj in E. congruence. }
  destruct (IH st1 _ ltac:(by rewrite (layout_ok_dirs d st)) Hm1 Hnd)
    as (Hlay' & Hm' & Hreg & Hframe); [|done|].
  { intros r' Hin. simpl. rewrite elem_of_app, list_elem_of_singleton.
    intros [Hold|[= E]].
    - apply (Hfresh r'); [by right|done].
    - apply Hr. rewrite <- E. by apply in_map. }
  split; [done|]. split.
  { rewrite Hm'. simpl. by rewrite <- app_assoc. }
  split.
  - intros r' [<-|Hin]; [|by apply Hreg].
    apply Hframe; [done|]. rewrite HC1. by rewrite decide_True.
  - intros j b Hj Hb. apply Hframe; [tauto|].
    rewrite HC1. rewrite decide_False by (intros ->; apply Hj; by left).
    simpl. rewrite lookup_delete_ne; [done|].
    apply snoc_ne. by apply tmp_name_not_part.
Qed.

End Registering.

(** * Categories and final names *)

Lemma categoryForExt_in e : In (categoryForExt e) CATEGORIES.
Proof.
  unfold categoryForExt, CATEGORIES. repeat case_match; simpl; tauto.
Qed.

Lemma category_plain c : In c CATEGORIES -> plain c = true /\ c <> "tmp".
Proof.
  unfold CATEGORIES. simpl.
  intros [<-|[<-|[<-|[<-|[]]]]]; by split.
Qed.

Lemma digits_head_normal p rest :
  all_chars is_digit p = true -> p <> "" -> normal_seg (p +:+ rest) = true.
Proof.
  intros Hd Hne. destruct p as [|c p]; [done|].
  simpl in Hd. apply andb_true_iff in Hd as [Hc _].
  apply normal_seg_iff. simpl.
  repeat split; [done|..]; intros [= -> _]; done.
Qed.

Lemma final_name_plain (now : N) name :
  no_sep name = true -> plain (pretty now +:+ "-" +:+ name) = true.
Proof.
  intros Hs. unfold plain. apply andb_true_iff. split.
  - pose proof (pretty_N_no_sep now) as Hn. unfold no_sep in *.
    rewrite !all_chars_app, Hn. simpl. done.
  - apply digits_head_normal; [apply pretty_N_digits | apply pretty_N_nonempty].
Qed.

Lemma category_file_not_tmp d c x y :
  In c CATEGORIES -> (UPLOAD_ROOT d ++ [c; x])%list <> (TMP_DIR d ++ [y])%list.
Proof.
  intros Hc. rewrite TMP_DIR_eq, <- app_assoc. simpl.
  intros E. apply app_inv_head in E. injection E as -> _.
  by apply category_plain in Hc as [_ ?].
Qed.

Lemma find_none_intro {A} (f : A -> bool) l :
  (forall x, In x l -> f x = false) -> List.find f l = None.
Proof.
  induction l as [|a l IH]; intros H; simpl; [done|].
  rewrite (H a) by (by left). apply IH. intros x Hx. apply H. by right.
Qed.

(** * The assembly loop *)

Section Assembling.
Variable d : list string.
Variable id : string.
Hypothesis Hid : no_sep id = true.
Variable F : list string.

Let C (i : Z) := (TMP_DIR d ++ [id +:+ ".part" +:+ pretty i])%list.

Hypothesis HF : forall i, F <> C i.
Variable b : Z -> list byte.

Lemma pipe_chunks_spec l : forall st acc,
  layout_ok d st = true ->
  files st !! F = Some (Raw acc) ->
  NoDup l ->
  (forall i, In i l -> files st !! C i = Some (Raw (b i))) ->
  exists st',
    pipe_chunks st F (map (fun i => chunkPath d (JStr id) (JNum i)) l) = Done st'
    /\ files st' !! F = Some (Raw (acc ++ concat (map b l)))
    /\ dirs st' = dirs st.
Proof.
  induction l as [|i l IH]; intros st acc Hlay Hacc Hnd Hch; simpl.
  { exists st. rewrite app_nil_r. by repeat split. }
  apply NoDup_cons in Hnd as [Hi Hnd]. rewrite list_elem_of_In in Hi.
  rewrite chunkPath_plain by done.
  fold (tmp_file d (id +:+ ".part" +:+ pretty i)). fold (C i).
  rewrite tmp_read by done. fold (C i).
  rewrite (Hch i) by (by left). simpl blob_bytes.
  set (st1 := append st F (b i)).
  assert (layout_ok d st1 = true) as Hlay1 by (by rewrite (layout_ok_dirs d st)).
  assert (forall j, files st1 !! C j = files st !! C j) as HC1.
  { intros j. unfold st1, append. simpl. by rewrite lookup_alter_ne. }
  rewrite tmp_unlink by done. fold (C i). rewrite HC1, (Hch i) by (by left).
  set (st2 := remove st1 (C i)).
  destruct (IH st2 (acc ++ b i)%list) as (st' & Hrun & HFin & Hdirs).
  - by rewrite (layout_ok_dirs d st1).
  - unfold st2, remove, st1, append. simpl.
    rewrite lookup_delete_ne by (intros E; by apply (HF i)).
    by rewrite lookup_alter_eq, Hacc.
  - done.
  - intros j Hj. unfold st2, remove. simpl.
    rewrite lookup_delete_ne.
    + rewrite HC1. apply Hch. by right.
    + intros E. apply snoc_ne in E; [done|].
      intros E'. apply part_inj in E'. congruence.
  - exists st'. split; [done|]. split; [by rewrite HFin, <- app_assoc|].
    by rewrite Hdirs.
Qed.

End Assembling.

(** * Creating and completing a session *)

Lemma session_id_no_sep (now rnd : N) :
  no_sep (pretty now +:+ "-" +:+ pretty rnd) = true.
Proof.
  pose proof (pretty_N_no_sep now) as H1.
  pose proof (pretty_N_no_sep rnd) as H2. unfold no_sep in *.
  rewrite !all_chars_app, H1, H2. done.
Qed.

Lemma session_id_nonempty (now rnd : N) : pretty now +:+ "-" +:+ pretty rnd <> "".
Proof. apply string_app_nonempty, pretty_N_nonempty. Qed.

Lemma upload_init_spec d now rnd st f t :
  layout_ok d st = true -> truthy f = true -> truthy t = true ->
  upload_init d now rnd st f t
  = (put st (TMP_DIR d ++ [(pretty now +:+ "-" +:+ pretty rnd) +:+ ".json"])
         (Doc (Manifest f (json_num (parseInt_val t)) [])),
     RInit (pretty now +:+ "-" +:+ pretty rnd)).
Proof.
  intros Hlay Hf Ht. unfold upload_init. rewrite Hf, Ht. simpl.
  rewrite manifestPath_plain by apply session_id_no_sep.
  fold (tmp_file d ((pretty now +:+ "-" +:+ pretty rnd) +:+ ".json")).
  by rewrite tmp_write.
Qed.

Lemma complete_spec d now st id m name n (b : Z -> list byte) :
  layout_ok d st = true -> no_sep id = true -> id <> "" ->
  files st !! (TMP_DIR d ++ [id +:+ ".json"])%list = Some (Doc m) ->
  fileName m = JStr name -> no_sep name = true ->
  totalChunks m = Some n -> Z.of_nat (length (uploadedChunks m)) = n ->
  (forall i, 1 <= i <= n ->
     files st !! (TMP_DIR d ++ [id +:+ ".part" +:+ pretty i])%list
     = Some (Raw (b i))) ->
  let cat := categoryForExt (Path.extname name) in
  let stored := pretty now +:+ "-" +:+ name in
  exists st3,
    complete_and_assemble d now st (JStr id)
    = (Done st3, RComplete ("/uploads/" +:+ cat +:+ "/" +:+ stored))
    /\ files st3 !! (UPLOAD_ROOT d ++ [cat; stored])%list
       = Some (Raw (concat (map b (seqZ 1 n)))).
Proof.
  intros Hlay Hid Hne Hm Hname Hsep Htot Hlen Hch cat stored.
  pose proof (categoryForExt_in (Path.extname name)) as Hcat. fold cat in Hcat.
  unfold complete_and_assemble, upload_complete.
  rewrite truthy_str by done. simpl negb. cbv iota.
  rewrite manifestPath_plain by done. fold (tmp_file d (id +:+ ".json")).
  rewrite tmp_readJSON, Hm by done.
  rewrite Htot, <- Hlen, bool_decide_eq_true_2 by done. simpl negb. cbv iota.
  rewrite Hlen. simpl chunk_indices.
  rewrite find_none_intro; cycle 1.
  { intros i Hi. apply list_elem_of_In, elem_of_seqZ in Hi.
    rewrite chunkPath_plain by done.
    fold (tmp_file d (id +:+ ".part" +:+ pretty i)).
    rewrite tmp_exists by done. rewrite Hch by lia.
    rewrite bool_decide_eq_true_2; [done|eauto]. }
  rewrite Hname. simpl to_string. fold cat. fold stored.
  rewrite join_plain2;
    [| apply UPLOAD_ROOT_normal | by apply category_plain
     | by apply final_name_plain ].
  rewrite tmp_unlink, Hm by done.
  set (st1 := remove st (TMP_DIR d ++ [id +:+ ".json"])).
  assert (layout_ok d st1 = true) as Hlay1 by (by rewrite (layout_ok_dirs d st)).
  unfold run_task, open_truncate, writeFileSync. simpl dest.
  destruct (layout_ok_cat d st1 cat Hlay1 Hcat) as [Hcd Hcf].
  replace (UPLOAD_ROOT d ++ [cat; stored])%list
    with ((UPLOAD_ROOT d ++ [cat]) ++ [stored])%list by (by rewrite <- app_assoc).
  rewrite check_target_child by done. simpl bind. simpl chunks. simpl Path.segs.
  set (F := ((UPLOAD_ROOT d ++ [cat]) ++ [stored])%list).
  assert (forall i : Z,
            F <> (TMP_DIR d ++ [id +:+ ".part" +:+ pretty i])%list) as HF.
  { intros i. unfold F. rewrite <- app_assoc. by apply category_file_not_tmp. }
  destruct (pipe_chunks_spec d id Hid F HF b (seqZ 1 n) (put st1 F (Raw [])) [])
    as (st3 & Hrun & Hfin & _).
  - by rewrite (layout_ok_dirs d st1).
  - unfold put. simpl. by rewrite lookup_insert_eq.
  - apply NoDup_seqZ.
  - intros i Hi. apply list_elem_of_In, elem_of_seqZ in Hi.
    unfold put, st1, remove. simpl.
    rewrite lookup_insert_ne by (apply HF).
    rewrite lookup_delete_ne by (apply snoc_ne, json_not_part).
    apply Hch. lia.
  - exists st3. by rewrite Hrun.
Qed.

Lemma payload_in regs r :
  NoDup (map c_index regs) -> In r regs -> payload regs (c_index r) = c_bytes r.
Proof.
  unfold payload. induction regs as [|r0 regs IH]; intros Hnd Hin; [done|].
  apply NoDup_cons in Hnd as [Hr0 Hnd]. rewrite list_elem_of_In in Hr0.
  simpl. destruct Hin as [->|Hin].
  - by rewrite Z.eqb_refl.
  - destruct (Z.eqb_spec (c_index r0) (c_index r)) as [E|_]; [|by apply IH].
    destruct Hr0. rewrite E. by apply in_map.
Qed.

(** * C1: assembly order *)



(** * C3: validation before assembly *)

Lemma readJSON_absent st p : existsSync st p = false -> readJSON st p = Ok None.
Proof. intros H. unfold readJSON. by rewrite H. Qed.

Lemma find_some_least {A} (f : A -> bool) l :
  (exists x, In x l /\ f x = true) ->
  exists x, List.find f l = Some x /\ In x l /\ f x = true.
Proof.
  intros (x & Hin & Hx). destruct (List.find f l) as [y|] eqn:E.
  - exists y. apply find_some in E. tauto.
  - eapply find_none in E; [|exact Hin]. congruence.
Qed.

(** C3.  For a supplied [uploadId], /upload/complete answers
    - "Invalid uploadId or manifest missing" (SessionNotFound) when no
      manifest exists;
    - "Not all chunks uploaded yet" (IncompleteUpload) exactly when the
      manifest exists and the number of uploaded chunks differs from
      [totalChunks];
    - "Missing chunk file: part i" (MissingChunkData), naming a missing
      index, when the counts match but some chunk file of [1..n] is
      absent;
    and it starts the assembly only when the counts match and every
    chunk file of [1..n] exists.  A failed validation changes
    nothing. *)
Theorem complete_validation d now st uploadId :
  truthy uploadId = true ->
  (existsSync st (manifestPath d uploadId) = false ->
   upload_complete d now st uploadId
   = (st, RError 400 "Invalid uploadId or manifest missing", None))
  /\ (forall m, readJSON st (manifestPath d uploadId) = Ok (Some m) ->
      let n := Z.of_nat (length (uploadedChunks m)) in
      (Some n <> totalChunks m <->
       upload_complete d now st uploadId
       = (st, RError 400 "Not all chunks uploaded yet", None))
      /\ (Some n = totalChunks m ->
          (exists i, 1 <= i <= n
                     /\ existsSync st (chunkPath d uploadId (JNum i)) = false) ->
          exists i, 1 <= i <= n
                    /\ existsSync st (chunkPath d uploadId (JNum i)) = false
                    /\ upload_complete d now st uploadId
                       = (st, RError 400 ("Missing chunk file: part" +:+ pretty i),
                          None))
      /\ (forall st' r job,
            upload_complete d now st uploadId = (st', r, Some job) ->
            Some n = totalChunks m
            /\ forall i, 1 <= i <= n ->
                 existsSync st (chunkPath d uploadId (JNum i)) = true)).
Proof.
  intros Hid. unfold upload_complete. rewrite Hid. simpl negb. cbv iota.
  split.
  { intros Habs. by rewrite readJSON_absent. }
  intros m Hm. rewrite Hm. set (n := Z.of_nat (length (uploadedChunks m))).
  destruct (decide (Some n = totalChunks m)) as [Heq|Hneq].
  - rewrite bool_decide_eq_true_2 by done. simpl negb. cbv iota.
    rewrite <- Heq. simpl chunk_indices.
    split; [|split].
    + split; [done|]. intros E. exfalso.
      destruct (List.find _ _); [|destruct (fileName m);
        try destruct (unlinkSync _ _)]; discriminate.
    + intros _ (i & Hi & Hmiss).
      destruct (find_some_least
                  (fun i => negb (existsSync st (chunkPath d uploadId (JNum i))))
                  (seqZ 1 n)) as (j & -> & Hj & Hjmiss).
      { exists i. split; [apply list_elem_of_In, elem_of_seqZ; lia|].
        by rewrite Hmiss. }
      exists j. apply list_elem_of_In, elem_of_seqZ in Hj.
      apply negb_true_iff in Hjmiss. split; [lia|done].
    + intros st' r job E. split; [done|]. intros i Hi.
      destruct (List.find _ _) as [j|] eqn:Hfind; [discriminate|].
      eapply find_none in Hfind;
        [|apply list_elem_of_In, elem_of_seqZ; instantiate (1 := i); lia].
      by apply negb_false_iff in Hfind.
  - rewrite bool_decide_eq_false_2 by done. simpl negb. cbv iota.
    split; [done|]. split; [done|]. intros st' r job E. discriminate.
Qed.

Lemma complete_validation_witness :
  upload_complete example_dirname 1800 example_store (JStr "1700-42")
  = (example_store, RError 400 "Invalid uploadId or manifest missing", None).
Proof.
  apply (proj1 (complete_validation example_dirname 1800 example_store
                  (JStr "1700-42") eq_refl)).
  vm_compute. reflexivity.
Defined.

(** * C4: registering a chunk again *)

Lemma manifest_lookup d st id m :
  layout_ok d st = true -> no_sep id = true ->
  readJSON st (manifestPath d (JStr id)) = Ok (Some m) ->
  files st !! (TMP_DIR d ++ [id +:+ ".json"])%list = Some (Doc m).
Proof.
  intros Hlay Hid. rewrite manifestPath_plain by done.
  fold (tmp_file d (id +:+ ".json")). rewrite tmp_readJSON by done.
  destruct (files st !! _) as [[?|?]|]; congruence.
Qed.

Lemma manifest_readJSON d st id m :
  layout_ok d st = true -> no_sep id = true ->
  files st !! (TMP_DIR d ++ [id +:+ ".json"])%list = Some (Doc m) ->
  readJSON st (manifestPath d (JStr id)) = Ok (Some m).
Proof.
  intros Hlay Hid Hm. rewrite manifestPath_plain by done.
  fold (tmp_file d (id +:+ ".json")). by rewrite tmp_readJSON, Hm.
Qed.

(** C4.  On an existing session, registering the same index a second
    time, with the same or with other bytes, succeeds and reports the
    same [uploadedChunks] as the first registration did: the index is
    in it, no duplicate is added, and the chunk file holds the bytes of
    the latest registration.  The index is a safe integer, sent in
    decimal as the client script does, and the names of the files
    involved are storable. *)
Theorem register_chunk_idempotent d st id m (i : Z) b1 b2 now1 suf1 now2 suf2 :
  layout_ok d st = true ->
  no_sep id = true -> id <> "" ->
  storable_id id = true ->
  base36 suf1 = true -> base36 suf2 = true ->
  reg_fits (ChunkReq i b1 now1 suf1) = true ->
  reg_fits (ChunkReq i b2 now2 suf2) = true ->
  readJSON st (manifestPath d (JStr id)) = Ok (Some m) ->
  let first := register d st id (ChunkReq i b1 now1 suf1) in
  let second := register d (fst first) id (ChunkReq i b2 now2 suf2) in
  exists l,
    snd first = RChunk l
    /\ snd second = RChunk l
    /\ upload_status d (fst second) (JStr id) = RStatus l
    /\ Some i ∈ l
    /\ (NoDup (uploadedChunks m) -> NoDup l)
    /\ readFileSync (fst second) (chunkPath d (JStr id) (JNum i)) = Ok (Raw b2).
Proof.
  intros Hlay Hid Hne _ Hs1 Hs2 _ _ Hm first second.
  apply manifest_lookup in Hm; [|done..].
  subst second first.
  rewrite (register_spec d st id _ m) by done. simpl c_index. simpl fst.
  set (l := if includes (uploadedChunks m) (Int i) then uploadedChunks m
            else (uploadedChunks m ++ [Some i])%list).
  set (st1 := {| dirs := dirs st; files := _ |}).
  assert (layout_ok d st1 = true) as Hlay1 by (by rewrite (layout_ok_dirs d st)).
  assert (Some i ∈ l) as Hin.
  { unfold l. rewrite includes_int. case_bool_decide; [done|].
    apply elem_of_app. right. by apply list_elem_of_singleton. }
  rewrite (register_spec d st1 id _ (Manifest (fileName m) (totalChunks m) l));
    [|done..|unfold st1; simpl; by rewrite lookup_insert_eq].
  simpl uploadedChunks. simpl c_index. simpl fileName. simpl totalChunks.
  rewrite includes_int, bool_decide_eq_true_2 by done.
  lazymatch goal with
  | |- context [({| dirs := ?a; files := ?f |}, RChunk _)] =>
      set (st2 := {| dirs := a; files := f |})
  end.
  simpl fst. simpl snd.
  assert (layout_ok d st2 = true) as Hlay2 by (by rewrite (layout_ok_dirs d st1)).
  exists l. split; [done|]. split; [done|]. split; [|split; [done|split]].
  - unfold upload_status. rewrite truthy_str by done. simpl negb. cbv iota.
    rewrite (manifest_readJSON d st2 id (Manifest (fileName m) (totalChunks m) l));
      [done..|].
    unfold st2. simpl. by rewrite lookup_insert_eq.
  - intros Hnd. unfold l. rewrite includes_int. case_bool_decide; [done|].
    apply NoDup_app. split; [done|]. split; [|apply NoDup_singleton].
    intros x Hx Hx'. apply list_elem_of_singleton in Hx'. by subst.
  - rewrite chunkPath_plain by done.
    fold (tmp_file d (id +:+ ".part" +:+ pretty i)). rewrite tmp_read by done.
    unfold st2. simpl.
    rewrite lookup_insert_ne by (apply snoc_ne, json_not_part).
    by rewrite lookup_insert_eq.
Qed.

Lemma register_chunk_idempotent_witness :
  let st := fst (upload_init example_dirname 1700 42 example_store
                   (JStr "report.pdf") (JNum 3)) in
  let first := register example_dirname st "1700-42"
                 (ChunkReq 2 (bytes_of_string "CD") 1701 "k3x9a1") in
  let second := register example_dirname (fst first) "1700-42"
                  (ChunkReq 2 (bytes_of_string "XY") 1705 "77aabb") in
  exists l,
    snd first = RChunk l
    /\ snd second = RChunk l
    /\ upload_status example_dirname (fst second) (JStr "1700-42") = RStatus l
    /\ Some 2 ∈ l
    /\ (NoDup ([] : list (option Z)) -> NoDup l)
    /\ readFileSync (fst second)
         (chunkPath example_dirname (JStr "1700-42") (JNum 2))
       = Ok (Raw (bytes_of_string "XY")).
Proof.
  apply (register_chunk_idempotent example_dirname
           (fst (upload_init example_dirname 1700 42 example_store
                   (JStr "report.pdf") (JNum 3)))
           "1700-42" (Manifest (JStr "report.pdf") (Some 3) []) 2
           (bytes_of_string "CD") (bytes_of_string "XY")
           1701 "k3x9a1" 1705 "77aabb").
  - vm_compute. reflexivity.
  - reflexivity.
  - discriminate.
  - reflexivity.
  - reflexivity.
  - reflexivity.
  - reflexivity.
  - reflexivity.
  - vm_compute. reflexivity.
Defined.

(** * C5: what happens to [uploadedChunks] *)

Lemma readJSON_Some st p m :
  readJSON st p = Ok (Some m)
  <-> Path.trailing p = false /\ is_dir st (Path.segs p) = false
      /\ files st !! Path.segs p = Some (Doc m).
Proof.
  unfold readJSON, existsSync, readFileSync.
  destruct (Path.trailing p), (is_dir st (Path.segs p)),
    (files st !! Path.segs p) as [[?|?]|]; simpl;
    split; try (intros (? & ? & ?)); intros; simplify_eq; try done.
Qed.

Lemma grows_refl m : grows m m.
Proof.
  repeat split; [|done]. exists []. by rewrite app_nil_r.
Qed.

Lemma grows_trans m1 m2 m3 : grows m1 m2 -> grows m2 m3 -> grows m1 m3.
Proof.
  intros (Hf1 & Ht1 & [e1 He1] & Hn1) (Hf2 & Ht2 & [e2 He2] & Hn2).
  repeat split; [congruence..| |auto].
  exists (e1 ++ e2)%list. by rewrite He2, He1, app_assoc.
Qed.

Lemma docs_grow_refl st : docs_grow st st.
Proof. split; [done|]. intros k m' H. exists m'. split; [done|apply grows_refl]. Qed.

Lemma docs_grow_trans st1 st2 st3 :
  docs_grow st1 st2 -> docs_grow st2 st3 -> docs_grow st1 st3.
Proof.
  intros [Hd1 H1] [Hd2 H2]. split; [congruence|].
  intros k m3 Hk. apply H2 in Hk as (m2 & Hk & Hg2).
  apply H1 in Hk as (m1 & Hk & Hg1). exists m1. split; [done|].
  by eapply grows_trans.
Qed.

Lemma docs_grow_put_raw st k b : docs_grow st (put st k (Raw b)).
Proof.
  split; [done|]. intros k' m'. unfold put. simpl.
  destruct (decide (k = k')) as [->|Hne].
  - by rewrite lookup_insert_eq.
  - rewrite lookup_insert_ne by done. intros H. exists m'.
    split; [done|apply grows_refl].
Qed.

Lemma docs_grow_remove st k : docs_grow st (remove st k).
Proof.
  split; [done|]. intros k' m'. unfold remove. simpl.
  destruct (decide (k = k')) as [->|Hne].
  - by rewrite lookup_delete_eq.
  - rewrite lookup_delete_ne by done. intros H. exists m'.
    split; [done|apply grows_refl].
Qed.

Lemma docs_grow_append st k data : docs_grow st (append st k data).
Proof.
  split; [done|]. intros k' m'. unfold append. simpl.
  destruct (decide (k = k')) as [->|Hne].
  - rewrite lookup_alter_eq. by destruct (files st !! k').
  - rewrite lookup_alter_ne by done. intros H. exists m'.
    split; [done|apply grows_refl].
Qed.

Lemma writeFileSync_Ok st p b st' :
  writeFileSync st p b = Ok st' ->
  st' = put st (Path.segs p) b /\ Path.trailing p = false.
Proof.
  unfold writeFileSync, check_target.
  destruct (Path.trailing p); [done|].
  destruct (is_dir st (Path.segs p)); [done|].
  destruct (Path.segs p); [done|].
  destruct (is_dir st _); [|done]. simpl. by intros [= <-].
Qed.

Lemma readFileSync_Ok st p b :
  readFileSync st p = Ok b -> files st !! Path.segs p = Some b.
Proof.
  unfold readFileSync.
  destruct (Path.trailing p); [done|].
  destruct (is_dir st (Path.segs p)); [done|].
  destruct (files st !! Path.segs p); [|done]. by intros [= <-].
Qed.

Lemma unlinkSync_Ok st p st' :
  unlinkSync st p = Ok st' -> st' = remove st (Path.segs p).
Proof.
  unfold unlinkSync. destruct (readFileSync st p); simpl; [|done].
  by intros [= <-].
Qed.

Lemma renameSync_Ok st src dst st' :
  renameSync st src dst = Ok st' ->
  exists b, files st !! Path.segs src = Some b
            /\ st' = put (remove st (Path.segs src)) (Path.segs dst) b.
Proof.
  unfold renameSync. destruct (readFileSync st src) as [b|] eqn:Hr; simpl; [|done].
  destruct (check_target st dst); simpl; [|done]. intros [= <-].
  exists b. split; [by apply readFileSync_Ok|done].
Qed.

Lemma docs_grow_unlink st p st' : unlinkSync st p = Ok st' -> docs_grow st st'.
Proof. intros ->%unlinkSync_Ok. apply docs_grow_remove. Qed.

Lemma docs_grow_pipe cs : forall st dst,
  docs_grow st (outcome_store (pipe_chunks st dst cs)).
Proof.
  induction cs as [|c cs IH]; intros st dst; simpl; [apply docs_grow_refl|].
  destruct (readFileSync st c) as [data|]; simpl; [|apply docs_grow_refl].
  destruct (unlinkSync _ c) as [st2|] eqn:Hu; simpl.
  - eapply docs_grow_trans; [apply docs_grow_append|].
    eapply docs_grow_trans; [by eapply docs_grow_unlink|apply IH].
  - apply docs_grow_append.
Qed.

Lemma docs_grow_run_task st t : docs_grow st (outcome_store (run_task st t)).
Proof.
  unfold run_task, open_truncate.
  destruct (writeFileSync st (dest t) (Raw [])) as [st0|] eqn:Hw; simpl;
    [|apply docs_grow_refl].
  apply writeFileSync_Ok in Hw as [-> _].
  eapply docs_grow_trans; [apply docs_grow_put_raw|apply docs_grow_pipe].
Qed.

Lemma docs_grow_complete d now st id :
  docs_grow st (outcome_store (fst (complete_and_assemble d now st id))).
Proof.
  unfold complete_and_assemble.
  destruct (upload_complete d now st id) as [[st' r] job] eqn:E.
  assert (docs_grow st st') as Hst'.
  { unfold upload_complete in E.
    repeat (match type of E with
            | context [match ?x with _ => _ end] => destruct x eqn:?
            end; try (injection E as <- _ _; apply docs_grow_refl)).
    injection E as <- _ _. by eapply docs_grow_unlink. }
  destruct job as [job|]; simpl; [|done].
  eapply docs_grow_trans; [exact Hst'|apply docs_grow_run_task].
Qed.

Lemma int_entries_app l1 l2 :
  int_entries (l1 ++ l2) = (int_entries l1 ++ int_entries l2)%list.
Proof. apply omap_app. Qed.

Lemma int_entries_elem z l : z ∈ int_entries l <-> Some z ∈ l.
Proof.
  unfold int_entries. rewrite list_elem_of_omap. split.
  - intros (x & Hx & E). simpl in E. by subst.
  - intros H. by exists (Some z).
Qed.

Lemma grows_push m idx :
  grows m (Manifest (fileName m) (totalChunks m)
             (if includes (uploadedChunks m) idx then uploadedChunks m
              else (uploadedChunks m ++ [json_num idx])%list)).
Proof.
  repeat split; simpl.
  - destruct (includes _ _); [exists []; by rewrite app_nil_r|by eexists].
  - intros Hnd. destruct idx as [|z]; simpl.
    + by rewrite int_entries_app, app_nil_r.
    + case_bool_decide as Hin; [done|].
      rewrite int_entries_app. simpl. apply NoDup_app.
      split; [done|]. split; [|apply NoDup_singleton].
      intros x Hx Hx'. apply list_elem_of_singleton in Hx'. subst.
      by apply int_entries_elem in Hx.
Qed.

Lemma docs_grow_upload_chunk d st id ci chunkFile :
  (forall src, chunkFile = Some src ->
     exists b, files st !! Path.segs src = Some (Raw b)) ->
  docs_grow st (fst (upload_chunk d st id ci chunkFile)).
Proof.
  intros Hsrc. unfold upload_chunk.
  destruct (negb (truthy id) || negb (truthy ci))%bool; [apply docs_grow_refl|].
  destruct (readJSON st (manifestPath d id)) as [[m0|]|] eqn:Hm;
    try apply docs_grow_refl.
  destruct chunkFile as [src|]; [|apply docs_grow_refl].
  destruct (renameSync st src _) as [st1|] eqn:Hr; [|apply docs_grow_refl].
  apply renameSync_Ok in Hr as (b' & Hb' & ->).
  destruct (Hsrc src eq_refl) as [b Hb]. rewrite Hb in Hb'. injection Hb' as <-.
  set (st1 := put (remove st _) _ (Raw b)).
  assert (docs_grow st st1) as H1.
  { eapply docs_grow_trans; [apply docs_grow_remove|apply docs_grow_put_raw]. }
  destruct (writeFileSync st1 _ _) as [st2|] eqn:Hw; simpl; [|done].
  apply writeFileSync_Ok in Hw as [-> _].
  split; [by destruct H1|]. intros k m'. unfold put at 1. simpl.
  destruct (decide (Path.segs (manifestPath d id) = k)) as [<-|Hne].
  - rewrite lookup_insert_eq. intros [= <-].
    apply readJSON_Some in Hm as (_ & _ & Hm).
    exists m0. split; [done|apply grows_push].
  - rewrite lookup_insert_ne by done. apply H1.
Qed.

Lemma docs_grow_post_chunk d now suffix st id ci part :
  docs_grow st (fst (post_upload_chunk d now suffix st id ci part)).
Proof.
  unfold post_upload_chunk, multer_single.
  destruct part as [b|].
  - destruct (writeFileSync st _ (Raw b)) as [st0|] eqn:Hw; simpl;
      [|apply docs_grow_refl].
    apply writeFileSync_Ok in Hw as [-> _].
    eapply docs_grow_trans; [apply docs_grow_put_raw|].
    apply docs_grow_upload_chunk. intros src [= <-]. exists b.
    unfold put. simpl. by rewrite lookup_insert_eq.
  - simpl. apply docs_grow_upload_chunk. by intros.
Qed.




(** Why the statement speaks of stores without JSON payloads: sent to
    session [1700-42] with the chunk index [1/../1700-43.json], a
    payload is moved onto the manifest file of session [1700-43]. *)
Lemma payload_lands_on_manifest :
  let st1 := fst (upload_init example_dirname 1700 42 example_store
                    (JStr "a.bin") (JNum 2)) in
  let st2 := fst (upload_init example_dirname 1700 43 st1
                    (JStr "b.bin") (JNum 3)) in
  let st3 := fst (post_upload_chunk example_dirname 1701 "k3x9a1" st2
                    (JStr "1700-42") (JStr "1/../1700-43.json")
                    (Some (bytes_of_string "[]"))) in
  files st2 !! (TMP_DIR example_dirname ++ ["1700-43.json"])%list
  = Some (Doc (Manifest (JStr "b.bin") (Some 3) []))
  /\ files st3 !! (TMP_DIR example_dirname ++ ["1700-43.json"])%list
     = Some (Raw (bytes_of_string "[]"))
  /\ payloads_not_json st2 = true
  /\ payloads_not_json st3 = false.
Proof. repeat split; vm_compute; reflexivity. Qed.

(** * C6: what a chunk upload checks *)

(** C6 (as the code has it).  The chunk handler answers 400 when
    [uploadId] or [chunkIndex] is missing, when the session has no
    manifest, and when the request carries no chunk file; a request it
    rejects with an error message leaves the store as it was.  The
    index is not compared with [totalChunks] and the payload may be
    empty. *)
Theorem register_chunk_checks d st uploadId chunkIndex chunkFile :
  (truthy uploadId = false \/ truthy chunkIndex = false ->
   upload_chunk d st uploadId chunkIndex chunkFile
   = (st, RError 400 "uploadId and chunkIndex required"))
  /\ (truthy uploadId = true -> truthy chunkIndex = true ->
      existsSync st (manifestPath d uploadId) = false ->
      upload_chunk d st uploadId chunkIndex chunkFile
      = (st, RError 400 "Invalid or missing manifest file"))
  /\ (truthy uploadId = true -> truthy chunkIndex = true ->
      forall m, readJSON st (manifestPath d uploadId) = Ok (Some m) ->
      chunkFile = None ->
      upload_chunk d st uploadId chunkIndex chunkFile
      = (st, RError 400 "Chunk file missing"))
  /\ (forall st' status msg,
        upload_chunk d st uploadId chunkIndex chunkFile
        = (st', RError status msg) -> st' = st).
Proof.
  unfold upload_chunk. repeat split.
  - intros [-> | ->]; [done|]. by rewrite orb_true_r.
  - intros -> -> Habs. simpl. by rewrite readJSON_absent.
  - intros -> -> m -> ->. done.
  - intros st' status msg E.
    repeat (match type of E with
            | context [match ?x with _ => _ end] => destruct x eqn:?
            end; try (by injection E as <-); try discriminate).
Qed.

(** Index 7 of a three-chunk session and an empty payload are both
    accepted, and both change the store. *)
Lemma register_chunk_counterexample :
  let st1 := fst (upload_init example_dirname 1700 42 example_store
                    (JStr "clip.mp4") (JNum 3)) in
  let r7 := post_upload_chunk example_dirname 1701 "k3x9a1" st1
              (JStr "1700-42") (JStr "7") (Some (bytes_of_string "ZZ")) in
  let r1 := post_upload_chunk example_dirname 1702 "0zq7mm" st1
              (JStr "1700-42") (JStr "1") (Some []) in
  snd r7 = RChunk [Some 7]
  /\ readFileSync (fst r7) (chunkPath example_dirname (JStr "1700-42") (JStr "7"))
     = Ok (Raw (bytes_of_string "ZZ"))
  /\ snd r1 = RChunk [Some 1]
  /\ readFileSync (fst r1) (chunkPath example_dirname (JStr "1700-42") (JStr "1"))
     = Ok (Raw []).
Proof. vm_compute. repeat split. Qed.

(** * C7: what a session creation checks *)

(** C7 (as the code has it).  /upload/init answers 400 when [fileName]
    or [totalChunks] is missing or falsy (empty string, 0, null);
    otherwise it names the session [now-rnd], stores a manifest with
    the file name, [parseInt(totalChunks)] and no uploaded chunk, and
    returns the identifier. *)
Theorem create_session_checks d now rnd st fileName totalChunks :
  layout_ok d st = true ->
  let id := pretty now +:+ "-" +:+ pretty rnd in
  let created := upload_init d now rnd st fileName totalChunks in
  (truthy fileName = false \/ truthy totalChunks = false ->
   created = (st, RError 400 "fileName and totalChunks required"))
  /\ (truthy fileName = true -> truthy totalChunks = true ->
      snd created = RInit id
      /\ readJSON (fst created) (manifestPath d (JStr id))
         = Ok (Some (Manifest fileName (json_num (parseInt_val totalChunks)) []))
      /\ upload_status d (fst created) (JStr id) = RStatus []).
Proof.
  intros Hlay id created. subst created. split.
  - unfold upload_init. intros [-> | ->]; [done|]. by rewrite orb_true_r.
  - intros Hf Ht. rewrite upload_init_spec by done. fold id. simpl fst. simpl snd.
    assert (readJSON (put st (TMP_DIR d ++ [id +:+ ".json"])
                       (Doc (Manifest fileName
                               (json_num (parseInt_val totalChunks)) [])))
                     (manifestPath d (JStr id))
            = Ok (Some (Manifest fileName
                          (json_num (parseInt_val totalChunks)) []))) as Hr.
    { apply manifest_readJSON; [by rewrite (layout_ok_dirs d st)
                               |apply session_id_no_sep|].
      unfold put. simpl. by rewrite lookup_insert_eq. }
    split; [done|]. split; [done|].
    unfold upload_status. rewrite truthy_str by apply session_id_nonempty.
    simpl negb. cbv iota. by rewrite Hr.
Qed.

Lemma create_session_checks_witness :
  let created := upload_init example_dirname 1700 42 example_store
                   (JStr "report.pdf") (JStr "2") in
  snd created = RInit "1700-42"
  /\ readJSON (fst created) (manifestPath example_dirname (JStr "1700-42"))
     = Ok (Some (Manifest (JStr "report.pdf") (Some 2) []))
  /\ upload_status example_dirname (fst created) (JStr "1700-42") = RStatus [].
Proof.
  apply (proj2 (create_session_checks example_dirname 1700 42 example_store
                  (JStr "report.pdf") (JStr "2") eq_refl)); reflexivity.
Defined.

(** A negative chunk count and one that is not a number both pass the
    check of /upload/init. *)
Lemma create_session_counterexample :
  let neg := upload_init example_dirname 1700 42 example_store
               (JStr "report.pdf") (JNum (-1)) in
  let nan := upload_init example_dirname 1700 43 example_store
               (JStr "report.pdf") (JStr "many") in
  snd neg = RInit "1700-42"
  /\ readJSON (fst neg) (manifestPath example_dirname (JStr "1700-42"))
     = Ok (Some (Manifest (JStr "report.pdf") (Some (-1)) []))
  /\ snd nan = RInit "1700-43"
  /\ readJSON (fst nan) (manifestPath example_dirname (JStr "1700-43"))
     = Ok (Some (Manifest (JStr "report.pdf") None [])).
Proof. vm_compute. repeat split. Qed.

(** * C2: when the manifest is deleted *)

(** C2, what the code does.  When /upload/complete answers with the
    stored path, the manifest has been unlinked and nothing else has
    happened yet: the store is the old one without the manifest, and
    the whole assembly (every chunk of the session) is still pending in
    the task the handler has only started. *)
Theorem complete_discards_manifest_first d now st uploadId st' file job :
  upload_complete d now st uploadId = (st', RComplete file, Some job) ->
  st' = remove st (Path.segs (manifestPath d uploadId))
  /\ readJSON st' (manifestPath d uploadId) = Ok None
  /\ exists m, readJSON st (manifestPath d uploadId) = Ok (Some m)
       /\ chunks job = map (fun i => chunkPath d uploadId (JNum i))
                           (chunk_indices (totalChunks m)).
Proof.
  unfold upload_complete. intros E.
  destruct (negb (truthy uploadId)); [discriminate|].
  destruct (readJSON st (manifestPath d uploadId)) as [[m|]|] eqn:Hm;
    try discriminate.
  destruct (negb (bool_decide _)); [discriminate|].
  destruct (List.find _ _); [discriminate|].
  destruct (fileName m) as [| | | |name]; try discriminate.
  destruct (unlinkSync st _) as [st1|] eqn:Hu; [|discriminate].
  injection E as <- _ <-. apply unlinkSync_Ok in Hu as ->.
  apply readJSON_Some in Hm as Hm'. destruct Hm' as (Ht & Hd & Hf).
  split; [done|]. split; [|by exists m].
  set (k := manifestPath d uploadId) in *.
  unfold readJSON, existsSync. rewrite Ht.
  change (is_dir (remove st (Path.segs k)) (Path.segs k))
    with (is_dir st (Path.segs k)).
  rewrite Hd.
  change (files (remove st (Path.segs k)))
    with (delete (Path.segs k) (files st)).
  by rewrite lookup_delete_eq.
Qed.

Lemma complete_discards_manifest_first_witness :
  exists st' job,
    upload_complete example_dirname 1800 two_chunk_session (JStr "1700-42")
    = (st', RComplete "/uploads/docs/1800-report.pdf", Some job)
    /\ st' = remove two_chunk_session
               (Path.segs (manifestPath example_dirname (JStr "1700-42")))
    /\ readJSON st' (manifestPath example_dirname (JStr "1700-42")) = Ok None.
Proof.
  destruct (upload_complete example_dirname 1800 two_chunk_session
              (JStr "1700-42")) as [[st' r] job] eqn:E.
  assert (r = RComplete "/uploads/docs/1800-report.pdf") as ->.
  { apply (f_equal (fun x => snd (fst x))) in E. vm_compute in E. by subst. }
  destruct job as [job|];
    [|apply (f_equal snd) in E; vm_compute in E; discriminate].
  exists st', job. split; [done|].
  destruct (complete_discards_manifest_first _ _ _ _ _ _ _ E) as (H1 & H2 & _).
  by split.
Defined.

(** At the moment of the response: no manifest, no stored file, both
    chunks still in the temporary directory.  If the second chunk then
    cannot be read, the process stops with half a file under the final
    name and nothing to resume the session from. *)
Lemma manifest_gone_before_file_placed :
  let '(st', r, job) :=
    upload_complete example_dirname 1800 two_chunk_session (JStr "1700-42") in
  let final := ["srv"; "file-share"; "uploads"; "docs"; "1800-report.pdf"] in
  let part i := chunkPath example_dirname (JStr "1700-42") (JNum i) in
  r = RComplete "/uploads/docs/1800-report.pdf"
  /\ upload_status example_dirname st' (JStr "1700-42")
     = RError 404 "Upload not found"
  /\ files st' !! final = None
  /\ existsSync st' (part 1) = true /\ existsSync st' (part 2) = true
  /\ match job with
     | Some job =>
         exists broken,
           run_task (remove st' (Path.segs (part 2))) job
           = Crashed broken ENOENT
           /\ files broken !! final = Some (Raw (bytes_of_string "AB"))
           /\ upload_status example_dirname broken (JStr "1700-42")
              = RError 404 "Upload not found"
     | None => False
     end.
Proof.
  set (st := remove two_chunk_session
               (Path.segs (manifestPath example_dirname (JStr "1700-42")))).
  set (job := Task (Path.mk ["srv"; "file-share"; "uploads"; "docs";
                             "1800-report.pdf"] false)
                   [chunkPath example_dirname (JStr "1700-42") (JNum 1);
                    chunkPath example_dirname (JStr "1700-42") (JNum 2)]).
  assert (upload_complete example_dirname 1800 two_chunk_session (JStr "1700-42")
          = (st, RComplete "/uploads/docs/1800-report.pdf", Some job)) as ->
    by (vm_compute; reflexivity).
  cbv zeta.
  split; [reflexivity|]. split; [vm_compute; reflexivity|].
  split; [vm_compute; reflexivity|]. split; [vm_compute; reflexivity|].
  split; [vm_compute; reflexivity|].
  exists (outcome_store
            (run_task (remove st (Path.segs (chunkPath example_dirname
                                               (JStr "1700-42") (JNum 2))))
                      job)).
  split; [vm_compute; reflexivity|]. split; vm_compute; reflexivity.
Qed.

(** * C8: the file name in the destination path *)

(** C8 (as the code has it).  The file name gives the extension, hence
    the category, and is put unchanged after the time stamp into the
    destination handed to [path.join].  When it holds no path
    separator, the destination is the file [now-fileName] directly
    inside the directory of that category. *)
Theorem plain_name_lands_in_category d now st uploadId m name st' r job :
  readJSON st (manifestPath d uploadId) = Ok (Some m) ->
  fileName m = JStr name ->
  no_sep name = true ->
  upload_complete d now st uploadId = (st', r, Some job) ->
  let cat := categoryForExt (Path.extname name) in
  let stored := pretty now +:+ "-" +:+ name in
  In cat CATEGORIES
  /\ dest job = Path.mk (UPLOAD_ROOT d ++ [cat; stored]) false
  /\ r = RComplete ("/uploads/" +:+ cat +:+ "/" +:+ stored).
Proof.
  intros Hm Hname Hsep E cat stored.
  pose proof (categoryForExt_in (Path.extname name)) as Hcat. fold cat in Hcat.
  split; [done|].
  assert (unlinkSync st (manifestPath d uploadId)
          = Ok (remove st (Path.segs (manifestPath d uploadId)))) as Hu.
  { apply readJSON_Some in Hm as (Ht & Hd & Hf).
    unfold unlinkSync, readFileSync. by rewrite Ht, Hd, Hf. }
  unfold upload_complete in E. rewrite Hm, Hname, Hu in E.
  destruct (negb (truthy uploadId)); [discriminate|].
  destruct (negb (bool_decide _)); [discriminate|].
  destruct (List.find _ _); [discriminate|].
  injection E as _ <- <-. simpl dest. fold cat stored.
  split; [|done].
  apply join_plain2;
    [apply UPLOAD_ROOT_normal | by apply category_plain
    | by apply final_name_plain].
Qed.

Lemma plain_name_lands_in_category_witness :
  exists st' job,
    upload_complete example_dirname 1800 two_chunk_session (JStr "1700-42")
    = (st', RComplete "/uploads/docs/1800-report.pdf", Some job)
    /\ dest job
       = Path.mk ["srv"; "file-share"; "uploads"; "docs"; "1800-report.pdf"]
                 false.
Proof.
  destruct (upload_complete example_dirname 1800 two_chunk_session
              (JStr "1700-42")) as [[st' r] job] eqn:E.
  destruct job as [job|];
    [|apply (f_equal snd) in E; vm_compute in E; discriminate].
  destruct (plain_name_lands_in_category example_dirname 1800 two_chunk_session
              (JStr "1700-42")
              (Manifest (JStr "report.pdf") (Some 2) [Some 1; Some 2])
              "report.pdf" st' r job) as (_ & Hd & ->);
    [vm_compute; reflexivity | reflexivity | reflexivity | exact E |].
  exists st', job. split; [done|exact Hd].
Defined.

(** A session whose file name climbs out of the category directory:
    the assembled upload replaces the start page of the server, which
    is then the only file left; nothing is stored under
    [uploads/others], the category named in the response. *)
Lemma stored_outside_category_counterexample :
  let name := "/../../../public/index.html" in
  let st1 := fst (upload_init example_dirname 1700 42 example_store
                    (JStr name) (JNum 1)) in
  let st2 := fst (post_upload_chunk example_dirname 1701 "k3x9a1" st1
                    (JStr "1700-42") (JStr "1")
                    (Some (bytes_of_string "<h1>owned</h1>"))) in
  let '(o, r) := complete_and_assemble example_dirname 1800 st2 (JStr "1700-42") in
  r = RComplete "/uploads/others/1800-/../../../public/index.html"
  /\ exists st3,
       o = Done st3
       /\ map_to_list (files st3)
          = [ (["srv"; "file-share"; "public"; "index.html"],
               Raw (bytes_of_string "<h1>owned</h1>")) ].
Proof.
  cbv zeta.
  set (run := complete_and_assemble _ _ _ _).
  assert (run = (Done (outcome_store (fst run)),
                 RComplete "/uploads/others/1800-/../../../public/index.html"))
    as -> by (vm_compute; reflexivity).
  split; [reflexivity|].
  exists (outcome_store (fst run)). split; [reflexivity|].
  vm_compute. reflexivity.
Qed.

(** * C10: /download *)

Lemma join_dotdot d name :
  plain name = true ->
  Path.join d ["../" +:+ name]
  = Path.mk (rev (name :: tail (fold_left Path.push_seg d []))) false.
Proof.
  intros Hp. pose proof Hp as Hp'.
  apply andb_true_iff in Hp' as [Hsep Hn].
  assert (Path.split ("../" +:+ name) = [".."; name]) as Hsplit.
  { simpl. by rewrite split_no_sep. }
  unfold Path.join.
  change (List.filter Path.nonempty ["../" +:+ name]) with ["../" +:+ name].
  cbn [map concat last]. rewrite Hsplit, app_nil_r.
  unfold Path.normalize_segs. rewrite fold_left_app. cbn [fold_left].
  change (Path.push_seg ?s "..") with (tail s).
  rewrite push_seg_normal by done.
  f_equal. destruct (rev _); [done|].
  destruct name as [|c name]; [done|].
  change (Path.ends_with_slash ("../" +:+ String c name))
    with (Path.ends_with_slash (String c name)).
  by apply ends_with_slash_no_sep.
Qed.

(** C10.  /download joins the [path] parameter onto the directory of
    the server and checks nothing but existence: a supplied path is
    answered with 404 exactly when the joined path does not exist, and
    with the file at the joined path otherwise.  There are requests
    with a [..] segment that are answered with a file outside the
    uploads tree. *)
Theorem download_is_unconfined d :
  (forall st p, truthy p = true ->
     download d st p
     = if existsSync st (Path.join d [to_string p])
       then RDownload (Path.join d [to_string p])
       else RSend 404 "not found")
  /\ exists st p q content,
       In ".." (Path.split p)
       /\ download d st (JStr p) = RDownload q
       /\ files st !! Path.segs q = Some (Raw content)
       /\ ~ UPLOAD_ROOT d `prefix_of` Path.segs q.
Proof.
  split.
  { intros st p Hp. unfold download. rewrite Hp. simpl negb. cbv iota.
    by destruct (existsSync st _). }
  set (S := fold_left Path.push_seg d []).
  set (q := Path.mk (rev ("leak.txt" :: tail S)) false).
  exists {| dirs := ∅; files := {[ Path.segs q := Raw (bytes_of_string "secret") ]} |},
         "../leak.txt", q, (bytes_of_string "secret").
  split; [simpl; tauto|].
  assert (Path.join d ["../leak.txt"] = q) as Hq by (by apply (join_dotdot d "leak.txt")).
  split; [|split].
  - unfold download. simpl truthy. simpl negb. cbv iota. simpl to_string.
    rewrite Hq. unfold existsSync, is_dir. simpl Path.trailing. cbv iota.
    cbn [dirs files]. rewrite lookup_singleton_eq.
    rewrite bool_decide_eq_false_2 by apply not_elem_of_empty.
    by rewrite bool_decide_eq_true_2 by eauto.
  - cbn [files]. by rewrite lookup_singleton_eq.
  - unfold UPLOAD_ROOT, Path.join.
    change (List.filter Path.nonempty ["uploads"]) with ["uploads"].
    cbn [map concat Path.segs]. change (Path.split "uploads") with ["uploads"].
    rewrite app_nil_r.
    unfold Path.normalize_segs. rewrite fold_left_app. cbn [fold_left]. fold S.
    change (Path.push_seg S "uploads") with ("uploads" :: S).
    intros Hpre. pose proof (prefix_length _ _ Hpre) as Hlen.
    simpl in Hlen. rewrite !length_app, !length_rev in Hlen. simpl in Hlen.
    destruct S as [|s S']; simpl in *; [|lia].
    destruct Hpre as [k Hk]. discriminate.
Qed.

(** * C9: two chunk requests of one session in flight *)

Lemma upload_chunk_ok d st id ci f st' l :
  upload_chunk d st id ci f = (st', RChunk l) ->
  json_num (parseInt_val ci) ∈ l
  /\ (exists m', readJSON st' (manifestPath d id) = Ok (Some m')
                 /\ uploadedChunks m' = l)
  /\ (exists m, readJSON st (manifestPath d id) = Ok (Some m)
                /\ forall x, x ∈ uploadedChunks m -> x ∈ l).
Proof.
  unfold upload_chunk. intros E.
  destruct (negb (truthy id) || negb (truthy ci))%bool; [discriminate|].
  destruct (readJSON st (manifestPath d id)) as [[m|]|] eqn:Hm; try discriminate.
  destruct f as [src|]; [|discriminate].
  destruct (renameSync st src _) as [st1|] eqn:Hr; [|discriminate].
  destruct (writeFileSync st1 _ _) as [st2|] eqn:Hw; [|discriminate].
  injection E as <- <-.
  split; [|split].
  - destruct (parseInt_val ci) as [|z]; simpl.
    + apply elem_of_app. right. by apply list_elem_of_singleton.
    + case_bool_decide; [done|].
      apply elem_of_app. right. by apply list_elem_of_singleton.
  - exists (Manifest (fileName m) (totalChunks m)
              (if includes (uploadedChunks m) (parseInt_val ci)
               then uploadedChunks m
               else (uploadedChunks m ++ [json_num (parseInt_val ci)])%list)).
    split; [|reflexivity].
    pose proof Hw as Hw'. apply writeFileSync_Ok in Hw' as [-> Ht].
    apply readJSON_Some. split; [done|]. split.
    + unfold writeFileSync, check_target in Hw. rewrite Ht in Hw.
      change (is_dir (put st1 ?k ?b) ?p) with (is_dir st1 p).
      by destruct (is_dir st1 _).
    + unfold put. simpl. by rewrite lookup_insert_eq.
  - exists m. split; [done|]. intros x Hx.
    destruct (includes _ _); [done|]. apply elem_of_app. by left.
Qed.

Lemma multer_keeps_manifest d now suffix st part st' f p m :
  multer_single d now suffix st part = Ok (st', f) ->
  readJSON st' p = Ok (Some m) -> readJSON st p = Ok (Some m).
Proof.
  unfold multer_single. destruct part as [b|]; [|by intros [= <- _]].
  destruct (writeFileSync st _ (Raw b)) as [st0|] eqn:Hw; simpl; [|done].
  intros [= <- _]. apply writeFileSync_Ok in Hw as [-> _].
  rewrite !readJSON_Some. intros (Ht & Hd & Hf). split; [done|]. split; [done|].
  change (files (put st ?k ?v)) with (<[k:=v]> (files st)) in Hf.
  destruct (decide (Path.segs (Path.join (TMP_DIR d) [pretty now +:+ "-" +:+ suffix])
                    = Path.segs p)) as [E|Hne].
  - rewrite E, lookup_insert_eq in Hf. discriminate.
  - by rewrite lookup_insert_ne in Hf.
Qed.

Lemma schedules_eq :
  schedules
  = [ [Receive false; Respond false; Receive true; Respond true];
      [Receive false; Receive true; Respond false; Respond true];
      [Receive false; Receive true; Respond true; Respond false];
      [Receive true; Receive false; Respond false; Respond true];
      [Receive true; Receive false; Respond true; Respond false];
      [Receive true; Respond true; Receive false; Respond false] ].
Proof. reflexivity. Qed.

(** The second of two handlers sees what the first one recorded, with
    or without a [Receive] in between. *)
Lemma second_handler_sees_first d st ida cia fa st1 la st2 idb cib fb st3 lb :
  manifestPath d ida = manifestPath d idb ->
  upload_chunk d st ida cia fa = (st1, RChunk la) ->
  (forall m, readJSON st2 (manifestPath d idb) = Ok (Some m) ->
             readJSON st1 (manifestPath d idb) = Ok (Some m)) ->
  upload_chunk d st2 idb cib fb = (st3, RChunk lb) ->
  upload_status d st3 idb = RStatus lb
  /\ json_num (parseInt_val cia) ∈ lb
  /\ json_num (parseInt_val cib) ∈ lb.
Proof.
  intros Hsame Ha Hbetween Hb.
  apply upload_chunk_ok in Ha as (Hina & (ma & Hma & <-) & _).
  assert (truthy idb = true) as Hid.
  { unfold upload_chunk in Hb. destruct (truthy idb); [done|discriminate]. }
  apply upload_chunk_ok in Hb as (Hinb & (mb' & Hmb' & <-) & (mb & Hmb & Hsub)).
  split; [|split; [|done]].
  - unfold upload_status. by rewrite Hid, Hmb'.
  - apply Hsub. apply Hbetween in Hmb. rewrite <- Hsame, Hma in Hmb.
    by injection Hmb as <-.
Qed.

Ltac loop_cbn :=
  cbn [fold_left loop_step l_store l_file l_resp set_at Bool.eqb is_ok].

Ltac run_event :=
  loop_cbn;
  match goal with
  | |- context [multer_single ?d ?n ?s ?st ?p] =>
      is_var st;
      let E := fresh "Hrecv" in
      destruct (multer_single d n s st p) as [[? ?]|] eqn:E
  | |- context [upload_chunk ?d ?st ?i ?c ?f] =>
      is_var st;
      let E := fresh "Hresp" in
      destruct (upload_chunk d st i c f) as [? []] eqn:E
  end.

Ltac both_recorded Hsame Ha Hb :=
  intros _ _;
  lazymatch type of Hb with
  | upload_chunk _ _ _ _ _ = (_, RChunk ?lb) =>
      exists lb;
      edestruct second_handler_sees_first as (H1 & H2 & H3);
      [ | exact Ha | | exact Hb | ];
      [ first [ by rewrite Hsame | by rewrite <- Hsame ]
      | intros m Hm;
        first [ exact Hm | eapply multer_keeps_manifest; eassumption ]
      | first [ rewrite Hsame | rewrite <- Hsame | idtac ];
        first [ by repeat split | by rewrite Hsame in H1 | by rewrite <- Hsame in H1 ] ]
  end.

(** C9.  Two chunk requests of one session are in flight at once: their
    callbacks run in any of the six orders the event loop allows.  If
    both requests are answered with success, the status of the session
    afterwards lists both indices: no update of the manifest is lost. *)
Theorem concurrent_registrations_kept d st calls sched :
  In sched schedules ->
  q_uploadId (calls false) = q_uploadId (calls true) ->
  let fin := run_loop d calls st sched in
  is_ok (l_resp fin false) = true ->
  is_ok (l_resp fin true) = true ->
  exists l,
    upload_status d (l_store fin) (q_uploadId (calls false)) = RStatus l
    /\ json_num (parseInt_val (q_chunkIndex (calls false))) ∈ l
    /\ json_num (parseInt_val (q_chunkIndex (calls true))) ∈ l.
Proof.
  intros Hin Hsame fin. subst fin. rewrite schedules_eq in Hin.
  unfold run_loop.
  destruct Hin as [<-|[<-|[<-|[<-|[<-|[<-|[]]]]]]].
  all: repeat run_event; loop_cbn; try (intros; discriminate).
  all: both_recorded Hsame Hresp Hresp0.
Qed.

Lemma concurrent_registrations_kept_witness :
  exists l,
    upload_status example_dirname
      (l_store (run_loop example_dirname example_calls example_session
                  [Receive false; Receive true; Respond true; Respond false]))
      (JStr "1700-42") = RStatus l
    /\ Some 1 ∈ l /\ Some 2 ∈ l.
Proof.
  apply (concurrent_registrations_kept example_dirname example_session
           example_calls
           [Receive false; Receive true; Respond true; Respond false]).
  - vm_compute. tauto.
  - reflexivity.
  - vm_compute. reflexivity.
  - vm_compute. reflexivity.
Defined.

(** On the example session both requests succeed in each of the six
    orders, and the status is the two indices in the order in which the
    handlers ran. *)
Example concurrent_registrations_all_orders :
  map (fun sched =>
         let fin := run_loop example_dirname example_calls example_session sched in
         (is_ok (l_resp fin false), is_ok (l_resp fin true),
          upload_status example_dirname (l_store fin) (JStr "1700-42")))
      schedules
  = [ (true, true, RStatus [Some 1; Some 2]);
      (true, true, RStatus [Some 1; Some 2]);
      (true, true, RStatus [Some 2; Some 1]);
      (true, true, RStatus [Some 1; Some 2]);
      (true, true, RStatus [Some 2; Some 1]);
      (true, true, RStatus [Some 2; Some 1]) ].
Proof. vm_compute. reflexivity. Qed.

(** * The classifier *)

Lemma lower_ascii_idem c : lower_ascii (lower_ascii c) = lower_ascii c.
Proof. by destruct c as [[] [] [] [] [] [] [] []]. Qed.

Lemma toLowerCase_idem s : toLowerCase (toLowerCase s) = toLowerCase s.
Proof.
  induction s as [|c s IH]; simpl; [done|]. by rewrite lower_ascii_idem, IH.
Qed.

Lemma includes_str_In l x : includes_str l x = true <-> In x l.
Proof.
  unfold includes_str. rewrite existsb_exists. split.
  - intros (y & Hy & E). apply String.eqb_eq in E. by subst.
  - intros H. exists x. split; [done|apply String.eqb_refl].
Qed.

(** X1.  The category of an extension is one of the four labels, it
    depends on the extension only up to letter case, and it is decided
    by the three lists: [images], [videos] or [docs] exactly when the
    lower-cased extension is in the list of that name, [others] exactly
    when it is in none. *)
Theorem category_of_extension ext :
  In (categoryForExt ext) CATEGORIES
  /\ categoryForExt (toLowerCase ext) = categoryForExt ext
  /\ (categoryForExt ext = "images" <-> In (toLowerCase ext) imageExts)
  /\ (categoryForExt ext = "videos" <-> In (toLowerCase ext) videoExts)
  /\ (categoryForExt ext = "docs" <-> In (toLowerCase ext) docExts)
  /\ (categoryForExt ext = "others" <->
      ~ In (toLowerCase ext) (imageExts ++ videoExts ++ docExts)).
Proof.
  split; [apply categoryForExt_in|].
  split; [unfold categoryForExt; by rewrite toLowerCase_idem|].
  unfold categoryForExt. generalize (toLowerCase ext). intros e.
  rewrite !in_app_iff, <- !includes_str_In.
  destruct (includes_str imageExts e) eqn:Hi.
  { apply includes_str_In in Hi. unfold imageExts in Hi. simpl in Hi.
    repeat (destruct Hi as [<-|Hi];
            [vm_compute; intuition discriminate|]).
    done. }
  destruct (includes_str videoExts e) eqn:Hv.
  { apply includes_str_In in Hv. unfold videoExts in Hv. simpl in Hv.
    repeat (destruct Hv as [<-|Hv];
            [vm_compute; intuition discriminate|]).
    done. }
  destruct (includes_str docExts e) eqn:Hd; intuition discriminate.
Qed.

(** * Status, and sessions that cannot complete *)

(** X2.  When a chunk request (multer, then the handler) is answered
    with success, the list in its answer holds the index just sent and
    is exactly what /upload/status reports afterwards: the answer and
    the manifest never disagree, whatever the identifier, the index and
    the store are. *)
Theorem status_reflects_registration d now suffix st id ci part st' l :
  post_upload_chunk d now suffix st id ci part = (st', RChunk l) ->
  upload_status d st' id = RStatus l
  /\ json_num (parseInt_val ci) ∈ l.
Proof.
  unfold post_upload_chunk. intros E.
  destruct (multer_single d now suffix st part) as [[st0 f]|]; [|discriminate].
  assert (truthy id = true) as Hid.
  { unfold upload_chunk in E. destruct (truthy id); [done|discriminate]. }
  apply upload_chunk_ok in E as (Hin & (m' & Hm' & <-) & _).
  split; [|done]. unfold upload_status. by rewrite Hid, Hm'.
Qed.

Lemma status_reflects_registration_witness :
  upload_status example_dirname
    (fst (post_upload_chunk example_dirname 1701 "k3x9a1" example_session
            (JStr "1700-42") (JStr " 0x02 ") (Some (bytes_of_string "CD"))))
    (JStr "1700-42") = RStatus [Some 2]
  /\ json_num (parseInt_val (JStr " 0x02 ")) ∈ [Some 2].
Proof.
  apply (status_reflects_registration example_dirname 1701 "k3x9a1"
           example_session (JStr "1700-42") (JStr " 0x02 ")
           (Some (bytes_of_string "CD"))).
  vm_compute. reflexivity.
Defined.

(** X3.  /upload/init accepts any truthy [fileName], a number for
    instance, but /upload/complete needs a string: with another value in
    the manifest it never starts the assembly and leaves the store,
    manifest included, as it is.  Once validation passes, the answer is
    the 500 of the TypeError thrown by [path.extname]. *)
Theorem non_string_name_never_completes d now st id m :
  truthy id = true ->
  readJSON st (manifestPath d id) = Ok (Some m) ->
  (forall s, fileName m <> JStr s) ->
  exists r,
    upload_complete d now st id = (st, r, None)
    /\ (r = RThrown ERR_INVALID_ARG_TYPE
        \/ r = RError 400 "Not all chunks uploaded yet"
        \/ exists i : Z, r = RError 400 ("Missing chunk file: part" +:+ pretty i)).
Proof.
  intros Hid Hm Hname. unfold upload_complete. rewrite Hid, Hm. simpl negb.
  cbv iota.
  destruct (negb (bool_decide _)); [eauto|].
  destruct (List.find _ _) as [i|]; [eauto 6|].
  destruct (fileName m) as [| | | |s] eqn:E; eauto.
  by destruct (Hname s).
Qed.

Lemma non_string_name_never_completes_witness :
  let created := upload_init example_dirname 1700 42 example_store
                   (JNum 2024) (JNum 1) in
  let st := fst (post_upload_chunk example_dirname 1701 "k3x9a1" (fst created)
                   (JStr "1700-42") (JStr "1") (Some (bytes_of_string "AB"))) in
  snd created = RInit "1700-42"
  /\ exists r,
       upload_complete example_dirname 1800 st (JStr "1700-42") = (st, r, None)
       /\ (r = RThrown ERR_INVALID_ARG_TYPE
           \/ r = RError 400 "Not all chunks uploaded yet"
           \/ exists i : Z, r = RError 400 ("Missing chunk file: part" +:+ pretty i)).
Proof.
  split; [reflexivity|].
  apply (non_string_name_never_completes example_dirname 1800 _ (JStr "1700-42")
           (Manifest (JNum 2024) (Some 1) [Some 1])).
  - reflexivity.
  - vm_compute. reflexivity.
  - discriminate.
Defined.

(** X4.  A session whose [totalChunks] is not a number (stored as
    [null]) or is negative, both of which /upload/init lets through,
    can never be completed: whatever has been uploaded, /upload/complete
    answers "Not all chunks uploaded yet" and changes nothing. *)
Theorem bad_total_never_completes d now st id m :
  truthy id = true ->
  readJSON st (manifestPath d id) = Ok (Some m) ->
  (forall n, totalChunks m = Some n -> n < 0) ->
  upload_complete d now st id
  = (st, RError 400 "Not all chunks uploaded yet", None).
Proof.
  intros Hid Hm Htot. unfold upload_complete. rewrite Hid, Hm. simpl negb.
  cbv iota. rewrite bool_decide_eq_false_2; [done|].
  intros E. symmetry in E. apply Htot in E. lia.
Qed.

Lemma bad_total_never_completes_witness :
  let created := upload_init example_dirname 1700 42 example_store
                   (JStr "clip.mp4") (JStr "many") in
  let st := fst (post_upload_chunk example_dirname 1701 "k3x9a1" (fst created)
                   (JStr "1700-42") (JStr "1") (Some (bytes_of_string "AB"))) in
  snd created = RInit "1700-42"
  /\ upload_complete example_dirname 1800 st (JStr "1700-42")
     = (st, RError 400 "Not all chunks uploaded yet", None).
Proof.
  split; [reflexivity|].
  apply (bad_total_never_completes example_dirname 1800 _ (JStr "1700-42")
           (Manifest (JStr "clip.mp4") None [Some 1])).
  - reflexivity.
  - vm_compute. reflexivity.
  - discriminate.
Defined.

(** * Any sequence of registrations *)

Lemma elem_of_rev {A} (x : A) l : x ∈ rev l <-> x ∈ l.
Proof. rewrite !list_elem_of_In. symmetry. apply in_rev. Qed.

Lemma first_arrivals_snoc l i :
  first_arrivals (l ++ [i])
  = if bool_decide (i ∈ l) then first_arrivals l
    else (first_arrivals l ++ [i])%list.
Proof.
  unfold first_arrivals. rewrite rev_app_distr. simpl.
  destruct (decide_rel elem_of i (rev l)) as [Hin|Hin];
    case_bool_decide as Hin'; try done.
  - exfalso. apply Hin'. by rewrite <- elem_of_rev.
  - exfalso. apply Hin. by rewrite elem_of_rev.
Qed.

Lemma first_arrivals_elem l i : i ∈ first_arrivals l <-> i ∈ l.
Proof.
  unfold first_arrivals.
  by rewrite elem_of_rev, elem_of_remove_dups, elem_of_rev.
Qed.

Lemma payload_rev_snoc regs r i :
  payload (rev (regs ++ [r])) i
  = if Z.eqb (c_index r) i then c_bytes r else payload (rev regs) i.
Proof.
  rewrite rev_app_distr. unfold payload. simpl. by destruct (Z.eqb _ _).
Qed.

Section Sequences.
Variable d : list string.
Variable id : string.
Hypothesis Hid : no_sep id = true.
Hypothesis Hne : id <> "".

Let M := (TMP_DIR d ++ [id +:+ ".json"])%list.
Let C (i : Z) := (TMP_DIR d ++ [id +:+ ".part" +:+ pretty i])%list.

Lemma register_all_any regs : forall st m,
  layout_ok d st = true ->
  files st !! M = Some (Doc m) ->
  uploadedChunks m = [] ->
  Forall (fun r => base36 (c_suffix r) = true) regs ->
  let st' := register_all d st id regs in
  layout_ok d st' = true
  /\ files st' !! M
     = Some (Doc (Manifest (fileName m) (totalChunks m)
                   (map Some (first_arrivals (map c_index regs)))))
  /\ (forall r, In r regs ->
        files st' !! C (c_index r)
        = Some (Raw (payload (rev regs) (c_index r)))).
Proof.
  induction regs as [|r regs IH] using rev_ind; intros st m Hlay Hm Hup Hsuf.
  { simpl. split; [done|]. split; [|done].
    destruct m. simpl in Hup. by subst. }
  apply Forall_app in Hsuf as [Hsuf Hr]. apply Forall_cons in Hr as [Hr _].
  destruct (IH st m Hlay Hm Hup Hsuf) as (Hlay1 & Hm1 & Hch1).
  unfold register_all in *. rewrite fold_left_app. simpl.
  set (st1 := fold_left _ regs st) in *.
  rewrite (register_spec d st1 id r _ Hlay1 Hid Hne Hr Hm1). simpl fst.
  split; [by rewrite (layout_ok_dirs d st1)|]. split.
  - cbn [files]. rewrite lookup_insert_eq. do 3 f_equal.
    rewrite map_app. change (map c_index [r]) with [c_index r].
    rewrite first_arrivals_snoc. simpl uploadedChunks.
    case_bool_decide as H1; case_bool_decide as H2; try done.
    + destruct H2. apply list_elem_of_fmap in H1 as (j & [= <-] & Hj).
      by rewrite first_arrivals_elem in Hj.
    + destruct H1. apply list_elem_of_fmap. exists (c_index r).
      split; [done|]. by rewrite first_arrivals_elem.
    + by rewrite map_app.
  - intros r' Hin. cbn [files]. rewrite payload_rev_snoc.
    rewrite lookup_insert_ne by (apply snoc_ne, json_not_part).
    destruct (Z.eqb_spec (c_index r) (c_index r')) as [E|Hdiff].
    + rewrite <- E. by rewrite lookup_insert_eq.
    + rewrite lookup_insert_ne
        by (apply snoc_ne; intros E; apply part_inj in E; congruence).
      rewrite lookup_delete_ne by (apply snoc_ne; by apply tmp_name_not_part).
      apply Hch1. apply in_app_iff in Hin as [Hin|[<-|[]]]; [done|congruence].
Qed.

End Sequences.

(** X5.  Any sequence of registrations on a session that starts empty,
    whatever the indices (safe integers, sent in decimal) and with
    repeats: the status afterwards lists each index sent once, in the
    order of first arrival, and the chunk file of each index holds the
    bytes of the last registration of that index.  The names of the
    files involved are storable. *)
Theorem registrations_in_arrival_order d st id m regs :
  layout_ok d st = true ->
  no_sep id = true -> id <> "" ->
  storable_id id = true ->
  Forall (fun r => base36 (c_suffix r) = true) regs ->
  Forall (fun r => reg_fits r = true) regs ->
  readJSON st (manifestPath d (JStr id)) = Ok (Some m) ->
  uploadedChunks m = [] ->
  let st' := register_all d st id regs in
  upload_status d st' (JStr id)
  = RStatus (map Some (first_arrivals (map c_index regs)))
  /\ forall r, In r regs ->
       readFileSync st' (chunkPath d (JStr id) (JNum (c_index r)))
       = Ok (Raw (payload (rev regs) (c_index r))).
Proof.
  intros Hlay Hid Hne _ Hsuf _ Hm Hup st'.
  apply manifest_lookup in Hm; [|done..].
  destruct (register_all_any d id Hid Hne regs st m Hlay Hm Hup Hsuf)
    as (Hlay' & Hm' & Hch). fold st' in Hlay', Hm', Hch.
  split.
  - unfold upload_status. rewrite truthy_str by done. simpl negb. cbv iota.
    by rewrite (manifest_readJSON d st' id _ Hlay' Hid Hm').
  - intros r Hin. rewrite chunkPath_plain by done.
    fold (tmp_file d (id +:+ ".part" +:+ pretty (c_index r))).
    rewrite tmp_read by done. by rewrite Hch.
Qed.

Lemma registrations_in_arrival_order_witness :
  let regs := [ ChunkReq 2 (bytes_of_string "b") 1701 "k3x9a1";
                ChunkReq 5 (bytes_of_string "e") 1702 "0zq7mm";
                ChunkReq 5 (bytes_of_string "E") 1703 "b81c2d";
                ChunkReq 1 (bytes_of_string "a") 1704 "77aabb" ] in
  let st' := register_all example_dirname example_session "1700-42" regs in
  upload_status example_dirname st' (JStr "1700-42")
  = RStatus [Some 2; Some 5; Some 1]
  /\ forall r, In r regs ->
       readFileSync st' (chunkPath example_dirname (JStr "1700-42")
                                   (JNum (c_index r)))
       = Ok (Raw (payload (rev regs) (c_index r))).
Proof.
  apply (registrations_in_arrival_order example_dirname example_session
           "1700-42" (Manifest (JStr "report.pdf") (Some 3) [])).
  - vm_compute. reflexivity.
  - reflexivity.
  - discriminate.
  - reflexivity.
  - repeat constructor.
  - repeat constructor.
  - vm_compute. reflexivity.
  - reflexivity.
Defined.

(** * What a finished completion leaves behind *)

Section Consuming.
Variable d : list string.
Variable id : string.
Hypothesis Hid : no_sep id = true.
Variable F : list string.

Let C (i : Z) := (TMP_DIR d ++ [id +:+ ".part" +:+ pretty i])%list.

Hypothesis HF : forall i, F <> C i.

Lemma pipe_chunks_frame l : forall st acc,
  layout_ok d st = true ->
  files st !! F = Some (Raw acc) ->
  NoDup l ->
  (forall i, In i l -> is_Some (files st !! C i)) ->
  exists st' content,
    pipe_chunks st F (map (fun i => chunkPath d (JStr id) (JNum i)) l) = Done st'
    /\ dirs st' = dirs st
    /\ files st' !! F = Some (Raw content)
    /\ (forall i, In i l -> files st' !! C i = None)
    /\ (forall k, k <> F -> (forall i, In i l -> k <> C i) ->
          files st' !! k = files st !! k).
Proof.
  induction l as [|i l IH]; intros st acc Hlay Hacc Hnd Hch; simpl.
  { exists st, acc. by repeat split. }
  apply NoDup_cons in Hnd as [Hi Hnd]. rewrite list_elem_of_In in Hi.
  rewrite chunkPath_plain by done.
  fold (tmp_file d (id +:+ ".part" +:+ pretty i)). fold (C i).
  rewrite tmp_read by done. fold (C i).
  destruct (Hch i (or_introl eq_refl)) as [blob Hblob]. rewrite Hblob.
  set (st1 := append st F (blob_bytes blob)).
  assert (layout_ok d st1 = true) as Hlay1 by (by rewrite (layout_ok_dirs d st)).
  assert (forall k, k <> F -> files st1 !! k = files st !! k) as Hst1.
  { intros k Hk. unfold st1, append. cbn [files]. by rewrite lookup_alter_ne. }
  rewrite tmp_unlink by done. fold (C i).
  rewrite Hst1, Hblob by (intros E; by apply (HF i)).
  set (st2 := remove st1 (C i)).
  assert (forall j, j <> i -> C j <> C i) as HCne.
  { intros j Hj E. apply snoc_ne in E; [done|].
    intros E'. apply part_inj in E'. congruence. }
  destruct (IH st2 (acc ++ blob_bytes blob)%list)
    as (st' & content & Hrun & Hdirs & HFin & Hgone & Hframe).
  - by rewrite (layout_ok_dirs d st1).
  - unfold st2, remove, st1, append. cbn [files].
    rewrite lookup_delete_ne by (intros E; by apply (HF i)).
    by rewrite lookup_alter_eq, Hacc.
  - done.
  - intros j Hj. unfold st2, remove. cbn [files].
    rewrite lookup_delete_ne by (apply not_eq_sym, HCne; congruence).
    rewrite Hst1 by apply not_eq_sym, HF. apply Hch. by right.
  - exists st', content. split; [done|]. split; [by rewrite Hdirs|].
    split; [done|]. split.
    + intros j [<-|Hj]; [|by apply Hgone].
      rewrite Hframe.
      * unfold st2, remove. cbn [files]. by rewrite lookup_delete_eq.
      * apply not_eq_sym, HF.
      * intros j Hj. apply not_eq_sym, HCne. congruence.
    + intros k HkF Hk. rewrite Hframe; [|done|intros j Hj; apply Hk; by right].
      unfold st2, remove. cbn [files].
      rewrite lookup_delete_ne by (apply not_eq_sym, Hk; by left).
      by apply Hst1.
Qed.

End Consuming.

(** What a completion that passes validation does, once its assembly
    has run, in terms of the store. *)
Lemma completion_run d now st id m name st1 file job :
  layout_ok d st = true ->
  no_sep id = true -> id <> "" ->
  readJSON st (manifestPath d (JStr id)) = Ok (Some m) ->
  fileName m = JStr name -> no_sep name = true ->
  upload_complete d now st (JStr id) = (st1, RComplete file, Some job) ->
  let cat := categoryForExt (Path.extname name) in
  let stored := pretty now +:+ "-" +:+ name in
  let F := (UPLOAD_ROOT d ++ [cat; stored])%list in
  let M := (TMP_DIR d ++ [id +:+ ".json"])%list in
  dest job = Path.mk F false
  /\ file = "/uploads/" +:+ cat +:+ "/" +:+ stored
  /\ exists st3 content,
       run_task st1 job = Done st3
       /\ dirs st3 = dirs st
       /\ files st3 !! F = Some (Raw content)
       /\ files st3 !! M = None
       /\ (forall i, 1 <= i <= Z.of_nat (length (uploadedChunks m)) ->
             files st3 !! (TMP_DIR d ++ [id +:+ ".part" +:+ pretty i])%list = None)
       /\ (forall k, k <> F -> k <> M ->
             (forall i : Z, k <> (TMP_DIR d ++ [id +:+ ".part" +:+ pretty i])%list) ->
             files st3 !! k = files st !! k).
Proof.
  intros Hlay Hid Hne Hm Hname Hsep E cat stored F M.
  pose proof (manifest_lookup d st id m Hlay Hid Hm) as HmL. fold M in HmL.
  pose proof (categoryForExt_in (Path.extname name)) as Hcat. fold cat in Hcat.
  set (n := Z.of_nat (length (uploadedChunks m))).
  unfold upload_complete in E. rewrite truthy_str in E by done.
  simpl negb in E. cbv iota in E. rewrite Hm in E.
  destruct (bool_decide _) eqn:Hcount; [|discriminate].
  apply bool_decide_eq_true in Hcount. fold n in Hcount.
  simpl negb in E. cbv iota in E. rewrite <- Hcount in E. simpl chunk_indices in E.
  destruct (List.find _ _) eqn:Hfind; [discriminate|].
  rewrite Hname in E. simpl to_string in E. fold cat stored in E.
  rewrite join_plain2 in E;
    [| apply UPLOAD_ROOT_normal | by apply category_plain
     | by apply final_name_plain ].
  rewrite manifestPath_plain in E by done.
  fold (tmp_file d (id +:+ ".json")) in E.
  rewrite tmp_unlink in E by done. fold M in E. rewrite HmL in E.
  injection E as <- <- <-. cbn [dest]. fold F.
  split; [done|]. split; [done|].
  set (st1 := remove st M).
  assert (layout_ok d st1 = true) as Hlay1 by (by rewrite (layout_ok_dirs d st)).
  assert (forall i : Z,
            F <> (TMP_DIR d ++ [id +:+ ".part" +:+ pretty i])%list) as HF
    by (intros i; by apply category_file_not_tmp).
  assert (F <> M) as HFM by (by apply category_file_not_tmp).
  unfold run_task, open_truncate, writeFileSync. cbn [dest chunks].
  destruct (layout_ok_cat d st1 cat Hlay1 Hcat) as [Hcd Hcf].
  assert (check_target st1 (Path.mk F false) = Ok tt) as ->.
  { unfold F.
    replace (UPLOAD_ROOT d ++ [cat; stored])%list
      with ((UPLOAD_ROOT d ++ [cat]) ++ [stored])%list
      by (by rewrite <- app_assoc).
    by apply check_target_child. }
  cbn [bind Path.segs].
  destruct (pipe_chunks_frame d id Hid F HF (seqZ 1 n) (put st1 F (Raw [])) [])
    as (st3 & content & Hrun & Hdirs & HFin & Hgone & Hframe).
  { by rewrite (layout_ok_dirs d st1). }
  { unfold put. cbn [files]. by rewrite lookup_insert_eq. }
  { apply NoDup_seqZ. }
  { intros i Hi. unfold put, st1, remove. cbn [files].
    rewrite lookup_insert_ne by apply HF.
    rewrite lookup_delete_ne by (apply snoc_ne, json_not_part).
    eapply find_none in Hfind; [|exact Hi].
    apply negb_false_iff in Hfind.
    rewrite chunkPath_plain in Hfind by done.
    fold (tmp_file d (id +:+ ".part" +:+ pretty i)) in Hfind.
    rewrite tmp_exists in Hfind by done. by apply bool_decide_eq_true in Hfind. }
  exists st3, content. split; [done|]. split; [done|]. split; [done|].
  split; [|split].
  - rewrite Hframe; [|by apply not_eq_sym|].
    + unfold put, st1, remove. cbn [files].
      rewrite lookup_insert_ne by done. by rewrite lookup_delete_eq.
    + intros i _. apply snoc_ne, json_not_part.
  - intros i Hi. apply Hgone. apply list_elem_of_In, elem_of_seqZ. lia.
  - intros k HkF HkM HkC. rewrite Hframe; [|done|by intros i _].
    unfold put, st1, remove. cbn [files].
    rewrite lookup_insert_ne by (by apply not_eq_sym).
    by rewrite lookup_delete_ne by (by apply not_eq_sym).
Qed.

(** X6.  When /upload/complete accepts a session (file name and
    identifier without path separator, the name under which the file
    is stored and the identifier storable) and its assembly has run,
    the session is used up: the assembly ends normally, every chunk
    file and the manifest are gone, the status is 404, a second
    completion is answered "Invalid uploadId or manifest missing", and
    no file other than the stored file, the manifest and the chunks
    has changed. *)
Theorem completion_consumes_session d now st id m name st1 file job :
  layout_ok d st = true ->
  no_sep id = true -> id <> "" ->
  storable_id id = true ->
  readJSON st (manifestPath d (JStr id)) = Ok (Some m) ->
  fileName m = JStr name -> no_sep name = true ->
  storable (pretty now +:+ "-" +:+ name) = true ->
  upload_complete d now st (JStr id) = (st1, RComplete file, Some job) ->
  exists st3,
    run_task st1 job = Done st3
    /\ is_Some (files st3 !! Path.segs (dest job))
    /\ upload_status d st3 (JStr id) = RError 404 "Upload not found"
    /\ (forall i, 1 <= i <= Z.of_nat (length (uploadedChunks m)) ->
          existsSync st3 (chunkPath d (JStr id) (JNum i)) = false)
    /\ (forall later,
          upload_complete d later st3 (JStr id)
          = (st3, RError 400 "Invalid uploadId or manifest missing", None))
    /\ (forall k,
          k <> Path.segs (dest job) ->
          k <> Path.segs (manifestPath d (JStr id)) ->
          (forall i : Z, k <> Path.segs (chunkPath d (JStr id) (JNum i))) ->
          files st3 !! k = files st !! k).
Proof.
  intros Hlay Hid Hne _ Hm Hname Hsep _ E.
  destruct (completion_run d now st id m name st1 file job)
    as (Hdest & _ & st3 & content & Hrun & Hdirs & HFin & HM3 & Hgone & Hframe);
    [done..|].
  assert (layout_ok d st3 = true) as Hlay3 by (by rewrite (layout_ok_dirs d st)).
  assert (readJSON st3 (manifestPath d (JStr id)) = Ok None) as Hr3.
  { rewrite manifestPath_plain by done. fold (tmp_file d (id +:+ ".json")).
    rewrite tmp_readJSON by done. by rewrite HM3. }
  exists st3. rewrite Hdest. cbn [Path.segs].
  split; [done|]. split; [by rewrite HFin|]. split; [|split; [|split]].
  - unfold upload_status. rewrite truthy_str by done. simpl negb. cbv iota.
    by rewrite Hr3.
  - intros i Hi. rewrite chunkPath_plain by done.
    fold (tmp_file d (id +:+ ".part" +:+ pretty i)).
    rewrite tmp_exists by done. rewrite Hgone by done.
    by apply bool_decide_eq_false; intros [].
  - intros later. unfold upload_complete. rewrite truthy_str by done.
    simpl negb. cbv iota. by rewrite Hr3.
  - intros k HkF HkM HkC. rewrite manifestPath_plain in HkM by done.
    cbn [Path.segs] in HkM. apply Hframe; [done..|].
    intros i. specialize (HkC i). by rewrite chunkPath_plain in HkC.
Qed.

Lemma completion_consumes_session_witness :
  exists st1 job st3,
    upload_complete example_dirname 1800 two_chunk_session (JStr "1700-42")
    = (st1, RComplete "/uploads/docs/1800-report.pdf", Some job)
    /\ run_task st1 job = Done st3
    /\ upload_status example_dirname st3 (JStr "1700-42")
       = RError 404 "Upload not found".
Proof.
  set (st1 := remove two_chunk_session
                (Path.segs (manifestPath example_dirname (JStr "1700-42")))).
  set (job := Task (Path.mk ["srv"; "file-share"; "uploads"; "docs";
                             "1800-report.pdf"] false)
                   [chunkPath example_dirname (JStr "1700-42") (JNum 1);
                    chunkPath example_dirname (JStr "1700-42") (JNum 2)]).
  assert (upload_complete example_dirname 1800 two_chunk_session (JStr "1700-42")
          = (st1, RComplete "/uploads/docs/1800-report.pdf", Some job)) as E
    by (vm_compute; reflexivity).
  destruct (completion_consumes_session example_dirname 1800 two_chunk_session
              "1700-42" (Manifest (JStr "report.pdf") (Some 2) [Some 1; Some 2])
              "report.pdf" st1 "/uploads/docs/1800-report.pdf" job)
    as (st3 & Hrun & _ & Hstat & _);
    [vm_compute; reflexivity | reflexivity | discriminate | reflexivity
    | vm_compute; reflexivity | reflexivity | reflexivity | reflexivity
    | exact E |].
  exists st1, job, st3. split; [exact E|]. split; [exact Hrun|exact Hstat].
Defined.

(** * Start-up *)

Lemma normalize_segs_snoc l x :
  normal_seg x = true ->
  Path.normalize_segs (l ++ [x]) = (Path.normalize_segs l ++ [x])%list.
Proof.
  intros Hx. unfold Path.normalize_segs. rewrite fold_left_app. simpl.
  by rewrite push_seg_normal.
Qed.

Lemma UPLOAD_ROOT_eq d : UPLOAD_ROOT d = (Path.normalize_segs d ++ ["uploads"])%list.
Proof.
  unfold UPLOAD_ROOT, Path.join.
  change (List.filter Path.nonempty ["uploads"]) with ["uploads"].
  cbn [map concat Path.segs]. change (Path.split "uploads") with ["uploads"].
  rewrite app_nil_r. by apply normalize_segs_snoc.
Qed.

Lemma join_uploads d : Path.join d ["uploads"] = Path.mk (UPLOAD_ROOT d) false.
Proof.
  unfold UPLOAD_ROOT. destruct (Path.join d ["uploads"]) as [sg tr] eqn:E.
  cbn [Path.segs]. f_equal.
  unfold Path.join in E. injection E as _ <-.
  change (List.filter Path.nonempty ["uploads"]) with ["uploads"].
  cbn [last]. by destruct (Path.normalize_segs _).
Qed.

Lemma join_tmp d : Path.join (UPLOAD_ROOT d) ["tmp"] = Path.mk (TMP_DIR d) false.
Proof.
  rewrite TMP_DIR_eq. by apply join_plain1; [apply UPLOAD_ROOT_normal|].
Qed.

Lemma join_category d c :
  In c CATEGORIES ->
  Path.join (UPLOAD_ROOT d) [c] = Path.mk (UPLOAD_ROOT d ++ [c]) false.
Proof.
  intros Hc. apply join_plain1; [apply UPLOAD_ROOT_normal|].
  by apply category_plain.
Qed.

Lemma flat_dir_iff st dd :
  flat_dir st dd = true <-> forall name, (dd ++ [name])%list ∉ dirs st.
Proof.
  split.
  - intros H name Hin. apply (flat_dir_child st dd name) in H.
    unfold is_dir in H. by apply bool_decide_eq_false in H.
  - intros H. unfold flat_dir. apply forallb_forall. intros p Hp.
    apply negb_true_iff, bool_decide_eq_false. intros [Hne Hpar].
    apply list_elem_of_In, elem_of_elements in Hp.
    apply (H (List.last p "")). rewrite <- Hpar. unfold parent.
    by rewrite <- app_removelast_last.
Qed.

Lemma ensure_dir_new st p :
  is_dir st p = false -> files st !! p = None ->
  is_dir st (parent p) = true ->
  ensure_dir st (Path.mk p false)
  = Ok {| dirs := {[ p ]} ∪ dirs st; files := files st |}.
Proof.
  intros Hd Hf Hp. unfold ensure_dir, existsSync. cbn [Path.trailing Path.segs].
  rewrite Hd, Hf, Hp. by rewrite bool_decide_eq_false_2 by (by intros []).
Qed.

Lemma ensure_dir_old st p :
  is_dir st p = true -> ensure_dir st (Path.mk p false) = Ok st.
Proof.
  intros Hd. unfold ensure_dir, existsSync. cbn [Path.trailing Path.segs].
  by rewrite Hd.
Qed.

Lemma is_dir_add st p q :
  is_dir {| dirs := {[ p ]} ∪ dirs st; files := files st |} q
  = (bool_decide (p = q) || is_dir st q)%bool.
Proof.
  unfold is_dir. cbn [dirs].
  destruct (decide (p = q)) as [->|Hne].
  - rewrite (bool_decide_eq_true_2 (q ∈ _)) by set_solver.
    by rewrite bool_decide_eq_true_2.
  - rewrite (bool_decide_eq_false_2 (p = q)) by done. simpl.
    apply bool_decide_ext. rewrite elem_of_union, elem_of_singleton.
    intuition congruence.
Qed.
Lemma layout_dirs_length d p :
  p ∈ layout_dirs d -> (length p <= S (length (UPLOAD_ROOT d)))%nat.
Proof.
  unfold layout_dirs, CATEGORIES. rewrite TMP_DIR_eq. simpl.
  rewrite !elem_of_cons, elem_of_nil.
  intros [->|[->|[->|[->|[->|[->|[]]]]]]]; rewrite ?length_app; simpl; lia.
Qed.

Lemma layout_dirs_prefix d p : p ∈ layout_dirs d -> UPLOAD_ROOT d `prefix_of` p.
Proof.
  unfold layout_dirs, CATEGORIES. rewrite TMP_DIR_eq. simpl.
  rewrite !elem_of_cons, elem_of_nil.
  intros [->|[->|[->|[->|[->|[->|[]]]]]]];
    try apply prefix_app_r; done.
Qed.

Lemma snoc_ne_self {A} (l : list A) x : l <> (l ++ [x])%list.
Proof. intros E. apply (f_equal length) in E. rewrite length_app in E. simpl in E. lia. Qed.

(** One category directory of the start-up loop: created when the
    directory is new, kept when it exists. *)
Ltac make_category Hjc UR Hnd Hnf Hpar Hne1 Hne2 c :=
  rewrite (Hjc c) by (unfold CATEGORIES; simpl; tauto);
  rewrite ensure_dir_new;
  [| rewrite !is_dir_add, ?Hne1, ?Hne2 by done; by apply Hnd, prefix_app_r
   | by apply Hnf, prefix_app_r
   | rewrite Hpar, !is_dir_add;
     rewrite (bool_decide_eq_true_2 (UR = UR)) by done;
     by rewrite ?orb_true_r ];
  cbn [bind].

Ltac keep_category d st Hlay c :=
  rewrite (join_category d c) by (unfold CATEGORIES; simpl; tauto);
  rewrite ensure_dir_old
    by (apply (layout_ok_cat d st); [exact Hlay|unfold CATEGORIES; simpl; tauto]);
  cbn [bind].

(** X7.  On a server directory that holds nothing named [uploads], the
    start-up code creates the upload root, the temporary directory and
    the four category directories, touches no file, and leaves the
    layout every handler relies on.  Started again on that layout, it
    changes nothing. *)
Theorem startup_creates_layout d st :
  (is_dir st (Path.normalize_segs d) = true ->
   (forall p, UPLOAD_ROOT d `prefix_of` p -> (p ∉ dirs st) /\ files st !! p = None) ->
   exists st',
     startup d st = Ok st'
     /\ files st' = files st
     /\ dirs st' = list_to_set (layout_dirs d) ∪ dirs st
     /\ layout_ok d st' = true)
  /\ (is_dir st (UPLOAD_ROOT d) = true -> layout_ok d st = true ->
      startup d st = Ok st).
Proof.
  split.
  - intros Happ Hfree.
    assert (forall p, UPLOAD_ROOT d `prefix_of` p -> is_dir st p = false) as Hnd.
    { intros p Hp. apply bool_decide_eq_false. by apply Hfree. }
    assert (forall p, UPLOAD_ROOT d `prefix_of` p -> files st !! p = None) as Hnf
      by (intros p Hp; by apply Hfree).
    set (UR := UPLOAD_ROOT d) in *.
    assert (parent UR = Path.normalize_segs d) as HparUR.
    { unfold UR. rewrite UPLOAD_ROOT_eq. apply removelast_last. }
    assert (forall x, parent (UR ++ [x]) = UR) as Hpar
      by (intros x; apply removelast_last).
    assert (forall x y, x <> y -> bool_decide ((UR ++ [x])%list = (UR ++ [y])%list)
                                  = false) as Hne2.
    { intros x y Hxy. apply bool_decide_eq_false. by apply snoc_ne. }
    assert (forall x, bool_decide (UR = (UR ++ [x])%list) = false) as Hne1.
    { intros x. apply bool_decide_eq_false, snoc_ne_self. }
    assert (forall c, In c CATEGORIES ->
              Path.join UR [c] = Path.mk (UR ++ [c]) false) as Hjc
      by apply join_category.
    unfold startup. rewrite join_uploads, join_tmp. fold UR.
    rewrite ensure_dir_new; [|by apply Hnd|by apply Hnf|by rewrite HparUR].
    cbn [bind]. rewrite TMP_DIR_eq. fold UR.
    rewrite ensure_dir_new;
      [| rewrite is_dir_add, Hne1; by apply Hnd, prefix_app_r
       | by apply Hnf, prefix_app_r
       | rewrite Hpar, is_dir_add; by rewrite bool_decide_eq_true_2 ].
    cbn [bind]. unfold CATEGORIES. cbn [fold_left bind].
    make_category Hjc UR Hnd Hnf Hpar Hne1 Hne2 "images".
    make_category Hjc UR Hnd Hnf Hpar Hne1 Hne2 "videos".
    make_category Hjc UR Hnd Hnf Hpar Hne1 Hne2 "docs".
    make_category Hjc UR Hnd Hnf Hpar Hne1 Hne2 "others".
    eexists. split; [reflexivity|]. cbn [files dirs]. split; [done|].
    assert (({[(UR ++ ["others"])%list]} ∪ ({[(UR ++ ["docs"])%list]}
              ∪ ({[(UR ++ ["videos"])%list]} ∪ ({[(UR ++ ["images"])%list]}
              ∪ ({[(UR ++ ["tmp"])%list]} ∪ ({[UR]} ∪ dirs st))))) : gset _)
            = list_to_set (layout_dirs d) ∪ dirs st) as Hdirs.
    { unfold layout_dirs, CATEGORIES. rewrite TMP_DIR_eq. fold UR. simpl.
      apply set_eq. intros x.
      rewrite !elem_of_union, !elem_of_singleton, elem_of_empty. tauto. }
    split; [exact Hdirs|].
    assert (forall x name,
              ((UR ++ [x]) ++ [name])%list
              ∉ (list_to_set (layout_dirs d) ∪ dirs st : gset _)) as Hflat.
    { intros x name. rewrite elem_of_union, elem_of_list_to_set.
      intros [Hin|Hin].
      - apply layout_dirs_length in Hin. rewrite !length_app in Hin.
        simpl in Hin. fold UR in Hin. lia.
      - apply (Hfree ((UR ++ [x]) ++ [name])%list); [|done].
        rewrite <- app_assoc. by apply prefix_app_r. }
    assert (forall dd, dd ∈ layout_dirs d ->
              is_dir {| dirs := list_to_set (layout_dirs d) ∪ dirs st;
                        files := files st |} dd = true) as Hisd.
    { intros dd Hdd. apply bool_decide_eq_true. cbn [dirs].
      apply elem_of_union. left. by apply elem_of_list_to_set. }
    rewrite Hdirs. unfold layout_ok.
    rewrite Hisd by (unfold layout_dirs; rewrite !elem_of_cons; tauto).
    rewrite (proj2 (flat_dir_iff _ (TMP_DIR d)))
      by (intros name; rewrite TMP_DIR_eq; apply Hflat).
    cbn [andb]. apply forallb_forall. intros c Hc.
    assert ((UPLOAD_ROOT d ++ [c])%list ∈ layout_dirs d) as Hin.
    { unfold layout_dirs. rewrite !elem_of_cons. right. right.
      apply list_elem_of_fmap. exists c. split; [done|by apply list_elem_of_In]. }
    rewrite Hisd by done.
    by rewrite (proj2 (flat_dir_iff _ _)) by (intros name; apply Hflat).
  - intros HUR Hlay. unfold startup.
    rewrite join_uploads, join_tmp, ensure_dir_old by done. cbn [bind].
    rewrite ensure_dir_old by (by apply layout_ok_tmp). cbn [bind].
    unfold CATEGORIES. cbn [fold_left bind].
    keep_category d st Hlay "images". keep_category d st Hlay "videos".
    keep_category d st Hlay "docs". keep_category d st Hlay "others".
    done.
Qed.

Lemma startup_creates_layout_witness :
  exists st',
    startup example_dirname bare_store = Ok st'
    /\ files st' = files bare_store
    /\ dirs st' = list_to_set (layout_dirs example_dirname) ∪ dirs bare_store
    /\ layout_ok example_dirname st' = true.
Proof.
  apply (proj1 (startup_creates_layout example_dirname bare_store)).
  - vm_compute. reflexivity.
  - intros p Hp. split; [|apply lookup_empty].
    apply prefix_length in Hp. change (3 <= length p)%nat in Hp.
    unfold bare_store. cbn [dirs].
    rewrite elem_of_list_to_set, !elem_of_cons, elem_of_nil.
    intros [->|[->|[->|[]]]]; simpl in Hp; lia.
Defined.

Lemma elem_of_children st d name :
  name ∈ children st d <->
  (is_Some (files st !! (d ++ [name])%list) \/ (d ++ [name])%list ∈ dirs st).
Proof.
  unfold children. rewrite list_elem_of_omap. split.
  - intros (p & Hin & Hp). case_bool_decide as Hc; [|done].
    destruct Hc as [_ <-]. apply last_Some in Hp as [l' ->].
    unfold parent. rewrite removelast_last.
    apply elem_of_app in Hin as [Hin|Hin].
    + left. apply list_elem_of_In, in_map_iff in Hin as ([k v] & <- & Hin).
      apply list_elem_of_In, elem_of_map_to_list in Hin. simpl. eauto.
    + right. by apply elem_of_elements in Hin.
  - intros H. exists (d ++ [name])%list. split.
    + apply elem_of_app. destruct H as [[b Hb]|H].
      * left. apply list_elem_of_In, in_map_iff. exists (d ++ [name], b)%list.
        split; [done|]. by apply list_elem_of_In, elem_of_map_to_list.
      * right. by apply elem_of_elements.
    + rewrite bool_decide_eq_true_2.
      * by rewrite last_snoc.
      * split; [by destruct d|]. apply removelast_last.
Qed.

Lemma children_flat st d name :
  flat_dir st d = true ->
  name ∈ children st d <-> is_Some (files st !! (d ++ [name])%list).
Proof.
  intros Hflat. rewrite elem_of_children.
  pose proof (flat_dir_child st d name Hflat) as Hn.
  apply bool_decide_eq_false in Hn. tauto.
Qed.

Lemma list_category_ok d st c :
  layout_ok d st = true -> In c CATEGORIES ->
  list_category d st c = Ok (map (entry_of c) (children st (UPLOAD_ROOT d ++ [c]))).
Proof.
  intros Hlay Hc. destruct (layout_ok_cat d st c Hlay Hc) as [Hd _].
  unfold list_category, readdirSync. rewrite join_category by done.
  simpl. by rewrite Hd.
Qed.

Lemma list_files_spec d st :
  layout_ok d st = true ->
  exists l, list_files d st = Ok l /\
    forall e, e ∈ l <->
      exists c name, In c CATEGORIES
        /\ is_Some (files st !! (UPLOAD_ROOT d ++ [c; name])%list)
        /\ e = entry_of c name.
Proof.
  intros Hlay. unfold list_files.
  assert (forall c, In c CATEGORIES ->
            forall e, e ∈ map (entry_of c) (children st (UPLOAD_ROOT d ++ [c]))
                      <-> exists name,
                            is_Some (files st !! (UPLOAD_ROOT d ++ [c; name])%list)
                            /\ e = entry_of c name) as Hone.
  { intros c Hc e. destruct (layout_ok_cat d st c Hlay Hc) as [_ Hflat].
    rewrite list_elem_of_In, in_map_iff. split.
    - intros (name & <- & Hin). exists name. split; [|done].
      apply list_elem_of_In, (children_flat _ _ _ Hflat) in Hin.
      by rewrite <- app_assoc in Hin.
    - intros (name & Hf & ->). exists name. split; [done|].
      apply list_elem_of_In, (children_flat _ _ _ Hflat).
      by rewrite <- app_assoc. }
  unfold CATEGORIES in *. cbn [fold_left bind].
  rewrite !list_category_ok by (done || unfold CATEGORIES; simpl; tauto).
  cbn [bind]. eexists. split; [done|].
  intros e. rewrite !elem_of_app, elem_of_nil.
  rewrite !Hone by (simpl; tauto). split.
  - intros [[[[[]|(n & ? & ?)]|(n & ? & ?)]|(n & ? & ?)]|(n & ? & ?)];
      eexists _, n; (split; [|done]); simpl; tauto.
  - intros (c & n & Hc & Hf & ->). simpl in Hc.
    destruct Hc as [<-|[<-|[<-|[<-|[]]]]]; eauto 10.
Qed.

(** X8.  On the layout of the start-up code GET /files answers, and its
    answer holds exactly the files that lie directly in one of the four
    category directories, each with its name, its category and the URL
    [/uploads/<category>/<name>]; what lies in the temporary directory
    is never listed. *)
Theorem listing_is_category_files d st :
  layout_ok d st = true ->
  exists l, list_files d st = Ok l /\
    forall e, e ∈ l <->
      exists c name, In c CATEGORIES
        /\ is_Some (files st !! (UPLOAD_ROOT d ++ [c; name])%list)
        /\ e = entry_of c name.
Proof. apply list_files_spec. Qed.

Lemma listing_is_category_files_witness :
  layout_ok example_dirname example_store = true /\
  exists l, list_files example_dirname example_store = Ok l /\
    forall e, e ∈ l <->
      exists c name, In c CATEGORIES
        /\ is_Some (files example_store
                      !! (UPLOAD_ROOT example_dirname ++ [c; name])%list)
        /\ e = entry_of c name.
Proof.
  split; [by vm_compute|].
  apply (listing_is_category_files example_dirname example_store). by vm_compute.
Defined.

(** X9.  GET /files reads the four category directories without a
    [try]: when one of them is not a directory the whole listing fails
    with the exception of [readdirSync], whatever the other directories
    hold. *)
Theorem listing_needs_every_directory d st c :
  In c CATEGORIES -> is_dir st (UPLOAD_ROOT d ++ [c]) = false ->
  exists e, list_files d st = Throw e.
Proof.
  intros Hc Hd.
  assert (exists e, list_category d st c = Throw e) as [e He].
  { unfold list_category, readdirSync. rewrite join_category by done.
    cbn [Path.segs]. rewrite Hd. case_bool_decide; simpl; eauto. }
  unfold list_files, CATEGORIES in *. cbn [fold_left bind].
  simpl in Hc. destruct Hc as [<-|[<-|[<-|[<-|[]]]]];
    repeat (rewrite ?He; cbn [bind];
            try match goal with
                | |- context [list_category d st ?x] =>
                    destruct (list_category d st x); cbn [bind]
                end); eauto.
Qed.

Lemma listing_needs_every_directory_witness :
  In "docs" CATEGORIES
  /\ is_dir bare_store (UPLOAD_ROOT example_dirname ++ ["docs"]) = false
  /\ exists e, list_files example_dirname bare_store = Throw e.
Proof.
  split; [simpl; tauto|]. split; [by vm_compute|].
  apply (listing_needs_every_directory example_dirname bare_store "docs");
    [simpl; tauto|by vm_compute].
Defined.

Lemma multer_single_ok d mnow suffix st b :
  layout_ok d st = true -> base36 suffix = true ->
  multer_single d mnow suffix st (Some b)
  = Ok (put st (TMP_DIR d ++ [pretty mnow +:+ "-" +:+ suffix]) (Raw b),
        Some (tmp_file d (pretty mnow +:+ "-" +:+ suffix))).
Proof.
  intros Hlay Hs. unfold multer_single.
  rewrite join_plain1 by (apply TMP_DIR_normal || by apply tmp_name_plain).
  fold (tmp_file d (pretty mnow +:+ "-" +:+ suffix)).
  by rewrite tmp_write.
Qed.

(** Moving a file of the temporary directory to a free or occupied
    place directly inside a category directory. *)
Lemma rename_into_category d st t c name b :
  layout_ok d st = true -> In c CATEGORIES -> plain name = true ->
  files st !! (TMP_DIR d ++ [t])%list = Some b ->
  renameSync st (tmp_file d t) (Path.join (UPLOAD_ROOT d) [c; name])
  = Ok (put (remove st (TMP_DIR d ++ [t])) (UPLOAD_ROOT d ++ [c; name]) b).
Proof.
  intros Hlay Hc Hn Hb.
  destruct (layout_ok_cat d st c Hlay Hc) as [Hd Hflat].
  rewrite join_plain2
    by (apply UPLOAD_ROOT_normal || (by apply category_plain) || done).
  unfold renameSync. rewrite tmp_read, Hb by done. cbn [bind].
  replace (UPLOAD_ROOT d ++ [c; name])%list
    with ((UPLOAD_ROOT d ++ [c]) ++ [name])%list by by rewrite <- app_assoc.
  by rewrite check_target_child.
Qed.

Lemma post_upload_spec d mnow suffix now st b name :
  layout_ok d st = true -> base36 suffix = true -> no_sep name = true ->
  name <> "" ->
  let cat := categoryForExt (Path.extname name) in
  let final := pretty now +:+ "-" +:+ name in
  let tmp := (TMP_DIR d ++ [pretty mnow +:+ "-" +:+ suffix])%list in
  post_upload d mnow suffix now st (Some (b, name))
  = ({| dirs := dirs st;
        files := <[(UPLOAD_ROOT d ++ [cat; final])%list := Raw b]>
                   (delete tmp (files st)) |},
     RComplete ("/uploads/" +:+ cat +:+ "/" +:+ final)).
Proof.
  intros Hlay Hs Hn Hne cat final tmp. unfold post_upload.
  apply String.eqb_neq in Hne. rewrite Hne.
  rewrite multer_single_ok by done. unfold upload_single.
  cbn [f_originalname f_path]. fold cat. fold final.
  rewrite (rename_into_category d _ _ cat final (Raw b)).
  - unfold put, remove. cbn [dirs files]. fold tmp.
    by rewrite delete_insert_eq.
  - by rewrite (layout_ok_dirs d st).
  - apply categoryForExt_in.
  - by apply final_name_plain.
  - cbn [put files]. by rewrite lookup_insert_eq.
Qed.

(** X10.  POST /upload of the session server with a file part whose
    name is not empty and holds no separator, the name under which the
    file is stored and multer's temporary name being storable: the
    bytes end up in the category of the extension under
    [<Date.now()>-<name>], replacing what was stored under that name;
    multer's temporary file is gone, no other file and no directory
    changes; the answer carries the URL under which GET /files then
    lists the file. *)
Theorem single_upload_stores_and_lists d mnow suffix now st b name :
  layout_ok d st = true -> base36 suffix = true -> no_sep name = true ->
  name <> "" ->
  storable (pretty mnow +:+ "-" +:+ suffix) = true ->
  storable (pretty now +:+ "-" +:+ name) = true ->
  let cat := categoryForExt (Path.extname name) in
  let final := pretty now +:+ "-" +:+ name in
  let tmp := (TMP_DIR d ++ [pretty mnow +:+ "-" +:+ suffix])%list in
  exists st',
    post_upload d mnow suffix now st (Some (b, name))
    = (st', RComplete ("/uploads/" +:+ cat +:+ "/" +:+ final))
    /\ files st' = <[(UPLOAD_ROOT d ++ [cat; final])%list := Raw b]>
                     (delete tmp (files st))
    /\ dirs st' = dirs st
    /\ exists l, list_files d st' = Ok l /\ entry_of cat final ∈ l.
Proof.
  intros Hlay Hs Hn Hne _ _ cat final tmp.
  rewrite post_upload_spec by done. fold cat final tmp.
  eexists. split; [done|]. split; [done|]. split; [done|].
  match goal with |- context [list_files d ?s] => set (st' := s) end.
  assert (layout_ok d st' = true) as Hlay' by by rewrite (layout_ok_dirs d st).
  destruct (list_files_spec d st' Hlay') as (l & Hl & Hin).
  exists l. split; [done|]. apply Hin. exists cat, final.
  split; [apply categoryForExt_in|]. split; [|done].
  unfold st'. cbn [files]. by rewrite lookup_insert_eq.
Qed.

Lemma single_upload_stores_and_lists_witness :
  layout_ok example_dirname example_store = true
  /\ base36 "k3x9qa" = true /\ no_sep "notes.PDF" = true
  /\ "notes.PDF" <> ""
  /\ storable "1700000000000-k3x9qa" = true
  /\ storable "1700000000007-notes.PDF" = true
  /\ exists st',
      post_upload example_dirname 1700000000000 "k3x9qa" 1700000000007
                  example_store (Some ([x61; x62]%byte, "notes.PDF"))
      = (st', RComplete "/uploads/docs/1700000000007-notes.PDF")
      /\ files st'
         = <[(UPLOAD_ROOT example_dirname
                ++ ["docs"; "1700000000007-notes.PDF"])%list := Raw [x61; x62]%byte]>
             (delete (TMP_DIR example_dirname ++ ["1700000000000-k3x9qa"])%list
                     (files example_store))
      /\ dirs st' = dirs example_store
      /\ exists l, list_files example_dirname st' = Ok l
                   /\ entry_of "docs" "1700000000007-notes.PDF" ∈ l.
Proof.
  split; [by vm_compute|]. split; [by vm_compute|]. split; [by vm_compute|].
  split; [done|]. split; [by vm_compute|]. split; [by vm_compute|].
  apply (single_upload_stores_and_lists example_dirname 1700000000000 "k3x9qa"
           1700000000007 example_store [x61; x62]%byte "notes.PDF");
    by vm_compute.
Defined.

(** * The older server: a free name for every single-shot upload *)

Lemma digits_dash_split a b x y :
  all_chars is_digit a = true -> all_chars is_digit b = true ->
  a +:+ "-" +:+ x = b +:+ "-" +:+ y -> a = b /\ x = y.
Proof.
  revert b. induction a as [|c a IH]; intros [|c' b] Ha Hb E; simpl in *.
  - by injection E.
  - injection E as <- _. by apply andb_true_iff in Hb as [? _].
  - injection E as -> _. by apply andb_true_iff in Ha as [? _].
  - injection E as -> E.
    apply andb_true_iff in Ha as [_ Ha]. apply andb_true_iff in Hb as [_ Hb].
    destruct (IH b Ha Hb E) as [-> ->]. done.
Qed.

Lemma candidate_inj clock name j k :
  candidate clock name j = candidate clock name k -> j = k.
Proof.
  assert (forall c (i : nat),
            pretty (c : N) +:+ "-" +:+ name
            <> pretty (clock (S i)) +:+ "-" +:+ pretty (N.of_nat (S i))
               +:+ "-" +:+ name) as Hne.
  { intros c i E.
    apply digits_dash_split in E as [_ E]; [|apply pretty_N_digits..].
    apply (f_equal String.length) in E.
    rewrite !string_length_app in E. simpl in E. lia. }
  destruct j as [|j], k as [|k]; unfold candidate; intros E.
  - done.
  - by apply Hne in E.
  - symmetry in E. by apply Hne in E.
  - apply digits_dash_split in E as [_ E]; [|apply pretty_N_digits..].
    apply digits_dash_split in E as [E _]; [|apply pretty_N_digits..].
    apply (inj pretty) in E. lia.
Qed.

Lemma candidate_plain clock name k :
  no_sep name = true -> plain (candidate clock name k) = true.
Proof.
  intros Hn. destruct k as [|k]; unfold candidate.
  - by apply final_name_plain.
  - apply final_name_plain.
    pose proof (pretty_N_no_sep (N.of_nat (S k))) as Hk. unfold no_sep in *.
    rewrite !all_chars_app, Hk. simpl. done.
Qed.

Section FreeName.
Variable clock : nat -> N.
Variable st : store.
Variable catDir : list string.
Variable name : string.

Lemma free_name_Some fuel : forall k fn fd,
  free_name fuel clock st catDir name k = Some (fn, fd) ->
  exists j, (k <= j)%nat /\ fn = candidate clock name j /\ fd = Path.join catDir [candidate clock name j]
            /\ existsSync st (Path.join catDir [candidate clock name j]) = false
            /\ forall i, (k <= i < j)%nat -> existsSync st (Path.join catDir [candidate clock name i]) = true.
Proof.
  induction fuel as [|fuel IH]; intros k fn fd; simpl;
    destruct (existsSync st (Path.join catDir [candidate clock name k])) eqn:Hk; try done.
  - intros [= <- <-]. exists k. repeat split; try done. lia.
  - intros H. apply IH in H as (j & Hj & -> & -> & Hfree & Hbusy).
    exists j. repeat split; try done; [lia|].
    intros i Hi. destruct (decide (i = k)) as [->|]; [done|]. apply Hbusy. lia.
  - intros [= <- <-]. exists k. repeat split; try done. lia.
Qed.

Lemma free_name_None fuel : forall k,
  free_name fuel clock st catDir name k = None ->
  forall i, (k <= i <= k + fuel)%nat -> existsSync st (Path.join catDir [candidate clock name i]) = true.
Proof.
  induction fuel as [|fuel IH]; intros k; simpl;
    destruct (existsSync st (Path.join catDir [candidate clock name k])) eqn:Hk; try done.
  - intros _ i Hi. by replace i with k by lia.
  - intros H i Hi. destruct (decide (i = k)) as [->|]; [done|].
    apply (IH (S k)); [done|lia].
Qed.

End FreeName.

(** More keys than a map holds cannot all be bound. *)
Lemma bound_keys_length (m : gmap (list string) blob) (l : list (list string)) :
  NoDup l -> (forall p, p ∈ l -> is_Some (m !! p)) -> (length l <= size m)%nat.
Proof.
  intros Hnd Hin. rewrite <- length_map_to_list.
  rewrite <- (length_fmap fst (map_to_list m)).
  apply submseteq_length, NoDup_submseteq; [done|].
  intros p Hp. destruct (Hin p Hp) as [b Hb].
  apply list_elem_of_fmap. exists (p, b). split; [done|].
  by apply elem_of_map_to_list.
Qed.

Lemma free_name_enough_fuel d clock st c name fuel :
  layout_ok d st = true -> In c CATEGORIES -> no_sep name = true ->
  (size (files st) <= fuel)%nat ->
  exists k,
    free_name fuel clock st (UPLOAD_ROOT d ++ [c]) name 0
    = Some (candidate clock name k,
            Path.mk (UPLOAD_ROOT d ++ [c; candidate clock name k]) false)
    /\ files st !! (UPLOAD_ROOT d ++ [c; candidate clock name k])%list = None
    /\ forall i, (i < k)%nat ->
         is_Some (files st !! (UPLOAD_ROOT d ++ [c; candidate clock name i])%list).
Proof.
  intros Hlay Hc Hn Hfuel.
  destruct (layout_ok_cat d st c Hlay Hc) as [Hd Hflat].
  assert (forall k, Path.join (UPLOAD_ROOT d ++ [c]) [candidate clock name k]
                    = Path.mk (UPLOAD_ROOT d ++ [c; candidate clock name k]) false)
    as Hjoin.
  { intros k. rewrite join_plain1.
    - by rewrite <- app_assoc.
    - apply forallb_normal_app; [apply UPLOAD_ROOT_normal|].
      simpl. apply category_plain in Hc as [Hc _].
      apply andb_true_iff in Hc as [_ ->]. done.
    - by apply candidate_plain. }
  assert (forall k, existsSync st (Path.mk (UPLOAD_ROOT d ++ [c; candidate clock name k]) false)
                    = bool_decide (is_Some (files st !! (UPLOAD_ROOT d ++ [c; candidate clock name k])%list)))
    as Hex.
  { intros k. unfold existsSync. cbn [Path.trailing Path.segs].
    replace (UPLOAD_ROOT d ++ [c; candidate clock name k])%list
      with ((UPLOAD_ROOT d ++ [c]) ++ [candidate clock name k])%list
      by by rewrite <- app_assoc.
    by rewrite flat_dir_child. }
  destruct (free_name fuel clock st (UPLOAD_ROOT d ++ [c]) name 0)
    as [[fn fd]|] eqn:E.
  - apply free_name_Some in E as (j & _ & -> & -> & Hfree & Hbusy).
    exists j. rewrite Hjoin in *. split; [done|]. split.
    + rewrite Hex in Hfree. apply bool_decide_eq_false in Hfree.
      by apply eq_None_not_Some.
    + intros i Hi. specialize (Hbusy i). rewrite Hjoin, Hex in Hbusy.
      eapply bool_decide_eq_true_1, Hbusy. lia.
  - exfalso.
    pose proof (free_name_None _ _ _ _ _ _ E) as Hall.
    set (l := (fun k => (UPLOAD_ROOT d ++ [c; candidate clock name k])%list)
                <$> seq 0 (S fuel)).
    assert (length l <= size (files st))%nat as Hlen.
    { apply bound_keys_length.
      - apply NoDup_fmap_2_strong; [|apply NoDup_seq].
        intros x y _ _ Hxy. apply app_inv_head in Hxy.
        injection Hxy as Hxy. by apply candidate_inj in Hxy.
      - intros p Hp. apply list_elem_of_fmap in Hp as (k & -> & Hk).
        apply elem_of_seq in Hk. specialize (Hall k).
        rewrite Hjoin, Hex in Hall. eapply bool_decide_eq_true_1, Hall. lia. }
    unfold l in Hlen. rewrite length_fmap, length_seq in Hlen. lia.
Qed.

Lemma legacy_upload_spec d fuel clock mnow st b name :
  layout_ok d st = true -> no_sep name = true -> name <> "" ->
  (size (files st) < fuel)%nat ->
  let cat := categoryForExt (Path.extname name) in
  let tmp := (TMP_DIR d ++ [pretty mnow +:+ "-" +:+ name])%list in
  exists k,
    let final := candidate clock name k in
    post_upload_legacy d fuel clock mnow st (Some (b, name))
    = Some ({| dirs := dirs st;
               files := <[(UPLOAD_ROOT d ++ [cat; final])%list := Raw b]>
                          (delete tmp (files st)) |},
            RComplete ("/uploads/" +:+ cat +:+ "/" +:+ final))
    /\ files st !! (UPLOAD_ROOT d ++ [cat; final])%list = None
    /\ forall i, (i < k)%nat ->
         is_Some (files st !! (UPLOAD_ROOT d ++ [cat; candidate clock name i])%list).
Proof.
  intros Hlay Hn Hne Hfuel cat tmp.
  pose proof (categoryForExt_in (Path.extname name)) as Hcat. fold cat in Hcat.
  unfold post_upload_legacy, multer_legacy.
  apply String.eqb_neq in Hne. rewrite Hne.
  rewrite join_plain1 by (apply TMP_DIR_normal || by apply final_name_plain).
  fold (tmp_file d (pretty mnow +:+ "-" +:+ name)).
  rewrite tmp_write by done. cbn [bind]. fold tmp.
  set (st1 := put st tmp (Raw b)).
  assert (layout_ok d st1 = true) as Hlay1 by by rewrite (layout_ok_dirs d st).
  assert (size (files st1) <= fuel)%nat as Hfuel1.
  { unfold st1. cbn [put files]. rewrite map_size_insert.
    destruct (files st !! tmp); simpl; lia. }
  destruct (free_name_enough_fuel d clock st1 cat name fuel Hlay1 Hcat Hn Hfuel1)
    as (k & Hfree & Hnone & Hbusy).
  assert (forall x, files st1 !! (UPLOAD_ROOT d ++ [cat; x])%list
                    = files st !! (UPLOAD_ROOT d ++ [cat; x])%list) as Hsame.
  { intros x. unfold st1. cbn [put files].
    apply lookup_insert_ne. apply not_eq_sym. by apply category_file_not_tmp. }
  exists k. split; [|split].
  - unfold upload_legacy. cbn [f_originalname f_path]. fold cat.
    rewrite join_category by done. cbn [Path.segs]. rewrite Hfree.
    rewrite <- (join_plain2 (UPLOAD_ROOT d) cat (candidate clock name k))
      by (apply UPLOAD_ROOT_normal || (by apply category_plain)
          || by apply candidate_plain).
    rewrite (rename_into_category d st1 _ cat _ (Raw b)).
    + unfold st1, put, remove. cbn [dirs files]. by rewrite delete_insert_eq.
    + done.
    + done.
    + by apply candidate_plain.
    + unfold st1. cbn [put files]. by rewrite lookup_insert_eq.
  - by rewrite <- Hsame.
  - intros i Hi. rewrite <- Hsame. by apply Hbusy.
Qed.

(** X11.  POST /upload of the older server (src/server.js) with a file
    part whose name is not empty and holds no separator, on a store
    with fewer files than
    the rounds allowed to the search, multer's temporary name and the
    candidate names of these rounds being storable: the handler
    answers; the name it stores the file under is the first candidate
    [<Date.now()>-<name>], [<Date.now()>-1-<name>], ... that is free,
    whatever the clock shows in each round, so no stored file is
    replaced; multer's temporary file is gone and nothing else
    changes. *)
Theorem legacy_upload_takes_first_free_name d fuel clock mnow st b name :
  layout_ok d st = true -> no_sep name = true -> name <> "" ->
  (size (files st) < fuel)%nat ->
  storable (pretty mnow +:+ "-" +:+ name) = true ->
  (forall k, (k <= fuel)%nat -> storable (candidate clock name k) = true) ->
  let cat := categoryForExt (Path.extname name) in
  let tmp := (TMP_DIR d ++ [pretty mnow +:+ "-" +:+ name])%list in
  exists k st',
    let final := candidate clock name k in
    post_upload_legacy d fuel clock mnow st (Some (b, name))
    = Some (st', RComplete ("/uploads/" +:+ cat +:+ "/" +:+ final))
    /\ files st !! (UPLOAD_ROOT d ++ [cat; final])%list = None
    /\ (forall i, (i < k)%nat ->
          is_Some (files st !! (UPLOAD_ROOT d ++ [cat; candidate clock name i])%list))
    /\ files st' = <[(UPLOAD_ROOT d ++ [cat; final])%list := Raw b]>
                     (delete tmp (files st))
    /\ dirs st' = dirs st.
Proof.
  intros Hlay Hn Hne Hfuel _ _ cat tmp.
  destruct (legacy_upload_spec d fuel clock mnow st b name Hlay Hn Hne Hfuel)
    as (k & Hrun & Hfree & Hbusy).
  exists k. eexists. split; [exact Hrun|]. repeat split; done.
Qed.

Lemma legacy_upload_takes_first_free_name_witness :
  layout_ok example_dirname busy_store = true /\ no_sep "a.pdf" = true
  /\ "a.pdf" <> ""
  /\ (size (files busy_store) < 10)%nat
  /\ storable "4-a.pdf" = true
  /\ (forall k, (k <= 10)%nat -> storable (candidate (fun _ => 5%N) "a.pdf" k) = true)
  /\ exists k st',
      post_upload_legacy example_dirname 10 (fun _ => 5%N) 4 busy_store
                         (Some ([x02]%byte, "a.pdf"))
      = Some (st', RComplete ("/uploads/" +:+ "docs" +:+ "/"
                              +:+ candidate (fun _ => 5%N) "a.pdf" k))
      /\ files busy_store
           !! (UPLOAD_ROOT example_dirname
                 ++ ["docs"; candidate (fun _ => 5%N) "a.pdf" k])%list = None
      /\ (forall i, (i < k)%nat ->
            is_Some (files busy_store
                       !! (UPLOAD_ROOT example_dirname
                             ++ ["docs"; candidate (fun _ => 5%N) "a.pdf" i])%list))
      /\ files st'
         = <[(UPLOAD_ROOT example_dirname
                ++ ["docs"; candidate (fun _ => 5%N) "a.pdf" k])%list := Raw [x02]%byte]>
             (delete (TMP_DIR example_dirname ++ ["4-a.pdf"])%list
                     (files busy_store))
      /\ dirs st' = dirs busy_store.
Proof.
  assert (forall k, (k <= 10)%nat
                    -> storable (candidate (fun _ => 5%N) "a.pdf" k) = true) as Hk.
  { intros k Hk. do 11 (destruct k as [|k]; [reflexivity|]). lia. }
  split; [by vm_compute|]. split; [by vm_compute|]. split; [done|].
  split; [vm_compute; lia|]. split; [reflexivity|]. split; [exact Hk|].
  apply (legacy_upload_takes_first_free_name example_dirname 10 (fun _ => 5%N) 4
           busy_store [x02]%byte "a.pdf");
    [by vm_compute|by vm_compute|done|vm_compute; lia|reflexivity|exact Hk].
Defined.

(** * The upload script *)

Lemma ceil_div_spec a b :
  0 <= a -> 0 < b ->
  0 <= ceil_div a b /\ a <= ceil_div a b * b /\ (ceil_div a b - 1) * b < a + Z.b2z (Z.eqb a 0).
Proof.
  intros Ha Hb. unfold ceil_div.
  pose proof (Z.div_mod a b ltac:(lia)) as Hdm.
  pose proof (Z.mod_pos_bound a b Hb) as Hm.
  pose proof (Z.div_pos a b Ha Hb) as Hd.
  destruct (Z.eqb_spec (a mod b) 0) as [E|E];
    destruct (Z.eqb_spec a 0) as [E0|E0]; simpl; nia.
Qed.

Section Chunks.
Variable cs : Z.
Hypothesis Hcs : 0 < cs.
Variable file : list byte.

Lemma chunk_of_take i :
  1 <= i ->
  chunk_of cs file i = take (Z.to_nat cs) (drop (Z.to_nat ((i - 1) * cs)) file).
Proof.
  intros Hi. unfold chunk_of, slice.
  set (n := Z.of_nat (length file)). set (s := (i - 1) * cs).
  assert (0 <= s) as Hs by (unfold s; nia).
  destruct (Z.min_spec (s + cs) n) as [[Hlt ->]|[Hge ->]].
  - f_equal. lia.
  - rewrite !take_ge; [done|rewrite length_drop; lia..].
Qed.

Lemma chunks_take (m : nat) :
  concat (map (chunk_of cs file) (seqZ 1 (Z.of_nat m)))
  = take (m * Z.to_nat cs) file.
Proof.
  induction m as [|m IH]; [done|].
  replace (Z.of_nat (S m)) with (Z.of_nat m + 1) by lia.
  rewrite seqZ_app by lia. rewrite map_app, concat_app, IH.
  change (seqZ (1 + Z.of_nat m) 1) with ([1 + Z.of_nat m]).
  simpl. rewrite app_nil_r, chunk_of_take by lia.
  replace (Z.to_nat ((1 + Z.of_nat m - 1) * cs)) with (m * Z.to_nat cs)%nat by nia.
  rewrite take_take_drop. f_equal. lia.
Qed.

Lemma chunks_partition :
  concat (map (chunk_of cs file) (seqZ 1 (total_chunks cs file))) = file.
Proof.
  unfold total_chunks.
  destruct (ceil_div_spec (Z.of_nat (length file)) cs) as (H0 & Hup & _);
    [lia|done|].
  rewrite <- (Z2Nat.id (ceil_div _ cs)) by done.
  rewrite chunks_take, take_ge; [done|]. nia.
Qed.

Lemma chunk_of_length i :
  1 <= i <= total_chunks cs file ->
  (0 < length (chunk_of cs file i))%nat /\ Z.of_nat (length (chunk_of cs file i)) <= cs.
Proof.
  intros Hi. rewrite chunk_of_take by lia.
  rewrite length_take, length_drop.
  unfold total_chunks in Hi.
  destruct (ceil_div_spec (Z.of_nat (length file)) cs) as (H0 & Hup & Hlow);
    [lia|done|].
  destruct (Z.eqb_spec (Z.of_nat (length file)) 0) as [E|E]; simpl in Hlow.
  - unfold ceil_div in Hi. rewrite E in Hi. rewrite Z.mod_0_l in Hi by lia.
    simpl in Hi. rewrite Z.div_0_l in Hi by lia. lia.
  - assert ((i - 1) * cs < Z.of_nat (length file)) by nia. split; nia.
Qed.

End Chunks.

(** X12.  The chunks the script cuts, taken in index order, are the
    file: nothing is lost, repeated or reordered; each of the
    [totalChunks] chunks is non-empty and at most one chunk size
    long. *)
Theorem script_chunks_partition_file cs file :
  0 < cs ->
  concat (map (chunk_of cs file) (seqZ 1 (total_chunks cs file))) = file
  /\ forall i, 1 <= i <= total_chunks cs file ->
       (0 < length (chunk_of cs file i))%nat
       /\ Z.of_nat (length (chunk_of cs file i)) <= cs.
Proof.
  intros Hcs. split; [by apply chunks_partition|].
  intros i Hi. by apply chunk_of_length.
Qed.

Lemma script_chunks_partition_file_witness :
  0 < 2
  /\ concat (map (chunk_of 2 [x61; x62; x63]%byte)
                 (seqZ 1 (total_chunks 2 [x61; x62; x63]%byte)))
     = [x61; x62; x63]%byte
  /\ forall i, 1 <= i <= total_chunks 2 [x61; x62; x63]%byte ->
       (0 < length (chunk_of 2 [x61; x62; x63]%byte i))%nat
       /\ Z.of_nat (length (chunk_of 2 [x61; x62; x63]%byte i)) <= 2.
Proof.
  split; [lia|]. apply (script_chunks_partition_file 2 [x61; x62; x63]%byte). lia.
Defined.

(** * No request touches a directory *)

Lemma writeFileSync_dirs st p b st' :
  writeFileSync st p b = Ok st' -> dirs st' = dirs st.
Proof. intros H. by apply writeFileSync_Ok in H as [-> _]. Qed.

Lemma renameSync_dirs st src dst st' :
  renameSync st src dst = Ok st' -> dirs st' = dirs st.
Proof. intros H. by apply renameSync_Ok in H as (b & _ & ->). Qed.

Lemma unlinkSync_dirs st p st' :
  unlinkSync st p = Ok st' -> dirs st' = dirs st.
Proof.
  unfold unlinkSync. destruct (readFileSync st p); simpl; [|done].
  by intros [= <-].
Qed.

Lemma multer_single_dirs d now suffix st part st' f :
  multer_single d now suffix st part = Ok (st', f) -> dirs st' = dirs st.
Proof.
  unfold multer_single. destruct part as [b|]; [|by intros [= <- _]].
  destruct (writeFileSync st _ (Raw b)) as [s|] eqn:Hw; simpl; [|done].
  intros [= <- _]. by apply writeFileSync_dirs in Hw.
Qed.

Lemma upload_chunk_dirs d st id ci f :
  dirs (fst (upload_chunk d st id ci f)) = dirs st.
Proof.
  unfold upload_chunk.
  destruct (negb (truthy id) || negb (truthy ci))%bool; [done|].
  destruct (readJSON st _) as [[m|]|]; [|done..].
  destruct f as [src|]; [|done].
  destruct (renameSync st src _) as [st1|] eqn:Hr; [|done].
  apply renameSync_dirs in Hr.
  destruct (writeFileSync st1 _ _) as [st2|] eqn:Hw; simpl; [|done].
  apply writeFileSync_dirs in Hw. congruence.
Qed.

Lemma post_upload_chunk_dirs d now suffix st id ci part :
  dirs (fst (post_upload_chunk d now suffix st id ci part)) = dirs st.
Proof.
  unfold post_upload_chunk.
  destruct (multer_single d now suffix st part) as [[st' f]|] eqn:Hm; [|done].
  apply multer_single_dirs in Hm. by rewrite upload_chunk_dirs.
Qed.

Lemma upload_init_dirs d now rnd st f t :
  dirs (fst (upload_init d now rnd st f t)) = dirs st.
Proof.
  unfold upload_init.
  destruct (negb (truthy f) || negb (truthy t))%bool; [done|].
  destruct (writeFileSync st _ _) as [st'|] eqn:Hw; simpl; [|done].
  by apply writeFileSync_dirs in Hw.
Qed.

Lemma upload_complete_dirs d now st id :
  dirs (fst (fst (upload_complete d now st id))) = dirs st.
Proof.
  unfold upload_complete.
  destruct (negb (truthy id)); [done|].
  destruct (readJSON st _) as [[m|]|]; [|done..].
  destruct (negb _); [done|].
  destruct (List.find _ _); [done|].
  destruct (fileName m); try done.
  destruct (unlinkSync st _) as [st'|] eqn:Hu; simpl; [|done].
  by apply unlinkSync_dirs in Hu.
Qed.

Lemma pipe_chunks_dirs dst l : forall st,
  dirs (outcome_store (pipe_chunks st dst l)) = dirs st.
Proof.
  induction l as [|c l IH]; intros st; simpl; [done|].
  destruct (readFileSync st c) as [data|]; [|done].
  destruct (unlinkSync _ c) as [st2|] eqn:Hu; [|done].
  apply unlinkSync_dirs in Hu. by rewrite IH, Hu.
Qed.

Lemma run_task_dirs st t : dirs (outcome_store (run_task st t)) = dirs st.
Proof.
  unfold run_task, open_truncate.
  destruct (writeFileSync st _ _) as [st0|] eqn:Hw; [|done].
  apply writeFileSync_dirs in Hw. by rewrite pipe_chunks_dirs.
Qed.

Lemma handle_dirs d st r : dirs (handle d st r) = dirs st.
Proof.
  destruct r as [now rnd f t|now suffix id ci part|id|now id]; simpl.
  - apply upload_init_dirs.
  - apply post_upload_chunk_dirs.
  - done.
  - unfold complete_and_assemble.
    pose proof (upload_complete_dirs d now st id) as Hc.
    destruct (upload_complete d now st id) as [[st' r] [job|]]; simpl in *.
    + by rewrite run_task_dirs.
    + done.
Qed.

(** X13.  No request to /upload/init, /upload/chunk, /upload/status or
    /upload/complete creates or removes a directory, whatever its
    arguments and however it ends (an error answer, a thrown exception,
    an assembly that crashes half-way): the layout the start-up code
    leaves holds after any sequence of such requests. *)
Theorem requests_keep_layout d reqs : forall st,
  let st' := fold_left (handle d) reqs st in
  dirs st' = dirs st /\ layout_ok d st' = layout_ok d st.
Proof.
  induction reqs as [|r reqs IH]; intros st; simpl; [done|].
  destruct (IH (handle d st r)) as [Hd Hl]. simpl in Hd, Hl.
  rewrite Hd, Hl. split; [apply handle_dirs|].
  apply layout_ok_dirs, handle_dirs.
Qed.

Lemma complete_answer_has_job d now st id s u :
  upload_complete d now st id <> (s, RComplete u, None).
Proof. unfold upload_complete. repeat case_match; congruence. Qed.

Lemma find_name_In name page :
  In name page -> exists t, List.find (String.eqb name) page = Some t.
Proof.
  induction page as [|t page IH]; simpl; [done|].
  destruct (String.eqb_spec name t) as [->|Hne]; [eauto|].
  intros [->|Hin]; [done|by apply IH].
Qed.

Lemma find_name_not_In name page :
  ~ In name page -> List.find (String.eqb name) page = None.
Proof.
  induction page as [|t page IH]; simpl; [done|].
  destruct (String.eqb_spec name t) as [->|Hne]; [tauto|].
  intros Hn. apply IH. tauto.
Qed.

Section RoundTrip.
Variable d : list string.
Variable cs : Z.
Hypothesis Hcs : 0 < cs.
Variable env : draws.
Hypothesis Hsuf : forall i, base36 (d_chunk_suffix env i) = true.

Lemma send_chunks_register id file st :
  send_chunks d cs env (JStr id) [] file st
  = register_all d st id (chunk_requests cs env file).
Proof.
  unfold send_chunks, register_all, chunk_requests.
  generalize (seqZ 1 (total_chunks cs file)). intros l. revert st.
  induction l as [|i l IH]; intros st; cbn [fold_left map]; [done|].
  rewrite bool_decide_eq_false_2 by apply not_elem_of_nil.
  by rewrite IH.
Qed.

Lemma chunk_requests_index file : map c_index (chunk_requests cs env file)
                                  = seqZ 1 (total_chunks cs file).
Proof.
  unfold chunk_requests. rewrite map_map. simpl. apply map_id.
Qed.

Lemma uploadFile_spec page st name file :
  layout_ok d st = true -> name <> "" -> no_sep name = true -> file <> [] ->
  In name page ->
  let cat := categoryForExt (Path.extname name) in
  let stored := pretty (d_complete_now env) +:+ "-" +:+ name in
  let id := pretty (d_init_now env) +:+ "-" +:+ pretty (d_init_rnd env) in
  exists st',
    uploadFile d cs env page st name file
    = Completed (Done st') (RComplete ("/uploads/" +:+ cat +:+ "/" +:+ stored))
    /\ files st' !! (UPLOAD_ROOT d ++ [cat; stored])%list = Some (Raw file)
    /\ dirs st' = dirs st
    /\ files st' !! (TMP_DIR d ++ [id +:+ ".json"])%list = None
    /\ forall i, 1 <= i <= total_chunks cs file ->
         files st' !! (TMP_DIR d ++ [id +:+ ".part" +:+ pretty i])%list = None.
Proof.
  intros Hlay Hne Hsep Hfile Hpage cat stored id.
  destruct (find_name_In name page Hpage) as [t Hfind].
  set (total := total_chunks cs file).
  assert (1 <= total) as Htot.
  { unfold total, total_chunks.
    destruct (ceil_div_spec (Z.of_nat (length file)) cs) as (H0 & Hup & _);
      [lia|done|].
    assert (0 < length file)%nat by (destruct file; [done|simpl; lia]). nia. }
  unfold uploadFile. fold total.
  rewrite upload_init_spec; [|done|by apply truthy_str|]; cycle 1.
  { simpl. apply negb_true_iff, Z.eqb_neq. lia. }
  fold id. rewrite Hfind.
  assert (no_sep id = true) as Hid by apply session_id_no_sep.
  assert (id <> "") as Hidne by apply session_id_nonempty.
  unfold parseInt_val. cbn [to_string]. rewrite parseInt_pretty_Z. cbn [json_num].
  set (m := Manifest (JStr name) (Some total) []).
  set (st1 := put st _ (Doc m)).
  assert (layout_ok d st1 = true) as Hlay1 by by rewrite (layout_ok_dirs d st).
  assert (files st1 !! (TMP_DIR d ++ [id +:+ ".json"])%list = Some (Doc m)) as Hm1
    by (unfold st1; cbn [put files]; by rewrite lookup_insert_eq).
  unfold upload_status. rewrite truthy_str by done. cbn [negb].
  rewrite (manifest_readJSON d st1 id m) by done. cbn [uploadedChunks m].
  rewrite send_chunks_register.
  destruct (register_all_spec d id Hid Hidne (chunk_requests cs env file) st1 m)
    as (Hlay2 & Hm2 & Hparts & _); try done.
  { rewrite chunk_requests_index. apply NoDup_seqZ. }
  { intros r _. apply not_elem_of_nil. }
  { unfold chunk_requests. apply Forall_forall. intros r Hr.
    apply list_elem_of_In, in_map_iff in Hr as (i & <- & _). apply Hsuf. }
  assert (dirs (register_all d st1 id (chunk_requests cs env file)) = dirs st)
    as Hdirs2.
  { generalize (chunk_requests cs env file). intros l.
    change (dirs st) with (dirs st1). generalize st1. clear.
    induction l as [|r l IH]; intros s; simpl; [done|].
    rewrite IH. unfold register. apply post_upload_chunk_dirs. }
  set (st2 := register_all d st1 id (chunk_requests cs env file)) in *.
  set (m2 := Manifest _ _ _) in Hm2.
  assert (Z.of_nat (length (uploadedChunks m2)) = total) as Hlen.
  { unfold m2. cbn [uploadedChunks m]. rewrite app_nil_l, length_map.
    rewrite <- (length_map c_index), chunk_requests_index, length_seqZ.
    fold total. lia. }
  destruct (complete_spec d (d_complete_now env) st2 id m2 name total
              (chunk_of cs file) Hlay2 Hid Hidne Hm2)
    as (st3 & Hrun & Hstored); try done.
  { intros i Hi.
    apply (Hparts (ChunkReq i (chunk_of cs file i) (d_chunk_now env i)
                            (d_chunk_suffix env i))).
    unfold chunk_requests. apply in_map_iff. exists i. split; [done|].
    apply list_elem_of_In, elem_of_seqZ. fold total. lia. }
  exists st3. fold cat stored in Hrun, Hstored. rewrite Hrun. split; [done|].
  split; [rewrite Hstored; unfold total; by rewrite chunks_partition|].
  unfold complete_and_assemble in Hrun.
  destruct (upload_complete d (d_complete_now env) st2 (JStr id))
    as [[sx r] [job|]] eqn:Hc.
  - injection Hrun as Hrun ->.
    destruct (completion_run d (d_complete_now env) st2 id m2 name sx
                ("/uploads/" +:+ cat +:+ "/" +:+ stored) job)
      as (_ & _ & st3' & content & Hrun' & Hd & _ & Hgone & Hparts' & _);
      try done.
    { by apply manifest_readJSON. }
    rewrite Hrun in Hrun'. injection Hrun' as <-.
    rewrite Hd, Hdirs2. split; [done|]. split; [done|].
    intros i Hi. apply Hparts'. rewrite Hlen. done.
  - injection Hrun as -> ->. by apply complete_answer_has_job in Hc.
Qed.

End RoundTrip.





(** X16.  A session that /upload/init has just created reports no
    uploaded chunk, whatever the store held before: the resume check
    of the script, which asks for the status of the session it has just
    created, never finds a chunk to skip. *)
Theorem new_session_reports_no_chunk d now rnd st f t st1 id :
  layout_ok d st = true ->
  upload_init d now rnd st f t = (st1, RInit id) ->
  upload_status d st1 (JStr id) = RStatus [].
Proof.
  intros Hlay Hinit.
  destruct (truthy f) eqn:Hf; [|by unfold upload_init in Hinit; rewrite Hf in Hinit].
  destruct (truthy t) eqn:Ht;
    [|by unfold upload_init in Hinit; rewrite Hf, Ht in Hinit].
  rewrite upload_init_spec in Hinit by done. injection Hinit as <- <-.
  unfold upload_status. rewrite truthy_str by apply session_id_nonempty.
  cbn [negb].
  rewrite (manifest_readJSON d _ _ (Manifest f (json_num (parseInt_val t)) []));
    [done| |apply session_id_no_sep|].
  - by rewrite (layout_ok_dirs d st).
  - cbn [put files]. by rewrite lookup_insert_eq.
Qed.

Lemma new_session_reports_no_chunk_witness :
  layout_ok example_dirname example_store = true
  /\ upload_init example_dirname 1700000000000 42 example_store
                 (JStr "a.png") (JNum 2)
     = (put example_store (TMP_DIR example_dirname ++ ["1700000000000-42.json"])
            (Doc (Manifest (JStr "a.png") (Some 2) [])),
        RInit "1700000000000-42")
  /\ upload_status example_dirname
       (put example_store (TMP_DIR example_dirname ++ ["1700000000000-42.json"])
            (Doc (Manifest (JStr "a.png") (Some 2) [])))
       (JStr "1700000000000-42") = RStatus [].
Proof.
  assert (layout_ok example_dirname example_store = true) as Hlay by by vm_compute.
  assert (upload_init example_dirname 1700000000000 42 example_store
                      (JStr "a.png") (JNum 2)
          = (put example_store
                 (TMP_DIR example_dirname ++ ["1700000000000-42.json"])
                 (Doc (Manifest (JStr "a.png") (Some 2) [])),
             RInit "1700000000000-42")) as Hinit
    by exact (upload_init_spec example_dirname 1700000000000 42 example_store
                (JStr "a.png") (JNum 2) Hlay eq_refl eq_refl).
  split; [exact Hlay|]. split; [exact Hinit|].
  exact (new_session_reports_no_chunk example_dirname 1700000000000 42
           example_store (JStr "a.png") (JNum 2) _ _ Hlay Hinit).
Defined.
